(** * DroneWatch asset tools: resilient fetch orchestration

    A shallow embedding of the Python modules under [tools/]:
    - [download_manager.py]  (RateLimiter, DownloadManager),
    - [cached_downloads.py]  (CACHE_EXPIRY, AssetCache),
    - [optimized_downloads.py] (Overpass executor, regional chunking),
    - [alternative_sources.py] (alternative and fallback sources).

    Python [float]s are idealised as rationals ([Q]): the arithmetic of
    the rate limiter is exact and its sleeps are never refused, which is
    the behaviour of the code on the inputs that [is_double],
    [whole_seconds] and [limiter_in_range] delimit; the conversion of an
    [int] to a [float] rounds and overflows as in the code
    ([float_of_int]).  Python [int]s are
    [Z]; [str] is [string] (holding the UTF-8 bytes); a [dict] that is
    used as a JSON object is an association list in insertion order; the
    cache index, a [dict] keyed by strings, is a [gmap].  Effects (clock,
    sleeping, the two data directories, the network, the random generator,
    the logging module) are threaded through an explicit [World]; what is
    written with [print] is left out. *)

From Stdlib Require Import ZArith QArith Qround String Ascii List Lia Lqa DecimalString.
From stdpp Require Import base gmap strings list.
Import ListNotations.

Local Open Scope string_scope.
Local Open Scope list_scope.
Local Open Scope Z_scope.
Local Set Warnings "-register-all".

(** ** JSON values, as produced by [json.loads] and consumed by [json.dumps] *)

Inductive Json : Type :=
| JNull
| JBool (b : bool)
| JInt (z : Z)
| JFloat (q : Q)
| JStr (s : string)
| JList (l : list Json)
| JDict (d : list (string * Json)).

(** [d.get(k)]: the first binding of [k], [None] when absent. *)
Fixpoint dict_get (k : string) (d : list (string * Json)) : option Json :=
  match d with
  | [] => None
  | (k', v) :: d' => if String.eqb k k' then Some v else dict_get k d'
  end.

(** [d.get(k, default)]. *)
Definition dict_get_default (k : string) (d : list (string * Json)) (default : Json) : Json :=
  match dict_get k d with
  | Some v => v
  | None => default
  end.

(** Python truthiness of a JSON value (what [or] and [if] test). *)
Definition truthy (v : Json) : bool :=
  match v with
  | JNull => false
  | JBool b => b
  | JInt z => negb (z =? 0)
  | JFloat q => negb (Qeq_bool q 0)
  | JStr s => negb (String.eqb s "")
  | JList l => match l with [] => false | _ => true end
  | JDict d => match d with [] => false | _ => true end
  end.

(** [a or b]. *)
Definition py_or (a b : Json) : Json := if truthy a then a else b.

(** ** Exceptions and results *)

Inductive exn : Type :=
| AttributeError
| TypeError
| ValueError
| KeyError
| FileNotFoundError
| JSONDecodeError
| URLError
| OverflowError
| OtherError (msg : string).

Inductive Res (A : Type) : Type :=
| Ok (a : A)
| Raise (e : exn).
Arguments Ok {A} a.
Arguments Raise {A} e.

(** ** The world the tools run in *)

(** A text document is kept up to JSON parsing: [JsonDoc v] stands for a
    text that [json.loads] parses to [v] (in particular the text
    [json.dumps(v)]), [RawText s] for a text that is not valid JSON. *)
Inductive Document : Type :=
| JsonDoc (v : Json)
| RawText (s : string).

Definition json_dumps (v : Json) : Document := JsonDoc v.

Definition json_loads (d : Document) : Res Json :=
  match d with
  | JsonDoc v => Ok v
  | RawText _ => Raise JSONDecodeError
  end.

Record File : Type := mkFile {
  f_content : Document;
  f_mtime : Q             (* stat().st_mtime, seconds *)
}.

(** One [urlopen] call: the address and the query text sent with it. *)
Record Request : Type := mkRequest {
  rq_url : string;
  rq_data : string
}.

Inductive Reply : Type :=
| Body (d : Document)     (* what [response.read().decode()] returns *)
| NetFailure (e : exn).   (* timeout, connection error, bad status *)

(** Records of the [logging] module, kept structured. *)
Inductive LogRecord : Type :=
| LogRateLimiting (wait_time : Q)                          (* info *)
| LogStarting (asset_type : string)                        (* info *)
| LogUsingCached (asset_type : string)                     (* info *)
| LogDownloaded (asset_type strategy : string) (duration : Q) (* info *)
| LogStrategyFailed (strategy asset_type : string) (e : exn)  (* warning *)
| LogUsingFallback (asset_type : string)                   (* warning *)
| LogAllFailed (asset_type : string).                      (* error *)

Record World : Type := mkWorld {
  w_clock : Q;                              (* time.time() *)
  w_sleeps : list Q;                        (* every time.sleep(d), oldest first *)
  w_assets : gmap string File;              (* ASSET_DIR *)
  w_cache : gmap string File;               (* CACHE_DIR *)
  w_network : nat -> Request -> Reply;      (* what the n-th urlopen call meets *)
  w_requests : list Request;                (* urlopen calls issued, oldest first *)
  w_random : nat -> Q;                      (* the n-th draw of the generator *)
  w_draws : nat;                            (* draws consumed *)
  w_log : list LogRecord                    (* oldest first *)
}.

(** Functions of the Python platform that the tools call and that are not
    spelled out here: the formatting of dates, the parsing of a number
    written in a [str], two [str] methods, the byte length of a text. *)
Record PyLib : Type := mkPyLib {
  isoformat : Z -> string;                       (* datetime.isoformat() *)
  strftime_utc : Q -> string;                    (* time.strftime(fmt, time.gmtime()) *)
  float_of_str : string -> option Q;             (* float(s), None for ValueError *)
  str_replace : string -> string -> string -> string;  (* s.replace(old, new) *)
  str_split : string -> list string;             (* s.split() *)
  doc_size : Document -> Z                       (* len(text.encode()) *)
}.

(** *** The effect monad: state passing with exceptions *)

Definition M (A : Type) : Type := World -> Res A * World.

Definition ret {A : Type} (a : A) : M A := fun w => (Ok a, w).

Definition bind {A B : Type} (m : M A) (k : A -> M B) : M B :=
  fun w =>
    match m w with
    | (Ok a, w') => k a w'
    | (Raise e, w') => (Raise e, w')
    end.

Definition raise {A : Type} (e : exn) : M A := fun w => (Raise e, w).

(** [try: body  except Exception as e: handler(e)]. *)
Definition try_except {A : Type} (body : M A) (handler : exn -> M A) : M A :=
  fun w =>
    match body w with
    | (Ok a, w') => (Ok a, w')
    | (Raise e, w') => handler e w'
    end.

Notation "'let*' x ':=' c 'in' k" := (bind c (fun x => k))
  (at level 10, x pattern, c at level 100, k at level 200).

(** How a statement of a [try] block ends, handed on as a value: the
    handler then sees the objects as the statements before it left them. *)
Definition catch {A : Type} (m : M A) : M (Res A) :=
  fun w => match m w with (r, w') => (Ok r, w') end.

Definition lift {A : Type} (r : Res A) : M A := fun w => (r, w).

(** *** Primitive effects *)

Definition Qltb (x y : Q) : bool := negb (Qle_bool y x).

(** [time.time()]. *)
Definition time_time : M Q := fun w => (Ok (w_clock w), w).

(** The reading of [datetime.now()] in a world, in microseconds. *)
Definition now_us (w : World) : Z := Qfloor (w_clock w * 1000000).

(** [datetime.now()]. *)
Definition datetime_now : M Z := fun w => (Ok (now_us w), w).

(** [timedelta(days=d)], in microseconds. *)
Definition timedelta_days (d : Z) : Z := d * 86400000000.

(** [int(x)] on a float: truncation towards zero. *)
Definition py_int (x : Q) : Z := if Qle_bool 0 x then Qfloor x else Qceiling x.

(** [str(n)] on an int. *)
Definition py_str (n : Z) : string := NilZero.string_of_int (Z.to_int n).

(** [time.sleep(d)]: the clock moves on by [d]. *)
Definition time_sleep (d : Q) : M unit :=
  fun w => (Ok tt,
            mkWorld (w_clock w + d) (w_sleeps w ++ [d]) (w_assets w) (w_cache w)
                    (w_network w) (w_requests w) (w_random w) (w_draws w) (w_log w)).

Definition logging (r : LogRecord) : M unit :=
  fun w => (Ok tt,
            mkWorld (w_clock w) (w_sleeps w) (w_assets w) (w_cache w)
                    (w_network w) (w_requests w) (w_random w) (w_draws w) (w_log w ++ [r])).

(** [random.random()]: the next draw, brought into [0, 1). *)
Definition random_random : M Q :=
  fun w =>
    let u := w_random w (w_draws w) in
    (Ok (u - inject_Z (Qfloor u))%Q,
     mkWorld (w_clock w) (w_sleeps w) (w_assets w) (w_cache w)
             (w_network w) (w_requests w) (w_random w) (S (w_draws w)) (w_log w)).

(** [random.uniform(a, b)] is [a + (b - a) * random()]. *)
Definition random_uniform (a b : Q) : M Q :=
  let* u := random_random in ret (a + (b - a) * u)%Q.

(** [random.choice(seq)] on a non-empty sequence: [seq[int(random() * len(seq))]]. *)
Definition random_choice {A : Type} (seq : list A) (default : A) : M A :=
  let* u := random_random in
  ret (nth (Z.to_nat (Qfloor (u * inject_Z (Z.of_nat (length seq))))) seq default).

(** The world once one more request has been sent. *)
Definition add_request (rq : Request) (w : World) : World :=
  mkWorld (w_clock w) (w_sleeps w) (w_assets w) (w_cache w)
          (w_network w) (w_requests w ++ [rq]) (w_random w) (w_draws w) (w_log w).

(** [urlopen(url).read().decode()]. *)
Definition urlopen (rq : Request) : M Document :=
  fun w =>
    match w_network w (length (w_requests w)) rq with
    | Body d => (Ok d, add_request rq w)
    | NetFailure e => (Raise e, add_request rq w)
    end.

(** ** [download_manager.py]: RateLimiter *)

Module RateLimiter.

Record t : Type := mk {
  base_delay : Q;
  last_request : Q;
  consecutive_failures : Z;
  total_requests : Z
}.

(** [__init__(self, base_delay=30.0)]. *)
Definition init (base_delay : Q) : t := mk base_delay 0 0 0.

(** The local [required_delay] of [wait_if_needed], as an exact product.
    The code multiplies floats: its value is this one when [3 ** n] and the
    product are binary64 numbers, it is rounded otherwise, and from
    [n = 647] the conversion of [3 ** n] raises [OverflowError]. *)
Definition required_delay (self : t) : Q :=
  let required_delay := base_delay self in
  if 0 <? consecutive_failures self
  then (required_delay * inject_Z (3 ^ consecutive_failures self))%Q
  else required_delay.

(** [wait_if_needed], with exact arithmetic and a [time.sleep] that takes
    every argument: the code raises [OverflowError] where [3 ** n] is too
    large for a float or the wait exceeds what [time.sleep] accepts. *)
Definition wait_if_needed (self : t) : M t :=
  let* now := time_time in
  let time_since_last := (now - last_request self)%Q in
  let required_delay := required_delay self in
  let* _ :=
    if Qltb time_since_last required_delay
    then
      let wait_time := (required_delay - time_since_last)%Q in
      let* _ := logging (LogRateLimiting wait_time) in
      time_sleep wait_time
    else ret tt in
  let* now' := time_time in
  ret (mk (base_delay self) now' (consecutive_failures self) (total_requests self + 1)).

Definition record_success (self : t) : t :=
  mk (base_delay self) (last_request self) 0 (total_requests self).

Definition record_failure (self : t) : t :=
  mk (base_delay self) (last_request self) (consecutive_failures self + 1) (total_requests self).

End RateLimiter.

(** ** [hashlib.md5], after RFC 1321, on 32-bit words held in [Z] *)

Module MD5.

Definition add32 (x y : Z) : Z := (x + y) mod 2 ^ 32.
Definition not32 (x : Z) : Z := Z.lxor x 0xffffffff.
Definition rotl32 (x c : Z) : Z :=
  Z.lor (Z.shiftl x c mod 2 ^ 32) (Z.shiftr x (32 - c)).

(** Per-round shift amounts. *)
Definition shifts : list Z :=
  [ 7; 12; 17; 22; 7; 12; 17; 22; 7; 12; 17; 22; 7; 12; 17; 22;
    5; 9; 14; 20; 5; 9; 14; 20; 5; 9; 14; 20; 5; 9; 14; 20;
    4; 11; 16; 23; 4; 11; 16; 23; 4; 11; 16; 23; 4; 11; 16; 23;
    6; 10; 15; 21; 6; 10; 15; 21; 6; 10; 15; 21; 6; 10; 15; 21 ].

(** [floor(2^32 * abs(sin(i + 1)))]. *)
Definition sines : list Z :=
  [ 0xd76aa478; 0xe8c7b756; 0x242070db; 0xc1bdceee;
    0xf57c0faf; 0x4787c62a; 0xa8304613; 0xfd469501;
    0x698098d8; 0x8b44f7af; 0xffff5bb1; 0x895cd7be;
    0x6b901122; 0xfd987193; 0xa679438e; 0x49b40821;
    0xf61e2562; 0xc040b340; 0x265e5a51; 0xe9b6c7aa;
    0xd62f105d; 0x02441453; 0xd8a1e681; 0xe7d3fbc8;
    0x21e1cde6; 0xc33707d6; 0xf4d50d87; 0x455a14ed;
    0xa9e3e905; 0xfcefa3f8; 0x676f02d9; 0x8d2a4c8a;
    0xfffa3942; 0x8771f681; 0x6d9d6122; 0xfde5380c;
    0xa4beea44; 0x4bdecfa9; 0xf6bb4b60; 0xbebfbc70;
    0x289b7ec6; 0xeaa127fa; 0xd4ef3085; 0x04881d05;
    0xd9d4d039; 0xe6db99e5; 0x1fa27cf8; 0xc4ac5665;
    0xf4292244; 0x432aff97; 0xab9423a7; 0xfc93a039;
    0x655b59c3; 0x8f0ccc92; 0xffeff47d; 0x85845dd1;
    0x6fa87e4f; 0xfe2ce6e0; 0xa3014314; 0x4e0811a1;
    0xf7537e82; 0xbd3af235; 0x2ad7d2bb; 0xeb86d391 ].

Definition state : Type := (Z * Z * Z * Z)%type.

Definition init_state : state := (0x67452301, 0xefcdab89, 0x98badcfe, 0x10325476).

(** Operation [i] (0..63) on the sixteen words [m] of a block. *)
Definition step (m : list Z) (st : state) (i : nat) : state :=
  let '(a, b, c, d) := st in
  let '(f, g) :=
    if (i <? 16)%nat then (Z.lor (Z.land b c) (Z.land (not32 b) d), i)
    else if (i <? 32)%nat then (Z.lor (Z.land d b) (Z.land (not32 d) c), (5 * i + 1) mod 16)%nat
    else if (i <? 48)%nat then (Z.lxor (Z.lxor b c) d, (3 * i + 5) mod 16)%nat
    else (Z.lxor c (Z.lor b (not32 d)), (7 * i) mod 16)%nat in
  let f' := add32 (add32 (add32 f a) (nth i sines 0)) (nth g m 0) in
  (d, add32 b (rotl32 f' (nth i shifts 0)), b, c).

Definition process_block (st : state) (m : list Z) : state :=
  let '(a0, b0, c0, d0) := st in
  let '(a, b, c, d) := fold_left (step m) (seq 0 64) st in
  (add32 a0 a, add32 b0 b, add32 c0 c, add32 d0 d).

(** Little-endian bytes of a word and back. *)
Fixpoint le_bytes (n : nat) (x : Z) : list Z :=
  match n with
  | O => []
  | S n' => x mod 256 :: le_bytes n' (x / 256)
  end.

Fixpoint le_word (bytes : list Z) : Z :=
  match bytes with
  | [] => 0
  | b :: bytes' => b + 256 * le_word bytes'
  end.

(** The message followed by 0x80, zeros up to 56 modulo 64, and the bit
    length on eight bytes. *)
Definition pad (msg : list Z) : list Z :=
  let len := Z.of_nat (length msg) in
  let zeros := Z.to_nat ((55 - len) mod 64) in
  msg ++ [0x80] ++ repeat 0 zeros ++ le_bytes 8 ((8 * len) mod 2 ^ 64).

(** Cuts a list into chunks of [n] elements ([fuel] bounds their number). *)
Fixpoint chunks {A : Type} (fuel n : nat) (l : list A) : list (list A) :=
  match fuel with
  | O => []
  | S fuel' =>
      match l with
      | [] => []
      | _ => take n l :: chunks fuel' n (drop n l)
      end
  end.

Definition words_of_block (block : list Z) : list Z :=
  map le_word (chunks 16 4 block).

Definition digest (msg : list Z) : list Z :=
  let padded := pad msg in
  let blocks := chunks (length padded) 64 padded in
  let '(a, b, c, d) := fold_left process_block (map words_of_block blocks) init_state in
  le_bytes 4 a ++ le_bytes 4 b ++ le_bytes 4 c ++ le_bytes 4 d.

Definition hex_digit (x : Z) : ascii :=
  nth (Z.to_nat x)
      ["0"; "1"; "2"; "3"; "4"; "5"; "6"; "7"; "8"; "9";
       "a"; "b"; "c"; "d"; "e"; "f"]%char "0"%char.

Fixpoint hex (bytes : list Z) : string :=
  match bytes with
  | [] => ""
  | b :: bytes' => String (hex_digit (b / 16)) (String (hex_digit (b mod 16)) (hex bytes'))
  end.

(** [s.encode()]: the bytes of the text. *)
Fixpoint encode (s : string) : list Z :=
  match s with
  | EmptyString => []
  | String c s' => Z.of_N (N_of_ascii c) :: encode s'
  end.

(** [hashlib.md5(data).hexdigest()]. *)
Definition hexdigest (data : list Z) : string := hex (digest data).

End MD5.

(** ** [cached_downloads.py] *)

(** Files of [CACHE_DIR]. *)

(** [path.write_text(text)]. *)
Definition cache_write_text (name : string) (text : Document) : M unit :=
  fun w => (Ok tt,
            mkWorld (w_clock w) (w_sleeps w) (w_assets w)
                    (<[name := mkFile text (w_clock w)]> (w_cache w))
                    (w_network w) (w_requests w) (w_random w) (w_draws w) (w_log w)).

(** [path.exists()]. *)
Definition cache_exists (name : string) : M bool :=
  fun w => (Ok (bool_decide (is_Some (w_cache w !! name))), w).

(** [path.read_text()]. *)
Definition cache_read_text (name : string) : M Document :=
  fun w => match w_cache w !! name with
           | Some f => (Ok (f_content f), w)
           | None => (Raise FileNotFoundError, w)
           end.

(** [path.stat()]. *)
Definition cache_stat (name : string) : M File :=
  fun w => match w_cache w !! name with
           | Some f => (Ok f, w)
           | None => (Raise FileNotFoundError, w)
           end.

(** [path.unlink()]. *)
Definition cache_unlink (name : string) : M unit :=
  fun w => match w_cache w !! name with
           | Some f =>
               (Ok tt,
                mkWorld (w_clock w) (w_sleeps w) (w_assets w) (delete name (w_cache w))
                        (w_network w) (w_requests w) (w_random w) (w_draws w) (w_log w))
           | None => (Raise FileNotFoundError, w)
           end.

(** [len(v)]. *)
Definition py_len (v : Json) : Res Z :=
  match v with
  | JStr s => Ok (Z.of_nat (String.length s))
  | JList l => Ok (Z.of_nat (length l))
  | JDict d => Ok (Z.of_nat (length d))
  | _ => Raise TypeError
  end.

(** [v.get(k, default)] on a value that has to be a dict. *)
Definition py_get (v : Json) (k : string) (default : Json) : Res Json :=
  match v with
  | JDict d => Ok (dict_get_default k d default)
  | _ => Raise AttributeError
  end.

(** Cache configuration: days before an entry of a category expires. *)
Definition CACHE_EXPIRY : gmap string Z :=
  list_to_map
    [ ("airports", 7); ("harbours", 14); ("military", 30);
      ("energy", 3); ("rail", 14); ("border", 30) ].

(** [CACHE_EXPIRY.get(asset_type, 7)]. *)
Definition expiry_days (asset_type : string) : Z :=
  default 7 (CACHE_EXPIRY !! asset_type).

Module AssetCache.

(** One value of [cache_index], complete as [cache_data] writes it; the
    [timestamp], kept by the code as ISO text, is the [datetime] it denotes
    (microseconds).  An index file whose entries lack a key or hold a
    timestamp that is no ISO text, on which the code raises, has no
    counterpart here. *)
Record CacheInfo : Type := mkInfo {
  ci_asset_type : string;
  ci_query_hash : string;
  ci_filename : string;
  ci_timestamp : Z;
  ci_size : Z;
  ci_file_size : Z
}.

Record t : Type := mk {
  cache_index : gmap string CacheInfo
}.

(** [cache_index_path], relative to [CACHE_DIR]. *)
Definition cache_index_path : string := "cache_index.json".

Section WithLib.
Context (lib : PyLib).

Definition cache_info_to_json (ci : CacheInfo) : Json :=
  JDict [ ("asset_type", JStr (ci_asset_type ci));
          ("query_hash", JStr (ci_query_hash ci));
          ("filename", JStr (ci_filename ci));
          ("timestamp", JStr (isoformat lib (ci_timestamp ci)));
          ("size", JInt (ci_size ci));
          ("file_size", JInt (ci_file_size ci)) ].

Definition index_to_json (idx : gmap string CacheInfo) : Json :=
  JDict (map (fun kv => (fst kv, cache_info_to_json (snd kv))) (map_to_list idx)).

Definition _save_cache_index (self : t) : M unit :=
  let doc := index_to_json (cache_index self) in
  cache_write_text cache_index_path (json_dumps doc).

Definition get_cache_key (asset_type query_hash : string) : string :=
  asset_type +:+ "_" +:+ query_hash.

(** [hashlib.md5(query.encode()).hexdigest()[:12]]. *)
Definition query_hash (query : string) : string :=
  String.substring 0 12 (MD5.hexdigest (MD5.encode query)).

Definition is_cache_valid (self : t) (asset_type query_hash : string) : M bool :=
  let cache_key := get_cache_key asset_type query_hash in
  match cache_index self !! cache_key with
  | None => ret false
  | Some cache_info =>
      let cached_time := ci_timestamp cache_info in
      let expiry_days := expiry_days asset_type in
      let* now := datetime_now in
      ret (now - cached_time <? timedelta_days expiry_days)
  end.

(** [None] is the miss; a file that holds the JSON text [null] gives
    [Some JNull] here, which the caller of the code cannot tell from the
    miss (see [returned_value]). *)
Definition get_cached_data (self : t) (asset_type query_hash : string)
  : M (option Json) :=
  let* valid := is_cache_valid self asset_type query_hash in
  if negb valid then ret None
  else
    let cache_key := get_cache_key asset_type query_hash in
    match cache_index self !! cache_key with
    | None => raise KeyError
    | Some cache_info =>
        let cache_file := ci_filename cache_info in
        let* present := cache_exists cache_file in
        if present
        then
          try_except
            (let* text := cache_read_text cache_file in
             let* data := lift (json_loads text) in
             ret (Some data))
            (fun _ => ret None)
        else ret None
    end.

(** Returns the cache after the write ([self] is updated in place). *)
Definition cache_data (self : t) (asset_type query_hash : string) (data : Json)
  : M t :=
  let cache_key := get_cache_key asset_type query_hash in
  let* now := time_time in
  let filename := cache_key +:+ "_" +:+ py_str (py_int now) +:+ ".json" in
  let cache_file := filename in
  (* Save data *)
  let* _ := cache_write_text cache_file (json_dumps data) in
  (* Update index *)
  let* timestamp := datetime_now in
  let* elements := lift (py_get data "elements" (JList [])) in
  let* size := lift (py_len elements) in
  let* st := cache_stat cache_file in
  let file_size := doc_size lib (f_content st) in
  let self' :=
    mk (<[cache_key := mkInfo asset_type query_hash filename timestamp size file_size]>
          (cache_index self)) in
  let* _ := _save_cache_index self' in
  ret self'.

(** Unlinks each file that exists, as the loop of [clean_expired_cache]. *)
Fixpoint unlink_existing (names : list string) : M unit :=
  match names with
  | [] => ret tt
  | name :: names' =>
      let* present := cache_exists name in
      let* _ := if present then cache_unlink name else ret tt in
      unlink_existing names'
  end.

Definition clean_expired_cache (self : t) : M t :=
  let* now := datetime_now in
  let expired :=
    filter (fun kv => timedelta_days (expiry_days (ci_asset_type (snd kv)))
                      < now - ci_timestamp (snd kv))
           (map_to_list (cache_index self)) in
  let* _ := unlink_existing (map (fun kv => ci_filename (snd kv)) expired) in
  let self' := mk (foldr (fun kv idx => delete (fst kv) idx) (cache_index self) expired) in
  match expired with
  | [] => ret self'
  | _ => let* _ := _save_cache_index self' in ret self'
  end.

(** Load cache index or create new one: what [json.loads] gives for the
    index file, [{}] when the file is missing or cannot be read as JSON. *)
Definition _load_cache_index : M Json :=
  let* present := cache_exists cache_index_path in
  let* loaded :=
    if present
    then
      try_except
        (let* text := cache_read_text cache_index_path in
         let* index := lift (json_loads text) in
         ret (Some index))
        (fun _ => ret None)
    else ret None in
  match loaded with
  | Some index => ret index
  | None => ret (JDict [])
  end.




End WithLib.

End AssetCache.

(** ** Files of [ASSET_DIR] *)

Definition assets_write_text (name : string) (text : Document) : M unit :=
  fun w => (Ok tt,
            mkWorld (w_clock w) (w_sleeps w)
                    (<[name := mkFile text (w_clock w)]> (w_assets w)) (w_cache w)
                    (w_network w) (w_requests w) (w_random w) (w_draws w) (w_log w)).

Definition assets_exists (name : string) : M bool :=
  fun w => (Ok (bool_decide (is_Some (w_assets w !! name))), w).

Definition assets_stat (name : string) : M File :=
  fun w => match w_assets w !! name with
           | Some f => (Ok f, w)
           | None => (Raise FileNotFoundError, w)
           end.

(** ** More of Python on JSON values *)

Definition is_none (v : Json) : bool :=
  match v with JNull => true | _ => false end.

(** The elements a [for] loop over [v] visits. *)
Definition py_iter (v : Json) : Res (list Json) :=
  match v with
  | JList l => Ok l
  | JDict d => Ok (map (fun kv => JStr (fst kv)) d)
  | JStr s => Ok (map (fun c => JStr (String c "")) (list_ascii_of_string s))
  | _ => Raise TypeError
  end.

(** [v.items()] on a value that has to be a dict. *)
Definition py_items (v : Json) : Res (list (string * Json)) :=
  match v with
  | JDict d => Ok d
  | _ => Raise AttributeError
  end.

Fixpoint string_prefix (p s : string) : bool :=
  match p, s with
  | EmptyString, _ => true
  | String a p', String b s' => Ascii.eqb a b && string_prefix p' s'
  | String _ _, EmptyString => false
  end.

Fixpoint string_contains (sub s : string) : bool :=
  string_prefix sub s ||
  match s with
  | EmptyString => false
  | String _ s' => string_contains sub s'
  end.

Definition json_is_str (k : string) (v : Json) : bool :=
  match v with JStr s => String.eqb k s | _ => false end.

(** [k in v] for a text [k]. *)
Definition py_in (k : string) (v : Json) : Res bool :=
  match v with
  | JStr s => Ok (string_contains k s)
  | JList l => Ok (existsb (json_is_str k) l)
  | JDict d => Ok (existsb (fun kv => String.eqb k (fst kv)) d)
  | _ => Raise TypeError
  end.

(** [n / d] rounded to the nearest integer, a tie going to the even one
    (for [n >= 0] and [d > 0]). *)
Definition round_half_even (n d : Z) : Z :=
  let q := n / d in
  let r := n mod d in
  if 2 * r <? d then q
  else if d <? 2 * r then q + 1
  else if Z.even q then q else q + 1.

(** [float(z)] on an int: the nearest binary64 number (53 bits of mantissa,
    ties to even); an int that rounds to [2 ** 1024] or beyond raises
    [OverflowError: int too large to convert to float]. *)
Definition float_of_int (z : Z) : Res Q :=
  let n := Z.abs z in
  let shift := Z.max 0 (Z.log2 n + 1 - 53) in
  let m := round_half_even n (2 ^ shift) in
  let v := m * 2 ^ shift in
  if 2 ^ 1024 <=? v then Raise OverflowError
  else Ok (inject_Z (Z.sgn z * v)).

(** [float(v)]. *)
Definition py_float (lib : PyLib) (v : Json) : Res Q :=
  match v with
  | JInt z => float_of_int z
  | JFloat q => Ok q
  | JBool b => Ok (if b then 1 else 0)%Q
  | JStr s => match float_of_str lib s with
              | Some q => Ok q
              | None => Raise ValueError
              end
  | _ => Raise TypeError
  end.

Definition res_bind {A B : Type} (r : Res A) (k : A -> Res B) : Res B :=
  match r with
  | Ok a => k a
  | Raise e => Raise e
  end.

Notation "'let?' x ':=' c 'in' k" := (res_bind c (fun x => k))
  (at level 10, x pattern, c at level 100, k at level 200).

(** ** [optimized_downloads.py] *)

Module Overpass.

(** Overpass API endpoints (load balancing). *)
Definition OVERPASS_ENDPOINTS : list string :=
  [ "https://overpass-api.de/api/interpreter";
    "https://lz4.overpass-api.de/api/interpreter";
    "https://z.overpass-api.de/api/interpreter" ].

(** European regions for chunking large queries: (south, west, north, east). *)
Definition EU_REGIONS : list (string * (Z * Z * Z * Z)) :=
  [ ("nordic", (55, 4, 72, 32));
    ("western", (42, -10, 55, 8));
    ("central", (45, 8, 55, 20));
    ("southern", (35, 8, 45, 20));
    ("eastern", (45, 20, 55, 40)) ].

Definition get_random_endpoint : M string :=
  random_choice OVERPASS_ENDPOINTS "".

(** The result that stands for a failed query. *)
Definition empty_result : Json := JDict [("elements", JList [])].

(** The body of the [try] of one attempt. *)
Definition attempt_query (query : string) (attempt : Z) : M Json :=
  let* endpoint := get_random_endpoint in
  let* _ :=
    if 0 <? attempt
    then
      let* jitter := random_uniform 0 5 in
      let delay := (5 * inject_Z (3 ^ attempt) + jitter)%Q in
      time_sleep delay
    else ret tt in
  let* raw_data := urlopen (mkRequest endpoint query) in
  lift (json_loads raw_data).

(** The [for attempt in range(max_retries)] loop, over the attempts left. *)
Fixpoint retry_loop (query : string) (max_retries : Z) (attempts : list Z) : M Json :=
  match attempts with
  | [] => ret empty_result
  | attempt :: attempts' =>
      let* returned :=
        try_except
          (let* data := attempt_query query attempt in ret (Some data))
          (fun e => if attempt =? max_retries - 1 then ret (Some empty_result) else ret None) in
      match returned with
      | Some data => ret data
      | None => retry_loop query max_retries attempts'
      end
  end.

(** [range(n)]. *)
Definition range (n : Z) : list Z := map Z.of_nat (seq 0 (Z.to_nat n)).

Definition execute_query_with_retry (query : string) (max_retries : Z) : M Json :=
  retry_loop query max_retries (range max_retries).

(** *** Query texts *)

Definition nl : string := String (ascii_of_nat 10) "".
Definition quoted (s : string) : string :=
  String (ascii_of_nat 34) s +:+ String (ascii_of_nat 34) "".

(** A triple-quoted text: every line after a line break. *)
Definition text_block (lines : list string) : string :=
  foldr (fun l acc => nl +:+ l +:+ acc) "" lines.

Definition bbox_text (bbox : Z * Z * Z * Z) : string :=
  let '(south, west, north, east) := bbox in
  "(" +:+ py_str south +:+ "," +:+ py_str west +:+ ","
      +:+ py_str north +:+ "," +:+ py_str east +:+ ");".

Definition military_query (bbox : Z * Z * Z * Z) : string :=
  let b := bbox_text bbox in
  text_block
    [ "        [out:json][timeout:60];";
      "        (";
      "          node[" +:+ quoted "landuse" +:+ "=" +:+ quoted "military" +:+ "]" +:+ b;
      "          way[" +:+ quoted "landuse" +:+ "=" +:+ quoted "military" +:+ "]" +:+ b;
      "          node[" +:+ quoted "military" +:+ "]" +:+ b;
      "          way[" +:+ quoted "military" +:+ "]" +:+ b;
      "          node[" +:+ quoted "aeroway" +:+ "=" +:+ quoted "aerodrome" +:+ "]["
                        +:+ quoted "military" +:+ "=" +:+ quoted "yes" +:+ "]" +:+ b;
      "          way[" +:+ quoted "aeroway" +:+ "=" +:+ quoted "aerodrome" +:+ "]["
                       +:+ quoted "military" +:+ "=" +:+ quoted "yes" +:+ "]" +:+ b;
      "        );";
      "        out center tags;";
      "        " ].

Definition energy_query (bbox : Z * Z * Z * Z) : string :=
  let b := bbox_text bbox in
  text_block
    [ "        [out:json][timeout:60];";
      "        (";
      "          node[" +:+ quoted "power" +:+ "=" +:+ quoted "plant" +:+ "]" +:+ b;
      "          node[" +:+ quoted "power" +:+ "=" +:+ quoted "generator" +:+ "]["
                        +:+ quoted "generator:source" +:+ "~"
                        +:+ quoted "nuclear|wind|solar" +:+ "]" +:+ b;
      "        );";
      "        out center tags;";
      "        " ].

(** The text after [.replace("bbox", "35,-15,72,40")]. *)
Definition critical_query : string :=
  let b := "(" +:+ quoted "35,-15,72,40" +:+ ");" in
  text_block
    [ "    [out:json][timeout:90];";
      "    (";
      "      node[" +:+ quoted "aeroway" +:+ "=" +:+ quoted "aerodrome" +:+ "]["
                    +:+ quoted "iata" +:+ "~" +:+ quoted "." +:+ "]" +:+ b;
      "      way[" +:+ quoted "aeroway" +:+ "=" +:+ quoted "aerodrome" +:+ "]["
                   +:+ quoted "iata" +:+ "~" +:+ quoted "." +:+ "]" +:+ b;
      "      node[" +:+ quoted "amenity" +:+ "=" +:+ quoted "ferry_terminal" +:+ "]["
                    +:+ quoted "operator" +:+ "~" +:+ quoted "." +:+ "]" +:+ b;
      "      node[" +:+ quoted "harbour" +:+ "=" +:+ quoted "yes" +:+ "]["
                    +:+ quoted "commercial" +:+ "=" +:+ quoted "yes" +:+ "]" +:+ b;
      "    );";
      "    out center tags;";
      "    " ].

Section WithLib.
Context (lib : PyLib).

(** The head of each [process_*_elements] loop body: [Ok None] is
    [continue], otherwise the element's tags, [lon] and [lat]. *)
Definition element_point (element : Json) : Res (option (Json * Json * Json)) :=
  let? center := py_get element "center" (JDict []) in
  let? center_lat := py_get center "lat" JNull in
  let? lat := py_get element "lat" center_lat in
  let? center_lon := py_get center "lon" JNull in
  let? lon := py_get element "lon" center_lon in
  if is_none lat || is_none lon then Ok None
  else
    let? tags := py_get element "tags" (JDict []) in
    Ok (Some (tags, lon, lat)).

(** [{"type": "Point", "coordinates": [float(lon), float(lat)]}]. *)
Definition point_geometry (lon lat : Json) : Res Json :=
  let? flon := py_float lib lon in
  let? flat := py_float lib lat in
  Ok (JDict [("type", JStr "Point"); ("coordinates", JList [JFloat flon; JFloat flat])]).

(** [{k: v for k, v in tags.items() if k not in names}]. *)
Definition tags_without (names : list string) (tags : Json) : Res Json :=
  let? items := py_items tags in
  Ok (JDict (filter (fun kv => fst kv ∉ names) items)).

Definition military_feature (element : Json) : Res (option Json) :=
  let? point := element_point element in
  match point with
  | None => Ok None
  | Some (tags, lon, lat) =>
      let? t_name := py_get tags "name" JNull in
      let? t_military := py_get tags "military" JNull in
      let? t_ref := py_get tags "ref" JNull in
      let name := py_or t_name (py_or t_military (py_or t_ref (JStr "Military facility"))) in
      let? facility_type := py_get tags "military" (JStr "base") in
      let? geometry := point_geometry lon lat in
      let? osm_id := py_get element "id" JNull in
      let? other_tags := tags_without ["name"; "military"] tags in
      Ok (Some (JDict
        [ ("type", JStr "Feature");
          ("geometry", geometry);
          ("properties", JDict
             [ ("osm_id", osm_id);
               ("name", name);
               ("facility_type", facility_type);
               ("asset_type", JStr "military");
               ("tags", other_tags) ]) ]))
  end.

Definition energy_feature (element : Json) : Res (option Json) :=
  let? point := element_point element in
  match point with
  | None => Ok None
  | Some (tags, lon, lat) =>
      let? t_name := py_get tags "name" JNull in
      let? t_operator := py_get tags "operator" JNull in
      let name := py_or t_name (py_or t_operator (JStr "Energy facility")) in
      let? t_plant := py_get tags "plant:source" JNull in
      let? t_generator := py_get tags "generator:source" (JStr "unknown") in
      let source_type := py_or t_plant t_generator in
      let? geometry := point_geometry lon lat in
      let? osm_id := py_get element "id" JNull in
      let? other_tags :=
        tags_without ["name"; "plant:source"; "generator:source"] tags in
      Ok (Some (JDict
        [ ("type", JStr "Feature");
          ("geometry", geometry);
          ("properties", JDict
             [ ("osm_id", osm_id);
               ("name", name);
               ("source_type", source_type);
               ("asset_type", JStr "energy");
               ("tags", other_tags) ]) ]))
  end.

Definition critical_feature (element : Json) : Res (option Json) :=
  let? point := element_point element in
  match point with
  | None => Ok None
  | Some (tags, lon, lat) =>
      let? t_name := py_get tags "name" JNull in
      let name := py_or t_name (JStr "Critical facility") in
      (* Determine facility type *)
      let? has_aeroway := py_in "aeroway" tags in
      let? kinds :=
        if has_aeroway then Ok ("airport", "aviation")
        else
          let? amenity := py_get tags "amenity" (JStr "") in
          let? is_ferry := py_in "ferry_terminal" amenity in
          if is_ferry then Ok ("ferry_terminal", "maritime")
          else
            let? has_harbour := py_in "harbour" tags in
            if has_harbour then Ok ("harbour", "maritime")
            else Ok ("unknown", "critical") in
      let? geometry := point_geometry lon lat in
      let? osm_id := py_get element "id" JNull in
      let? other_tags := tags_without ["name"] tags in
      Ok (Some (JDict
        [ ("type", JStr "Feature");
          ("geometry", geometry);
          ("properties", JDict
             [ ("osm_id", osm_id);
               ("name", name);
               ("facility_type", JStr (fst kinds));
               ("asset_type", JStr (snd kinds));
               ("tags", other_tags) ]) ]))
  end.

(** The loop [for element in elements: ... features.append(...)]. *)
Fixpoint collect_features (feature : Json -> Res (option Json)) (elements : list Json)
  : Res (list Json) :=
  match elements with
  | [] => Ok []
  | element :: elements' =>
      let? f := feature element in
      let? features := collect_features feature elements' in
      Ok (match f with Some x => x :: features | None => features end)
  end.

Definition process_elements (feature : Json -> Res (option Json)) (elements : Json)
  : Res (list Json) :=
  let? els := py_iter elements in collect_features feature els.

Definition process_military_elements : Json -> Res (list Json) :=
  process_elements military_feature.
Definition process_energy_elements : Json -> Res (list Json) :=
  process_elements energy_feature.
Definition process_critical_elements : Json -> Res (list Json) :=
  process_elements critical_feature.

Definition save_geojson (features : list Json) (path : string) (asset_type : string)
  : M unit :=
  let* now := time_time in
  let geojson :=
    JDict [ ("type", JStr "FeatureCollection");
            ("features", JList features);
            ("metadata", JDict
               [ ("generated", JStr (strftime_utc lib now));
                 ("asset_type", JStr asset_type);
                 ("count", JInt (Z.of_nat (length features))) ]) ] in
  assets_write_text path (json_dumps geojson).

(** The loop over the regions shared by [download_military_chunked] and
    [download_energy_chunked]. *)
Fixpoint chunked_loop (query_of : Z * Z * Z * Z -> string)
         (process : Json -> Res (list Json))
         (regions : list (string * (Z * Z * Z * Z))) (all_features : list Json)
  : M (list Json) :=
  match regions with
  | [] => ret all_features
  | (region_name, bbox) :: regions' =>
      let overpass_query := query_of bbox in
      let* osm_data := execute_query_with_retry overpass_query 3 in
      let* elements := lift (py_get osm_data "elements" (JList [])) in
      let* region_features := lift (process elements) in
      let all_features := all_features ++ region_features in
      (* Rate limiting between regions *)
      let* delay := random_uniform 10 20 in
      let* _ := time_sleep delay in
      chunked_loop query_of process regions' all_features
  end.

Definition download_military_chunked : M unit :=
  let* all_features := chunked_loop military_query process_military_elements EU_REGIONS [] in
  save_geojson all_features "military.geojson" "military".

Definition download_energy_chunked : M unit :=
  let* all_features := chunked_loop energy_query process_energy_elements EU_REGIONS [] in
  save_geojson all_features "energy.geojson" "energy".

Definition download_critical_infrastructure : M unit :=
  let* osm_data := execute_query_with_retry critical_query 3 in
  let* elements := lift (py_get osm_data "elements" (JList [])) in
  let* features := lift (process_critical_elements elements) in
  save_geojson features "critical.geojson" "critical".

End WithLib.

End Overpass.

(** ** [alternative_sources.py] *)

Module AlternativeSources.

Section WithLib.
Context (lib : PyLib).

(** One round of the loop of [download_from_github_datasets]. *)
Definition download_dataset (url filename : string) : M unit :=
  try_except
    (let* data := urlopen (mkRequest url "") in
     assets_write_text filename data)
    (fun _ => ret tt).

Definition download_from_github_datasets : M unit :=
  let* _ :=
    download_dataset
      "https://raw.githubusercontent.com/davidmegginson/ourairports-data/main/airports.csv"
      "airports_github.csv" in
  download_dataset
    "https://raw.githubusercontent.com/davidmegginson/ourairports-data/main/countries.csv"
    "countries.csv".

Definition sparql_endpoint : string := "https://query.wikidata.org/sparql".

Definition sparql_query : string :=
  Overpass.text_block
    [ "    SELECT ?airport ?airportLabel ?iata ?icao ?coord ?country WHERE {";
      "      ?airport wdt:P31/wdt:P279* wd:Q1248784 .  # Instance of airport";
      "      ?airport wdt:P17 ?country .";
      "      ?country wdt:P30 wd:Q46 .  # Europe";
      "      OPTIONAL { ?airport wdt:P238 ?iata . }";
      "      OPTIONAL { ?airport wdt:P239 ?icao . }";
      "      OPTIONAL { ?airport wdt:P625 ?coord . }";
      "      SERVICE wikibase:label { bd:serviceParam wikibase:language "
        +:+ Overpass.quoted "en" +:+ " . }";
      "    }";
      "    " ].

(** [binding.get(k, {}).get("value", default)]. *)
Definition binding_value (binding : Json) (k : string) (default : Json) : Res Json :=
  let? sub := py_get binding k (JDict []) in
  py_get sub "value" default.

Definition airport_data (binding : Json) : Res Json :=
  let? name := binding_value binding "airportLabel" (JStr "Unknown") in
  let? iata := binding_value binding "iata" JNull in
  let? icao := binding_value binding "icao" JNull in
  let? country := binding_value binding "country" JNull in
  let? coordinates := binding_value binding "coord" JNull in
  Ok (JDict [ ("name", name); ("iata", iata); ("icao", icao);
              ("country", country); ("coordinates", coordinates) ]).

Fixpoint res_map {A B : Type} (f : A -> Res B) (l : list A) : Res (list B) :=
  match l with
  | [] => Ok []
  | x :: l' => let? y := f x in let? ys := res_map f l' in Ok (y :: ys)
  end.

(** [lon, lat = map(float, coord_str.split())]; [None] is the [ValueError]. *)
Definition parse_lon_lat (coord_str : string) : option (Q * Q) :=
  match str_split lib coord_str with
  | [a; b] =>
      match float_of_str lib a, float_of_str lib b with
      | Some lon, Some lat => Some (lon, lat)
      | _, _ => None
      end
  | _ => None
  end.

(** The feature of one airport, [Ok None] when it is skipped. *)
Definition airport_feature (airport : list (string * Json)) : Res (option Json) :=
  let coordinates := dict_get_default "coordinates" airport JNull in
  if truthy coordinates
  then
    match coordinates with
    | JStr c =>
        (* Parse coordinates from Wikidata format *)
        let coord_str := str_replace lib (str_replace lib c "Point(" "") ")" "" in
        match parse_lon_lat coord_str with
        | Some (lon, lat) =>
            Ok (Some (JDict
              [ ("type", JStr "Feature");
                ("geometry", JDict [ ("type", JStr "Point");
                                     ("coordinates", JList [JFloat lon; JFloat lat]) ]);
                ("properties", JDict
                   [ ("name", dict_get_default "name" airport JNull);
                     ("iata", dict_get_default "iata" airport JNull);
                     ("icao", dict_get_default "icao" airport JNull);
                     ("asset_type", JStr "airport");
                     ("source", JStr "wikidata") ]) ]))
        | None => Ok None
        end
    | _ => Raise AttributeError
    end
  else Ok None.

Definition wikidata_features (data : Json) : Res (list Json) :=
  let? results := py_get data "results" (JDict []) in
  let? bindings := py_get results "bindings" (JList []) in
  let? bs := py_iter bindings in
  let? airports := res_map airport_data bs in
  Overpass.collect_features
    (fun a => match a with JDict d => airport_feature d | _ => Raise TypeError end)
    airports.

Definition download_from_wikidata : M unit :=
  try_except
    (let* text := urlopen (mkRequest sparql_endpoint sparql_query) in
     let* data := lift (json_loads text) in
     let* features := lift (wikidata_features data) in
     let geojson := JDict [("type", JStr "FeatureCollection"); ("features", JList features)] in
     assets_write_text "airports_wikidata.geojson" (json_dumps geojson))
    (fun _ => ret tt).

Definition fallback_feature (lon lat : Q) (properties : list (string * Json)) : Json :=
  JDict [ ("type", JStr "Feature");
          ("geometry", JDict [ ("type", JStr "Point");
                               ("coordinates", JList [JFloat lon; JFloat lat]) ]);
          ("properties", JDict properties) ].

(** Minimal European critical infrastructure for testing. *)
Definition fallback_data : Json :=
  JDict
    [ ("type", JStr "FeatureCollection");
      ("features", JList
         [ fallback_feature (2349014 # 1000000) (48864716 # 1000000)
             [ ("name", JStr "Paris CDG Airport"); ("asset_type", JStr "airport");
               ("iata", JStr "CDG") ];
           fallback_feature (-461941 # 1000000) (51470020 # 1000000)
             [ ("name", JStr "London Heathrow"); ("asset_type", JStr "airport");
               ("iata", JStr "LHR") ];
           fallback_feature (13287808 # 1000000) (52559686 # 1000000)
             [ ("name", JStr "Berlin Brandenburg"); ("asset_type", JStr "airport");
               ("iata", JStr "BER") ];
           fallback_feature (12238889 # 1000000) (45505556 # 1000000)
             [ ("name", JStr "Venice Port"); ("asset_type", JStr "harbour");
               ("type", JStr "commercial") ];
           fallback_feature (4890444 # 1000000) (52371667 # 1000000)
             [ ("name", JStr "Amsterdam Port"); ("asset_type", JStr "harbour");
               ("type", JStr "commercial") ] ]);
      ("metadata", JDict
         [ ("source", JStr "fallback_dataset");
           ("purpose", JStr "minimal_testing_data");
           ("count", JInt 5) ]) ].

Definition create_fallback_dataset : M unit :=
  assets_write_text "fallback.geojson" (json_dumps fallback_data).

End WithLib.

End AlternativeSources.

(** ** [download_manager.py]: DownloadManager *)

Module DownloadManager.

(** Download configuration settings. *)
Record DownloadConfig : Type := mkConfig {
  max_retries : Z;
  base_delay : Q;          (* Base delay between requests *)
  timeout : Z;             (* Request timeout *)
  chunk_size : Z;          (* Regions per chunk *)
  enable_cache : bool;
  enable_fallback : bool;
  rate_limit_delay : Q     (* Delay between major operations *)
}.

Definition default_config : DownloadConfig := mkConfig 3 30 90 2 true true 45.

(** One entry of [download_stats["operations"]]. *)
Record Operation : Type := mkOperation {
  op_asset_type : string;
  op_strategy : string;
  op_duration : Q;
  op_timestamp : Z;
  op_success : bool
}.

(** [download_stats]. *)
Record Stats : Type := mkStats {
  started : Z;
  operations : list Operation;
  total_features : Z;
  total_time : Q
}.

Record t : Type := mk {
  config : DownloadConfig;
  rate_limiter : RateLimiter.t;
  download_stats : Stats
}.

(** [__init__(self, config)]. *)
Definition init (config : DownloadConfig) : M t :=
  let* now := datetime_now in
  ret (mk config (RateLimiter.init (base_delay config)) (mkStats now [] 0 0)).

(** A bound method of the manager with its [__name__]. *)
Record Strategy : Type := mkStrategy {
  strategy_name : string;
  strategy_call : t -> string -> M bool
}.

Definition set_rate_limiter (self : t) (rl : RateLimiter.t) : t :=
  mk (config self) rl (download_stats self).

Definition append_operation (self : t) (op : Operation) : t :=
  let st := download_stats self in
  mk (config self) (rate_limiter self)
     (mkStats (started st) (operations st ++ [op]) (total_features st) (total_time st)).

(** The statements of the [try] block up to the test of the strategy's
    answer: the wait of the rate limiter, then the call of the strategy.
    The value is the manager as these statements left it (the limiter is
    updated only by a wait that returned) and how they ended: the answer of
    the strategy, or the exception that the wait or the strategy raised. *)
Definition try_block (strategy : Strategy) (self : t) (asset_type : string)
  : M (t * Res bool) :=
  let* waited := catch (RateLimiter.wait_if_needed (rate_limiter self)) in
  match waited with
  | Raise e => ret (self, Raise e)
  | Ok rl =>
      let self := set_rate_limiter self rl in
      let* called := catch (strategy_call strategy self asset_type) in
      ret (self, called)
  end.

(** The [for i, strategy in enumerate(strategies)] loop and what follows
    it, over the strategies left.  An exception of the wait or of the
    strategy goes to the [except] clause alike; the bookkeeping after a
    strategy that answered [True] cannot raise. *)
Fixpoint try_strategies (strategies : list Strategy) (self : t) (asset_type : string)
         (start_time : Q) : M (bool * t) :=
  match strategies with
  | [] =>
      (* All strategies failed *)
      let* now := time_time in
      let duration := (now - start_time)%Q in
      let* timestamp := datetime_now in
      let self := append_operation self
                    (mkOperation asset_type "all_failed" duration timestamp false) in
      let* _ := logging (LogAllFailed asset_type) in
      ret (false, self)
  | strategy :: strategies' =>
      let* block := try_block strategy self asset_type in
      let self := fst block in
      match snd block with
      | Ok true =>
          let* now := time_time in
          let duration := (now - start_time)%Q in
          let self := set_rate_limiter self (RateLimiter.record_success (rate_limiter self)) in
          let* timestamp := datetime_now in
          let self := append_operation self
                        (mkOperation asset_type (strategy_name strategy) duration
                                     timestamp true) in
          let* _ := logging (LogDownloaded asset_type (strategy_name strategy) duration) in
          ret (true, self)
      | Ok false => try_strategies strategies' self asset_type start_time
      | Raise e =>
          (* except Exception as e *)
          let* _ := logging (LogStrategyFailed (strategy_name strategy) asset_type e) in
          let self := set_rate_limiter self (RateLimiter.record_failure (rate_limiter self)) in
          try_strategies strategies' self asset_type start_time
      end
  end.

Section WithLib.
Context (lib : PyLib).

(** Try to use cached data.  ([cache = AssetCache()] only reads the
    index file of [CACHE_DIR]; the object is not used.) *)
Definition _try_cached_download (self : t) (asset_type : string) : M bool :=
  if negb (enable_cache (config self)) then ret false
  else
    (* Simple cache check (would need proper implementation) *)
    let cache_file := asset_type +:+ "_cached.geojson" in
    let* present := assets_exists cache_file in
    if present
    then
      (* Check if cache is recent enough *)
      let* now := time_time in
      let* st := assets_stat cache_file in
      let cache_age := (now - f_mtime st)%Q in
      let max_age := (24 * 3600)%Q in
      if Qltb cache_age max_age
      then
        let* _ := logging (LogUsingCached asset_type) in
        ret true
      else ret false
    else ret false.

Definition download_functions : list (string * M unit) :=
  [ ("military", Overpass.download_military_chunked lib);
    ("energy", Overpass.download_energy_chunked lib);
    ("critical", Overpass.download_critical_infrastructure lib) ].

(** Try optimized chunked download. *)
Definition _try_optimized_download (self : t) (asset_type : string) : M bool :=
  match find (fun kv => String.eqb asset_type (fst kv)) download_functions with
  | Some (_, download) => let* _ := download in ret true
  | None => ret false
  end.

(** Try alternative data sources. *)
Definition _try_alternative_sources (self : t) (asset_type : string) : M bool :=
  if negb (enable_fallback (config self)) then ret false
  else if String.eqb asset_type "airports"
  then let* _ := AlternativeSources.download_from_github_datasets in ret true
  else if String.eqb asset_type "infrastructure"
  then let* _ := AlternativeSources.download_from_wikidata lib in ret true
  else ret false.

(** Use minimal fallback data. *)
Definition _try_fallback_data (self : t) (asset_type : string) : M bool :=
  let* _ := AlternativeSources.create_fallback_dataset in
  let* _ := logging (LogUsingFallback asset_type) in
  ret true.

Definition strategies : list Strategy :=
  [ mkStrategy "_try_cached_download" _try_cached_download;
    mkStrategy "_try_optimized_download" _try_optimized_download;
    mkStrategy "_try_alternative_sources" _try_alternative_sources;
    mkStrategy "_try_fallback_data" _try_fallback_data ].

(** Download asset with fallback strategies. *)
Definition download_with_fallback (self : t) (asset_type : string) : M (bool * t) :=
  let* _ := logging (LogStarting asset_type) in
  let* start_time := time_time in
  try_strategies strategies self asset_type start_time.

End WithLib.

End DownloadManager.

(** ** Notions used to state the properties *)

(** [w'] differs from [w] at most by the clock, the sleeps and the random
    draws consumed. *)
Definition quiet (w w' : World) : Prop :=
  w_network w' = w_network w /\ w_requests w' = w_requests w /\
  w_assets w' = w_assets w /\ w_cache w' = w_cache w /\
  w_log w' = w_log w /\ w_random w' = w_random w.

(** An attempt that meets this reply fails: the call raises, or the body
    is not JSON. *)
Definition reply_fails (r : Reply) : bool :=
  match r with
  | Body (JsonDoc _) => false
  | _ => true
  end.

(** The next [n] calls of [urlopen] fail when they carry [query],
    through whatever endpoint. *)
Definition next_attempts_fail (w : World) (query : string) (n : nat) : Prop :=
  forall (i : nat) (endpoint : string),
    (i < n)%nat ->
    reply_fails (w_network w (length (w_requests w) + i)%nat (mkRequest endpoint query)) = true.

(** What the executor returns for a query that is always answered by [r],
    and how many attempts that takes with three retries. *)
Definition executor_result (r : Reply) : Json :=
  match r with
  | Body (JsonDoc v) => v
  | _ => Overpass.empty_result
  end.

Definition attempts_spent (r : Reply) : nat := if reply_fails r then 3%nat else 1%nat.

(** The network answers the query of each region as [assign] says, at
    every call and through every endpoint. *)
Definition answers_regions (query_of : Z * Z * Z * Z -> string)
           (regions : list (string * (Z * Z * Z * Z))) (assign : string -> Reply)
           (w : World) : Prop :=
  forall (r : string * (Z * Z * Z * Z)) (n : nat) (endpoint : string),
    In r regions ->
    w_network w n (mkRequest endpoint (query_of (snd r))) = assign (fst r).

(** A network that does so. *)
Definition serve_regions (query_of : Z * Z * Z * Z -> string)
           (regions : list (string * (Z * Z * Z * Z))) (assign : string -> Reply)
  : nat -> Request -> Reply :=
  fun _ rq =>
    match find (fun r => String.eqb (rq_data rq) (query_of (snd r))) regions with
    | Some r => assign (fst r)
    | None => NetFailure URLError
    end.

(** The features a region contributes, given the executor's result. *)
Definition region_features (process : Json -> Res (list Json)) (osm_data : Json)
  : Res (list Json) :=
  let? elements := py_get osm_data "elements" (JList []) in process elements.

(** The raw element carries a position. *)
Definition has_coordinates (element : Json) : bool :=
  match Overpass.element_point element with
  | Ok (Some _) => true
  | _ => false
  end.

(** What [float] accepts without looking into a text: a float, a bool, an
    int in the range of the floats. *)
Definition is_number (v : Json) : bool :=
  match v with
  | JInt z => match float_of_int z with Ok _ => true | Raise _ => false end
  | JFloat _ | JBool _ => true
  | _ => false
  end.

Definition is_dict (v : Json) : bool :=
  match v with
  | JDict _ => true
  | _ => false
  end.

(** An element as Overpass sends them: a dict whose ["center"] and
    ["tags"], when present, are dicts and whose position, when it has one,
    is given by numbers. *)
Definition wellformed_element (element : Json) : bool :=
  match element with
  | JDict d =>
      match dict_get_default "center" d (JDict []) with
      | JDict c =>
          let lat := dict_get_default "lat" d (dict_get_default "lat" c JNull) in
          let lon := dict_get_default "lon" d (dict_get_default "lon" c JNull) in
          is_none lat || is_none lon
          || (is_dict (dict_get_default "tags" d (JDict [])) && is_number lat && is_number lon)
      | _ => false
      end
  | _ => false
  end.

Definition feature_property (k : string) (feature : Json) : option Json :=
  match feature with
  | JDict d =>
      match dict_get "properties" d with
      | Some (JDict p) => dict_get k p
      | _ => None
      end
  | _ => None
  end.

(** The feature is a point record. *)
Definition is_point_record (feature : Json) : bool :=
  match feature with
  | JDict d =>
      match dict_get "geometry" d with
      | Some (JDict g) =>
          match dict_get "type" g, dict_get "coordinates" g with
          | Some (JStr "Point"), Some (JList [JFloat _; JFloat _]) => true
          | _, _ => false
          end
      | _ => false
      end
  | _ => false
  end.

(** The features of the collection stored under [name] in [ASSET_DIR]. *)
Definition saved_features (name : string) (w : World) : option (list Json) :=
  match w_assets w !! name with
  | Some (mkFile (JsonDoc (JDict d)) _) =>
      match dict_get "features" d with
      | Some (JList fs) => Some fs
      | _ => None
      end
  | _ => None
  end.

(** The [count] in the metadata of that collection. *)
Definition saved_count (name : string) (w : World) : option Json :=
  match w_assets w !! name with
  | Some (mkFile (JsonDoc (JDict d)) _) =>
      match dict_get "metadata" d with
      | Some (JDict m) => dict_get "count" m
      | _ => None
      end
  | _ => None
  end.

(** The records of failed attempts in a run report. *)
Definition failure_records (ops : list DownloadManager.Operation)
  : list DownloadManager.Operation :=
  filter (fun op => DownloadManager.op_success op = false) ops.

(** The entry is older than the TTL of its own asset type, at the time
    [now]: what [clean_expired_cache] tests. *)
Definition expired_at (now : Z) (ci : AssetCache.CacheInfo) : Prop :=
  timedelta_days (expiry_days (AssetCache.ci_asset_type ci))
  < now - AssetCache.ci_timestamp ci.

#[global] Instance expired_at_dec (now : Z) (ci : AssetCache.CacheInfo) :
  Decision (expired_at now ci) := Z_lt_dec _ _.



(** The back-off slept before the attempt numbered [attempt] (from 0):
    [5 * 3 ** attempt] seconds and a jitter below five seconds. *)
Definition backoff_delay_ok (attempt : Z) (delay : Q) : Prop :=
  (5 * inject_Z (3 ^ attempt) <= delay /\ delay < 5 * inject_Z (3 ^ attempt) + 5)%Q.


(** The seconds slept in all. *)
Definition total_sleep (sleeps : list Q) : Q := fold_right Qplus 0%Q sleeps.


(** The kinds [process_critical_elements] tells apart: facility type and
    asset type. *)
Definition critical_kinds : list (Json * Json) :=
  [ (JStr "airport", JStr "aviation");
    (JStr "ferry_terminal", JStr "maritime");
    (JStr "harbour", JStr "maritime");
    (JStr "unknown", JStr "critical") ].

(** The feature carries one of these kinds. *)
Definition has_critical_kind (feature : Json) : Prop :=
  exists facility_type asset_type,
    feature_property "facility_type" feature = Some facility_type
    /\ feature_property "asset_type" feature = Some asset_type
    /\ In (facility_type, asset_type) critical_kinds.

(** The tags of a raw element, when it has any and they are a dict. *)
Definition element_tags (element : Json) : option (list (string * Json)) :=
  match py_get element "tags" (JDict []) with
  | Ok (JDict tags) => Some tags
  | _ => None
  end.

(** The three element processors with the tag keys each leaves out of the
    ["tags"] of a feature. *)
Definition element_processors (lib : PyLib)
  : list ((Json -> Res (option Json)) * list string) :=
  [ (Overpass.military_feature lib, ["name"; "military"]);
    (Overpass.energy_feature lib, ["name"; "plant:source"; "generator:source"]);
    (Overpass.critical_feature lib, ["name"]) ].

(** The world once one more record has been logged. *)
Definition add_log (r : LogRecord) (w : World) : World :=
  mkWorld (w_clock w) (w_sleeps w) (w_assets w) (w_cache w)
          (w_network w) (w_requests w) (w_random w) (w_draws w) (w_log w ++ [r]).

(** The world after a sleep of [d] seconds. *)
Definition slept (d : Q) (w : World) : World :=
  mkWorld (w_clock w + d) (w_sleeps w ++ [d]) (w_assets w) (w_cache w)
          (w_network w) (w_requests w) (w_random w) (w_draws w) (w_log w).


(** The two datasets of [download_from_github_datasets]: address and file. *)
Definition airports_dataset : Request :=
  mkRequest
    "https://raw.githubusercontent.com/davidmegginson/ourairports-data/main/airports.csv" "".
Definition countries_dataset : Request :=
  mkRequest
    "https://raw.githubusercontent.com/davidmegginson/ourairports-data/main/countries.csv" "".

(** The file a dataset download leaves under a name: the reply when there
    is one, else what was there. *)
Definition file_after (reply : Reply) (clock : Q) (before : option File) : option File :=
  match reply with
  | Body d => Some (mkFile d clock)
  | NetFailure _ => before
  end.


(** The call did not give a body. *)
Definition reply_is_failure (r : Reply) : bool :=
  match r with
  | Body _ => false
  | NetFailure _ => true
  end.

(** *** The range in which the arithmetic of the model is that of the code

    The model computes with exact rationals and its [time.sleep] takes
    every argument.  The code computes with binary64 floats: a product is
    rounded when it is no binary64 number, the conversion of [3 ** n] to a
    float raises [OverflowError] from [n = 647], and [time.sleep] raises for
    an argument above [2 ** 63] nanoseconds.  The notions below name the
    inputs on which the two agree. *)

(** A binary64 number: [m * 2 ** e] with a mantissa of at most 53 bits. *)
Definition is_double (q : Q) : Prop :=
  exists m e : Z, Z.abs m < 2 ^ 53 /\ -1074 <= e <= 971 /\ (q == inject_Z m * 2 ^ e)%Q.

(** A whole number of seconds that float arithmetic adds and subtracts
    without rounding. *)
Definition whole_seconds (q : Q) : Prop :=
  exists z : Z, Z.abs z <= 2 ^ 52 /\ (q == inject_Z z)%Q.

(** The largest [n] for which [3 ** n] is converted to a float. *)
Definition max_power_of_three : Z := 646.

(** A number of seconds below the largest that [time.sleep] accepts. *)
Definition sleep_bound : Q := 9000000000.

(** The limiter, called at the clock reading [now], is in the range in
    which [wait_if_needed] neither overflows nor asks for a sleep that is
    refused, now and after up to [k] further failures. *)
Definition limiter_in_range (rl : RateLimiter.t) (k : Z) (now : Q) : Prop :=
  RateLimiter.consecutive_failures rl + k <= max_power_of_three
  /\ (RateLimiter.base_delay rl
      * inject_Z (3 ^ Z.max 0 (RateLimiter.consecutive_failures rl + k)) <= sleep_bound)%Q
  /\ (RateLimiter.last_request rl <= now)%Q.

(** The rounds of a run of the chain, in order: the name of each strategy
    that got its turn, with how its [try] block ended. *)
Fixpoint chain_rounds (strategies : list DownloadManager.Strategy)
         (self : DownloadManager.t) (asset_type : string) (w : World)
  : list (string * Res bool) :=
  match strategies with
  | [] => []
  | s :: rest =>
      match DownloadManager.try_block s self asset_type w with
      | (Ok (self1, outcome), w1) =>
          (DownloadManager.strategy_name s, outcome)
          :: match outcome with
             | Ok true => []
             | Ok false => chain_rounds rest self1 asset_type w1
             | Raise e =>
                 chain_rounds
                   rest
                   (DownloadManager.set_rate_limiter
                      self1
                      (RateLimiter.record_failure (DownloadManager.rate_limiter self1)))
                   asset_type
                   (add_log (LogStrategyFailed (DownloadManager.strategy_name s) asset_type e)
                            w1)
             end
      | (Raise _, _) => []
      end
  end.

(** The round failed: by an exception or by a negative answer. *)
Definition round_failed (round : string * Res bool) : Prop := snd round <> Ok true.


(** Tactics for the result monad: case analysis on the next bound
    computation in the goal and in a hypothesis, and the outcome of a run
    that is already a pair. *)
Ltac bind_cases :=
  repeat match goal with
         | |- context [res_bind ?x _] =>
             let E := fresh "E" in destruct x eqn:E; cbn [res_bind]; [|exact I]
         end.

Ltac bind_inv H :=
  repeat match type of H with
         | context [res_bind ?x _] =>
             let E := fresh "E" in
             destruct x eqn:E; cbn [res_bind] in H; [|discriminate H]
         end.

Ltac exists_world sleeps :=
  match goal with
  | |- exists r w' s, (?a, ?b) = (r, w') /\ _ => exists a, b, sleeps; split; [reflexivity|]
  end.

(** ** Sample data for the examples *)

(** A stand-in platform: dates are printed as plain counts, no text is
    read as a number or split, sizes are not measured. *)
Definition sample_lib : PyLib :=
  mkPyLib py_str (fun t => py_str (py_int t)) (fun _ => None)
          (fun s _ _ => s) (fun s => [s]) (fun _ => 0).

(** A world at time 1000 with empty directories and the given network. *)
Definition sample_world (network : nat -> Request -> Reply) : World :=
  mkWorld 1000 [] ∅ ∅ network [] (fun _ => 1 # 2)%Q 0 [].

Definition node_element (id : Z) (lat lon : Q) (tags : list (string * Json)) : Json :=
  JDict [ ("type", JStr "node"); ("id", JInt id);
          ("lat", JFloat lat); ("lon", JFloat lon); ("tags", JDict tags) ].

Definition way_element (id : Z) (lat lon : Q) (tags : list (string * Json)) : Json :=
  JDict [ ("type", JStr "way"); ("id", JInt id);
          ("center", JDict [("lat", JFloat lat); ("lon", JFloat lon)]);
          ("tags", JDict tags) ].

(** An element that carries no position. *)
Definition bare_element (id : Z) (tags : list (string * Json)) : Json :=
  JDict [ ("type", JStr "relation"); ("id", JInt id); ("tags", JDict tags) ].

Definition nordic_elements : list Json :=
  [ node_element 101 (5991 # 100) (1075 # 100) [("military", JStr "barracks"); ("name", JStr "Akershus")];
    way_element 102 (6017 # 100) (2494 # 100) [("landuse", JStr "military")];
    bare_element 103 [("military", JStr "range")];
    node_element 104 (5568 # 100) (1257 # 100) [("military", JStr "naval_base"); ("ref", JStr "N4")] ].

Definition central_elements : list Json :=
  [ way_element 201 (5252 # 100) (1340 # 100) [("military", JStr "airfield"); ("name", JStr "Gatow")];
    bare_element 202 [("landuse", JStr "military")];
    node_element 203 (5007 # 100) (1443 # 100) [("military", JStr "barracks")];
    bare_element 204 [];
    node_element 205 (5223 # 100) (2101 # 100) [("name", JStr "Cytadela")] ].

Definition eastern_elements : list Json :=
  [ node_element 301 (5045 # 100) (3052 # 100) [("military", JStr "base")];
    way_element 302 (4701 # 100) (2886 # 100) [("landuse", JStr "military"); ("name", JStr "Bulboaca")];
    node_element 303 (5390 # 100) (2756 # 100) [] ].

(** Twelve raw elements, three of them without a position, over three
    regions; one region fails and one has nothing. *)
Definition sample_assignment (region_name : string) : Reply :=
  if String.eqb region_name "nordic" then Body (JsonDoc (JDict [("elements", JList nordic_elements)]))
  else if String.eqb region_name "western" then NetFailure URLError
  else if String.eqb region_name "central" then Body (JsonDoc (JDict [("elements", JList central_elements)]))
  else if String.eqb region_name "southern" then Body (JsonDoc (JDict [("elements", JList [])]))
  else Body (JsonDoc (JDict [("elements", JList eastern_elements)])).

Definition sample_network : nat -> Request -> Reply :=
  serve_regions Overpass.military_query Overpass.EU_REGIONS sample_assignment.

(** A manager with the default configuration, created at time 0. *)
Definition sample_manager : DownloadManager.t :=
  DownloadManager.mk DownloadManager.default_config (RateLimiter.init 30)
                     (DownloadManager.mkStats 0 [] 0 0).

(** A network on which every call fails. *)
Definition dead_network : nat -> Request -> Reply := fun _ _ => NetFailure URLError.

(** What each region contributes under [sample_assignment]. *)
Definition sample_features (region_name : string) : list Json :=
  match region_features (Overpass.process_military_elements sample_lib)
                        (executor_result (sample_assignment region_name)) with
  | Ok fs => fs
  | Raise _ => []
  end.

Definition sample_payload : Json :=
  JDict [("elements", JList nordic_elements); ("count", JInt 4)].

(** A write into an empty cache at time 1000. *)
Definition sample_write : Res AssetCache.t * World :=
  AssetCache.cache_data sample_lib (AssetCache.mk ∅) "military" "0123456789ab"
                        sample_payload (sample_world dead_network).

Definition cache_of (r : Res AssetCache.t * World) : AssetCache.t :=
  match fst r with
  | Ok c => c
  | Raise _ => AssetCache.mk ∅
  end.

(** The world [days] days (and a second) after [w]. *)
Definition days_later (days : Z) (w : World) : World :=
  mkWorld (w_clock w + inject_Z (days * 86400) + 1)%Q (w_sleeps w) (w_assets w) (w_cache w)
          (w_network w) (w_requests w) (w_random w) (w_draws w) (w_log w).


(** The same entry beside a file of that name that does not hold JSON. *)
Definition garbled_world : World :=
  mkWorld 1000 [] ∅ (<["energy_feedfacecafe_990.json" := mkFile (RawText "{") 990]> ∅)
          dead_network [] (fun _ => 1 # 2)%Q 0 [].

(** Two different texts with the same MD5 digest. *)
Definition collision_a : string :=
  "TEXTCOLLBYfGiJUETHQ4hAcKSMd5zYpgqf1YRDhkmxHkhPWptrkoyz28wnI9V0aHeAuaKnak".
Definition collision_b : string :=
  "TEXTCOLLBYfGiJUETHQ4hEcKSMd5zYpgqf1YRDhkmxHkhPWptrkoyz28wnI9V0aHeAuaKnak".

(** A write under the fingerprint of [collision_a]. *)
Definition collision_write : Res AssetCache.t * World :=
  AssetCache.cache_data sample_lib (AssetCache.mk ∅) "military"
                        (AssetCache.query_hash collision_a)
                        sample_payload (sample_world dead_network).

(** Strategies with a fixed outcome. *)
Definition returning (name : string) (b : bool) : DownloadManager.Strategy :=
  DownloadManager.mkStrategy name (fun _ _ => ret b).
Definition raising (name : string) (e : exn) : DownloadManager.Strategy :=
  DownloadManager.mkStrategy name (fun _ _ => raise e).

Definition manager_of (r : Res (bool * DownloadManager.t) * World) : DownloadManager.t :=
  match fst r with
  | Ok (_, dm) => dm
  | Raise _ => sample_manager
  end.

Definition succeeded (r : Res (bool * DownloadManager.t) * World) : bool :=
  match fst r with
  | Ok (b, _) => b
  | Raise _ => false
  end.

Definition strategies_recorded (r : Res (bool * DownloadManager.t) * World) : list string :=
  map DownloadManager.op_strategy
      (DownloadManager.operations (DownloadManager.download_stats (manager_of r))).

Definition is_strategy_failure (r : LogRecord) : bool :=
  match r with
  | LogStrategyFailed _ _ _ => true
  | _ => false
  end.

(** A request for the airports on a dead network. *)
Definition airports_run : Res (bool * DownloadManager.t) * World :=
  DownloadManager.download_with_fallback sample_lib sample_manager "airports"
                                         (sample_world dead_network).

(** Two requests for the military sites in a row, the cache being empty. *)
Definition military_run1 : Res (bool * DownloadManager.t) * World :=
  DownloadManager.download_with_fallback sample_lib sample_manager "military"
                                         (sample_world sample_network).
Definition military_run2 : Res (bool * DownloadManager.t) * World :=
  DownloadManager.download_with_fallback sample_lib (manager_of military_run1) "military"
                                         (snd military_run1).

Definition all_sample_elements : list Json :=
  nordic_elements ++ central_elements ++ eastern_elements.

Definition is_military (feature : Json) : bool :=
  match feature_property "asset_type" feature with
  | Some (JStr s) => String.eqb s "military"
  | _ => false
  end.

(** A cache read forty days after [sample_world]: one entry is forty days
    old, one a second old, one exactly as old as its TTL of 14 days. *)
Definition aged_now : Z := now_us (days_later 40 (sample_world dead_network)).

Definition aged_cache : AssetCache.t :=
  AssetCache.mk
    (list_to_map
       [ ("military_aaaaaaaaaaaa",
          AssetCache.mkInfo "military" "aaaaaaaaaaaa" "military_aaaaaaaaaaaa_1001.json"
                            (aged_now - timedelta_days 40) 3 120);
         ("energy_bbbbbbbbbbbb",
          AssetCache.mkInfo "energy" "bbbbbbbbbbbb" "energy_bbbbbbbbbbbb_3457000.json"
                            (aged_now - 1000000) 2 80);
         ("rail_cccccccccccc",
          AssetCache.mkInfo "rail" "cccccccccccc" "rail_cccccccccccc_2247401.json"
                            (aged_now - timedelta_days 14) 1 40) ]).

Definition aged_world : World :=
  mkWorld (w_clock (days_later 40 (sample_world dead_network))) [] ∅
          (list_to_map
             [ ("military_aaaaaaaaaaaa_1001.json", mkFile (JsonDoc sample_payload) 1001);
               ("energy_bbbbbbbbbbbb_3457000.json", mkFile (JsonDoc sample_payload) 3457000);
               ("rail_cccccccccccc_2247401.json", mkFile (JsonDoc sample_payload) 2247401) ])
          dead_network [] (fun _ => 1 # 2)%Q 0 [].

Definition aged_clean : Res AssetCache.t * World :=
  AssetCache.clean_expired_cache sample_lib aged_cache aged_world.


Definition features_of (r : Res (list Json)) : list Json :=
  match r with
  | Ok fs => fs
  | Raise _ => []
  end.

(** Energy and critical sites; one element of each list has no position,
    one has a name that is empty. *)
Definition energy_elements : list Json :=
  [ node_element 401 (4742 # 100) (79 # 100)
      [("power", JStr "plant"); ("name", JStr ""); ("operator", JStr "EDF");
       ("plant:source", JStr "nuclear")];
    bare_element 402 [("power", JStr "plant")];
    node_element 403 (5540 # 100) (810 # 100)
      [("power", JStr "generator"); ("generator:source", JStr "wind")] ].

Definition critical_elements : list Json :=
  [ way_element 501 (5563 # 100) (1265 # 100)
      [("aeroway", JStr "aerodrome"); ("iata", JStr "CPH"); ("name", JStr "Kastrup")];
    node_element 502 (5436 # 100) (1014 # 100)
      [("amenity", JStr "ferry_terminal"); ("operator", JStr "Scandlines"); ("name", JStr "")];
    bare_element 503 [("harbour", JStr "yes")];
    node_element 504 (5355 # 100) (993 # 100) [("harbour", JStr "yes"); ("commercial", JStr "yes")] ].


(** A world whose asset directory holds a cached collection of airports
    written a hundred seconds ago. *)
Definition cached_world : World :=
  mkWorld 1000 []
          (<["airports_cached.geojson" :=
               mkFile (JsonDoc (JDict [("type", JStr "FeatureCollection");
                                       ("features", JList [])])) 900]> ∅)
          ∅ dead_network [] (fun _ => 1 # 2)%Q 0 [].


(** A network on which only the countries dataset can be fetched. *)
Definition countries_only_network : nat -> Request -> Reply :=
  fun _ rq =>
    if String.eqb (rq_url rq) (rq_url countries_dataset)
    then Body (RawText "id,code,name")
    else NetFailure URLError.

(** The same key written again a day after [sample_write]. *)
Definition sample_rewrite : Res AssetCache.t * World :=
  AssetCache.cache_data sample_lib (cache_of sample_write) "military" "0123456789ab"
                        sample_payload (days_later 1 (snd sample_write)).

(** Energy sites in two regions; the other regions fail or are empty. *)
Definition energy_assignment (region_name : string) : Reply :=
  if String.eqb region_name "western"
  then Body (JsonDoc (JDict [("elements", JList energy_elements)]))
  else if String.eqb region_name "central"
  then Body (JsonDoc (JDict [("elements", JList (firstn 1 energy_elements))]))
  else if String.eqb region_name "eastern" then Body (RawText "<html>busy</html>")
  else Body (JsonDoc (JDict [])).

Definition energy_network : nat -> Request -> Reply :=
  serve_regions Overpass.energy_query Overpass.EU_REGIONS energy_assignment.

Definition energy_features (region_name : string) : list Json :=
  features_of (region_features (Overpass.process_energy_elements sample_lib)
                               (executor_result (energy_assignment region_name))).

(** A network that answers the critical query, and nothing else. *)
Definition critical_network : nat -> Request -> Reply :=
  fun _ rq =>
    if String.eqb (rq_data rq) Overpass.critical_query
    then Body (JsonDoc (JDict [("elements", JList critical_elements)]))
    else NetFailure URLError.

(** [cached_world] two days later: the cached collection is stale. *)
Definition stale_world : World := days_later 2 cached_world.

(* ===================================================================== *)
(** * Properties *)

(** ** RateLimiter *)

Lemma record_failure_iter (rl : RateLimiter.t) (n : nat) :
  Nat.iter n RateLimiter.record_failure rl =
  RateLimiter.mk (RateLimiter.base_delay rl) (RateLimiter.last_request rl)
                 (RateLimiter.consecutive_failures rl + Z.of_nat n)
                 (RateLimiter.total_requests rl).
Proof.
  induction n as [|n IH].
  - simpl. rewrite Z.add_0_r. now destruct rl.
  - simpl Nat.iter. rewrite IH. unfold RateLimiter.record_failure. simpl.
    f_equal. lia.
Qed.

Lemma required_delay_after_failures (rl : RateLimiter.t) (n : nat) :
  (RateLimiter.required_delay
     (Nat.iter n RateLimiter.record_failure (RateLimiter.record_success rl))
   == RateLimiter.base_delay rl * inject_Z (3 ^ Z.of_nat n))%Q.
Proof.
  rewrite record_failure_iter. unfold RateLimiter.required_delay. cbn.
  rewrite Z.add_0_l.
  destruct n as [|n].
  - change (0 <? Z.of_nat 0) with false.
    change (inject_Z (3 ^ Z.of_nat 0)) with 1%Q. cbv iota. ring.
  - replace (0 <? Z.of_nat (S n)) with true by (symmetry; apply Z.ltb_lt; lia).
    reflexivity.
Qed.

Lemma pow3_step (n : nat) : 3 ^ Z.of_nat (S n) = 3 * 3 ^ Z.of_nat n.
Proof. rewrite Nat2Z.inj_succ, Z.pow_succ_r by lia. reflexivity. Qed.

Lemma pow3_pos (n : nat) : 0 < 3 ^ Z.of_nat n.
Proof. apply Z.pow_pos_nonneg; lia. Qed.

Lemma scaled_delay_mono (b : Q) (n : nat) :
  (0 <= b)%Q ->
  (b * inject_Z (3 ^ Z.of_nat n) <= b * inject_Z (3 ^ Z.of_nat (S n)))%Q.
Proof.
  intros Hb. rewrite pow3_step.
  assert (H3 : (inject_Z (3 ^ Z.of_nat n) <= inject_Z (3 * 3 ^ Z.of_nat n))%Q).
  { rewrite <- Zle_Qle. pose proof (pow3_pos n). lia. }
  rewrite (Qmult_comm b (inject_Z (3 ^ Z.of_nat n))).
  rewrite (Qmult_comm b (inject_Z (3 * 3 ^ Z.of_nat n))).
  apply Qmult_le_compat_r; assumption.
Qed.

(** What one call of [wait_if_needed] does: it sleeps for what is missing
    of the required delay since the last request, if anything, stamps the
    request and counts it. *)
Lemma wait_if_needed_spec (rl : RateLimiter.t) (w : World) :
  exists rl' w',
    RateLimiter.wait_if_needed rl w = (Ok rl', w')
    /\ rl' = RateLimiter.mk (RateLimiter.base_delay rl) (w_clock w')
                            (RateLimiter.consecutive_failures rl)
                            (RateLimiter.total_requests rl + 1)
    /\ (w_clock w <= w_clock w')%Q
    /\ (RateLimiter.last_request rl + RateLimiter.required_delay rl <= w_clock w')%Q
    /\ (w_clock w' == w_clock w
        \/ w_clock w' == RateLimiter.last_request rl + RateLimiter.required_delay rl)%Q.
Proof.
  unfold RateLimiter.wait_if_needed, bind, time_time, Qltb. cbn beta iota.
  destruct (Qle_bool (RateLimiter.required_delay rl)
                     (w_clock w - RateLimiter.last_request rl)) eqn:E; cbn.
  - do 2 eexists. split; [reflexivity|]. cbn.
    apply Qle_bool_iff in E. repeat split; [lra | lra | left; lra].
  - do 2 eexists. split; [reflexivity|]. cbn.
    assert (H : (w_clock w - RateLimiter.last_request rl < RateLimiter.required_delay rl)%Q).
    { apply Qnot_le_lt. intros H. apply Qle_bool_iff in H. congruence. }
    repeat split; [lra | lra | right; lra].
Qed.

(** ** Strings: the decimal text of an integer ends with a digit *)

Lemma string_app_nil_l (s : string) : "" +:+ s = s.
Proof. reflexivity. Qed.

Lemma string_app_cons (c : ascii) (s1 s2 : string) :
  String c s1 +:+ s2 = String c (s1 +:+ s2).
Proof. reflexivity. Qed.


Lemma string_length_app (s1 s2 : string) :
  String.length (s1 +:+ s2) = (String.length s1 + String.length s2)%nat.
Proof.
  induction s1 as [|c s1 IH].
  - reflexivity.
  - rewrite string_app_cons. simpl. now rewrite IH.
Qed.










(** ** AssetCache *)



Lemma is_cache_valid_run (self : AssetCache.t) (asset_type query_hash : string) (w : World) :
  AssetCache.is_cache_valid self asset_type query_hash w =
  (Ok match AssetCache.cache_index self !! AssetCache.get_cache_key asset_type query_hash with
      | None => false
      | Some ci => now_us w - AssetCache.ci_timestamp ci
                   <? timedelta_days (expiry_days asset_type)
      end, w).
Proof.
  unfold AssetCache.is_cache_valid.
  destruct (AssetCache.cache_index self !! _); reflexivity.
Qed.

(** What a call of [cache_data] that returns has done. *)
Lemma cache_data_inv (lib : PyLib) (self : AssetCache.t) (asset_type query_hash : string)
      (data : Json) (w : World) (self' : AssetCache.t) (w1 : World) :
  AssetCache.cache_data lib self asset_type query_hash data w = (Ok self', w1) ->
  let cache_key := AssetCache.get_cache_key asset_type query_hash in
  let filename := cache_key +:+ "_" +:+ py_str (py_int (w_clock w)) +:+ ".json" in
  exists size file_size index_file,
    AssetCache.cache_index self' =
      <[cache_key := AssetCache.mkInfo asset_type query_hash filename (now_us w)
                                       size file_size]> (AssetCache.cache_index self)
    /\ w_cache w1 =
         <[AssetCache.cache_index_path := index_file]>
           (<[filename := mkFile (JsonDoc data) (w_clock w)]> (w_cache w))
    /\ w_clock w1 = w_clock w.
Proof.
  unfold AssetCache.cache_data, bind, time_time, cache_write_text, datetime_now, lift,
    cache_stat, AssetCache._save_cache_index, ret.
  cbn beta iota zeta.
  destruct (py_get data "elements" (JList [])) as [elements|e]; [|discriminate].
  destruct (py_len elements) as [size|e]; [|discriminate].
  cbn [w_cache w_clock].
  rewrite lookup_insert_eq.
  intros [= <- <-]. cbn [w_cache w_clock AssetCache.cache_index].
  do 3 eexists. split; [reflexivity|]. split; reflexivity.
Qed.




(** ** MD5: the model agrees with known digests *)

Example md5_empty : MD5.hexdigest (MD5.encode "") = "d41d8cd98f00b204e9800998ecf8427e".
Proof. vm_compute. reflexivity. Qed.

Example md5_abc : MD5.hexdigest (MD5.encode "abc") = "900150983cd24fb0d6963f7d28e17f72".
Proof. vm_compute. reflexivity. Qed.

Example md5_two_blocks :
  MD5.hexdigest (MD5.encode "aaaaaaaaaaaaaaaaaaaaaaaaaaaaaaaaaaaaaaaaaaaaaaaaaaaaaaaa")
  = "3b0c8ac703f828b04c6c197006d17218".
Proof. vm_compute. reflexivity. Qed.

(** ** The query executor *)

Lemma quiet_refl (w : World) : quiet w w.
Proof. unfold quiet. tauto. Qed.

Lemma quiet_trans (w1 w2 w3 : World) : quiet w1 w2 -> quiet w2 w3 -> quiet w1 w3.
Proof. unfold quiet. intuition congruence. Qed.

Lemma random_uniform_quiet (a b : Q) (w : World) :
  exists u w', random_uniform a b w = (Ok u, w') /\ quiet w w' /\ w_clock w' = w_clock w.
Proof.
  unfold random_uniform, bind, random_random, ret. cbn.
  do 2 eexists. split; [reflexivity|]. split; [|reflexivity].
  unfold quiet. cbn. tauto.
Qed.

Lemma time_sleep_quiet (d : Q) (w : World) :
  exists w', time_sleep d w = (Ok tt, w') /\ quiet w w'.
Proof.
  unfold time_sleep. eexists. split; [reflexivity|]. unfold quiet. cbn. tauto.
Qed.

(** One attempt: some endpoint is drawn, perhaps a back-off is slept, and
    the request meets what the network holds for this call. *)
Lemma attempt_query_run (query : string) (attempt : Z) (w : World) :
  exists endpoint w1,
    quiet w w1 /\
    Overpass.attempt_query query attempt w =
      match w_network w (length (w_requests w)) (mkRequest endpoint query) with
      | Body d => (json_loads d, add_request (mkRequest endpoint query) w1)
      | NetFailure e => (Raise e, add_request (mkRequest endpoint query) w1)
      end.
Proof.
  unfold Overpass.attempt_query, Overpass.get_random_endpoint, random_choice.
  unfold bind at 1 2. unfold random_random at 1. cbn beta iota.
  unfold ret at 1. cbn beta iota.
  set (endpoint := nth _ Overpass.OVERPASS_ENDPOINTS "").
  set (w0 := mkWorld _ _ _ _ _ _ _ _ _).
  assert (Hq0 : quiet w w0) by (unfold quiet, w0; cbn; tauto).
  exists endpoint.
  destruct (0 <? attempt).
  - destruct (random_uniform_quiet 0 5 w0) as (u & wa & Hu & Hqa & _).
    unfold bind. rewrite Hu.
    destruct (time_sleep_quiet (5 * inject_Z (3 ^ attempt) + u)%Q wa) as (wb & Hs & Hqb).
    rewrite Hs.
    assert (Hq : quiet w wb) by eauto using quiet_trans.
    exists wb. split; [exact Hq|].
    unfold urlopen, lift.
    destruct Hq as (Hn & Hr & _). rewrite Hn, Hr.
    destruct (w_network w _ _); reflexivity.
  - unfold bind, ret.
    exists w0. split; [exact Hq0|].
    unfold urlopen, lift.
    destruct Hq0 as (Hn & Hr & _). rewrite Hn, Hr.
    destruct (w_network w _ _); reflexivity.
Qed.

Lemma add_request_fields (rq : Request) (w : World) :
  w_network (add_request rq w) = w_network w /\
  w_requests (add_request rq w) = w_requests w ++ [rq] /\
  w_assets (add_request rq w) = w_assets w /\
  w_cache (add_request rq w) = w_cache w /\
  w_log (add_request rq w) = w_log w /\
  w_random (add_request rq w) = w_random w.
Proof. unfold add_request. cbn. tauto. Qed.

(** The executor never raises. *)
Lemma retry_loop_returns (query : string) (max_retries : Z) (attempts : list Z) (w : World) :
  exists data w', Overpass.retry_loop query max_retries attempts w = (Ok data, w').
Proof.
  revert w. induction attempts as [|attempt attempts IH]; intros w.
  - do 2 eexists. reflexivity.
  - cbn [Overpass.retry_loop]. unfold bind at 1. unfold try_except, bind at 1.
    destruct (Overpass.attempt_query query attempt w) as [[data|e] w1].
    + unfold ret. do 2 eexists. reflexivity.
    + destruct (attempt =? max_retries - 1).
      * unfold ret. do 2 eexists. reflexivity.
      * unfold ret. apply IH.
Qed.

(** When every attempt left fails, the loop spends them all and returns
    the empty result. *)
Lemma retry_loop_all_fail (query : string) (max_retries : Z) (n a : nat) (w : World) :
  (Z.of_nat a + Z.of_nat n = max_retries)%Z ->
  next_attempts_fail w query n ->
  exists w',
    Overpass.retry_loop query max_retries (map Z.of_nat (seq a n)) w
      = (Ok Overpass.empty_result, w')
    /\ map rq_data (w_requests w') = map rq_data (w_requests w) ++ repeat query n
    /\ w_network w' = w_network w /\ w_assets w' = w_assets w
    /\ w_cache w' = w_cache w /\ w_log w' = w_log w.
Proof.
  revert a w. induction n as [|n IH]; intros a w Hmax Hfail.
  - exists w. cbn. rewrite app_nil_r. tauto.
  - cbn [seq map Overpass.retry_loop].
    destruct (attempt_query_run query (Z.of_nat a) w) as (endpoint & w1 & Hq & Hrun).
    pose proof (Hfail 0%nat endpoint ltac:(lia)) as Hf.
    rewrite Nat.add_0_r in Hf.
    destruct (add_request_fields (mkRequest endpoint query) w1)
      as (Hn2 & Hr2 & Ha2 & Hc2 & Hl2 & _).
    destruct Hq as (Hn1 & Hr1 & Ha1 & Hc1 & Hl1 & _).
    set (w2 := add_request (mkRequest endpoint query) w1) in *.
    assert (Hraise : exists e, Overpass.attempt_query query (Z.of_nat a) w = (Raise e, w2)).
    { rewrite Hrun. destruct (w_network w _ _) as [[v|t]|e]; [discriminate|..];
        eexists; reflexivity. }
    destruct Hraise as (e & He).
    assert (Hreq2 : map rq_data (w_requests w2) = map rq_data (w_requests w) ++ [query]).
    { rewrite Hr2, map_app, Hr1. reflexivity. }
    unfold bind at 1. unfold try_except, bind at 1. rewrite He.
    destruct (Z.of_nat a =? max_retries - 1) eqn:Elast.
    + apply Z.eqb_eq in Elast. assert (n = 0%nat) by lia. subst n.
      unfold ret. exists w2. split; [reflexivity|].
      rewrite Hreq2, Hn2, Ha2, Hc2, Hl2. cbn. tauto.
    + apply Z.eqb_neq in Elast. unfold ret.
      destruct (IH (S a) w2) as (w' & Hloop & Hreq & Hn & Ha & Hc & Hl).
      * lia.
      * intros i ep Hi. rewrite Hn2, Hr2, length_app, Hr1, Hn1. cbn [length].
        replace (length (w_requests w) + 1 + i)%nat
          with (length (w_requests w) + S i)%nat by lia.
        apply Hfail. lia.
      * exists w'. split; [exact Hloop|].
        rewrite Hreq, Hreq2, <- app_assoc, Hn, Ha, Hc, Hl, Hn2, Ha2, Hc2, Hl2.
        cbn [repeat app]. repeat split; congruence.
Qed.

(** A query that the network always answers with [reply]: one attempt
    when the reply is JSON, else all three, and never an exception. *)
Lemma execute_answered (query : string) (reply : Reply) (w : World) :
  (forall n endpoint, w_network w n (mkRequest endpoint query) = reply) ->
  exists w',
    Overpass.execute_query_with_retry query 3 w = (Ok (executor_result reply), w')
    /\ map rq_data (w_requests w')
       = map rq_data (w_requests w) ++ repeat query (attempts_spent reply)
    /\ w_network w' = w_network w /\ w_assets w' = w_assets w
    /\ w_cache w' = w_cache w /\ w_log w' = w_log w.
Proof.
  intros Hreply. unfold Overpass.execute_query_with_retry, attempts_spent.
  destruct (reply_fails reply) eqn:Ef.
  - change (Overpass.range 3) with (map Z.of_nat (seq 0 3)).
    destruct (retry_loop_all_fail query 3 3 0 w) as (w' & Hrun & Hrest).
    + reflexivity.
    + intros i ep _. rewrite Hreply. exact Ef.
    + exists w'. split; [|exact Hrest].
      rewrite Hrun. destruct reply as [[v|t]|e]; [discriminate|reflexivity..].
  - destruct reply as [[v|t]|e]; try discriminate.
    change (Overpass.range 3) with [0; 1; 2].
    cbn [Overpass.retry_loop].
    destruct (attempt_query_run query 0 w) as (endpoint & w1 & Hq & Hrun).
    rewrite Hreply in Hrun. cbn [json_loads] in Hrun.
    unfold bind at 1. unfold try_except, bind at 1. rewrite Hrun. unfold ret.
    eexists. split; [reflexivity|].
    destruct (add_request_fields (mkRequest endpoint query) w1)
      as (Hn2 & Hr2 & Ha2 & Hc2 & Hl2 & _).
    destruct Hq as (Hn1 & Hr1 & Ha1 & Hc1 & Hl1 & _).
    rewrite Hr2, map_app, Hr1, Hn2, Ha2, Hc2, Hl2. cbn. repeat split; congruence.
Qed.

(** ** Regional chunking *)

Lemma region_features_inv (process : Json -> Res (list Json)) (osm_data : Json)
      (fs : list Json) :
  region_features process osm_data = Ok fs ->
  exists elements, py_get osm_data "elements" (JList []) = Ok elements
                   /\ process elements = Ok fs.
Proof.
  unfold region_features, res_bind.
  destruct (py_get osm_data "elements" (JList [])) as [els|e]; [|discriminate].
  intros H. exists els. split; [reflexivity | exact H].
Qed.

Lemma chunked_loop_run (query_of : Z * Z * Z * Z -> string)
      (process : Json -> Res (list Json)) (assign : string -> Reply)
      (feats : string -> list Json)
      (regions : list (string * (Z * Z * Z * Z))) (acc : list Json) (w : World) :
  answers_regions query_of regions assign w ->
  (forall r, In r regions ->
             region_features process (executor_result (assign (fst r))) = Ok (feats (fst r))) ->
  exists w',
    Overpass.chunked_loop query_of process regions acc w
      = (Ok (acc ++ concat (map (fun r => feats (fst r)) regions)), w')
    /\ map rq_data (w_requests w')
       = map rq_data (w_requests w)
         ++ concat (map (fun r => repeat (query_of (snd r)) (attempts_spent (assign (fst r))))
                        regions)
    /\ w_network w' = w_network w /\ w_assets w' = w_assets w
    /\ w_cache w' = w_cache w /\ w_log w' = w_log w.
Proof.
  revert acc w. induction regions as [|[region_name bbox] regions IH]; intros acc w Hans Hok.
  - exists w. cbn. rewrite !app_nil_r. tauto.
  - cbn [Overpass.chunked_loop].
    destruct (execute_answered (query_of bbox) (assign region_name) w)
      as (w1 & Hexec & Hreq1 & Hn1 & Ha1 & Hc1 & Hl1).
    { intros n ep. apply (Hans (region_name, bbox)). left. reflexivity. }
    unfold bind at 1. rewrite Hexec.
    destruct (region_features_inv process _ _ (Hok (region_name, bbox) (or_introl eq_refl)))
      as (elements & Hget & Hproc).
    cbn [fst] in Hget, Hproc.
    unfold bind at 1. unfold lift at 1. rewrite Hget.
    unfold bind at 1. unfold lift at 1. rewrite Hproc.
    destruct (random_uniform_quiet 10 20 w1) as (u & w2 & Hu & Hq2 & _).
    unfold bind at 1. rewrite Hu.
    destruct (time_sleep_quiet u w2) as (w3 & Hs & Hq3).
    unfold bind at 1. rewrite Hs.
    pose proof (quiet_trans _ _ _ Hq2 Hq3) as (Hn3 & Hr3 & Ha3 & Hc3 & Hl3 & _).
    destruct (IH (acc ++ feats region_name) w3) as (w' & Hloop & Hreq & Hn & Ha & Hc & Hl).
    { intros r n ep Hr. rewrite Hn3, Hn1. apply Hans. right. exact Hr. }
    { intros r Hr. apply Hok. right. exact Hr. }
    exists w'. split.
    + rewrite Hloop. cbn [map concat fst]. rewrite <- app_assoc. reflexivity.
    + rewrite Hreq, Hr3, Hreq1, Hn, Hn3, Hn1, Ha, Ha3, Ha1, Hc, Hc3, Hc1, Hl, Hl3, Hl1.
      cbn [map concat fst snd]. rewrite <- app_assoc. tauto.
Qed.

(** ** Military elements *)

Lemma military_feature_cases (lib : PyLib) (element : Json) :
  match Overpass.military_feature lib element with
  | Ok (Some f) =>
      has_coordinates element = true
      /\ feature_property "asset_type" f = Some (JStr "military")
      /\ is_point_record f = true
  | Ok None => has_coordinates element = false
  | Raise _ => True
  end.
Proof.
  unfold Overpass.military_feature, has_coordinates.
  destruct (Overpass.element_point element) as [[[[tags lon] lat]|]|e]; cbn; [|reflexivity|exact I].
  repeat match goal with
         | |- context [res_bind ?x _] =>
             let E := fresh "E" in destruct x eqn:E; cbn; [|exact I]
         end.
  unfold Overpass.point_geometry, res_bind in *.
  destruct (py_float lib lon); [|discriminate].
  destruct (py_float lib lat); [|discriminate].
  match goal with H : Ok _ = Ok _ |- _ => injection H as <- end.
  cbn. tauto.
Qed.

Lemma collect_military_features (lib : PyLib) (elements fs : list Json) :
  Overpass.collect_features (Overpass.military_feature lib) elements = Ok fs ->
  length fs = length (List.filter has_coordinates elements)
  /\ Forall (fun f => feature_property "asset_type" f = Some (JStr "military")
                      /\ is_point_record f = true) fs.
Proof.
  revert fs. induction elements as [|el els IH]; intros fs H.
  - injection H as <-. split; [reflexivity | constructor].
  - cbn [Overpass.collect_features] in H. unfold res_bind in H.
    pose proof (military_feature_cases lib el) as Hel.
    destruct (Overpass.military_feature lib el) as [[f|]|e]; [| |discriminate].
    + destruct (Overpass.collect_features _ els) as [fs'|e]; [|discriminate].
      injection H as <-. destruct (IH fs' eq_refl) as (Hlen & Hall).
      destruct Hel as (Hc & Hprops). cbn [List.filter]. rewrite Hc. cbn [length].
      split; [now rewrite Hlen | constructor; assumption].
    + destruct (Overpass.collect_features _ els) as [fs'|e]; [|discriminate].
      injection H as <-. destruct (IH fs' eq_refl) as (Hlen & Hall).
      cbn [List.filter]. rewrite Hel. split; assumption.
Qed.

(** ** [float] of an [int]: nearest binary64 number, ties to even *)

(** An [int] of at most 53 bits is converted without rounding. *)
Lemma float_of_int_exact (z : Z) :
  Z.abs z < 2 ^ 53 -> float_of_int z = Ok (inject_Z z).
Proof.
  intros Hz. unfold float_of_int.
  assert (Hshift : Z.max 0 (Z.log2 (Z.abs z) + 1 - 53) = 0).
  { destruct (Z.eq_dec (Z.abs z) 0) as [E|E].
    - rewrite E. reflexivity.
    - assert (Z.log2 (Z.abs z) < 53) by (apply Z.log2_lt_pow2; lia). lia. }
  rewrite Hshift. change (2 ^ 0) with 1.
  replace (round_half_even (Z.abs z) 1) with (Z.abs z)
    by (unfold round_half_even; rewrite Z.mod_1_r, Z.div_1_r; reflexivity).
  rewrite Z.mul_1_r.
  destruct (2 ^ 1024 <=? Z.abs z) eqn:E.
  - apply Z.leb_le in E. assert (2 ^ 53 < 2 ^ 1024) by reflexivity. lia.
  - f_equal. f_equal. rewrite Z.mul_comm. apply Z.abs_sgn.
Qed.

(** Beyond 53 bits the conversion rounds, and it raises once the rounded
    value would reach [2 ** 1024]. *)
Lemma float_of_int_rounds_and_overflows :
  float_of_int (2 ^ 53 + 1) = Ok (inject_Z (2 ^ 53))
  /\ float_of_int (2 ^ 53 + 3) = Ok (inject_Z (2 ^ 53 + 4))
  /\ float_of_int (- (2 ^ 53 + 3)) = Ok (inject_Z (- (2 ^ 53 + 4)))
  /\ float_of_int (2 ^ 54 + 2) = Ok (inject_Z (2 ^ 54))
  /\ float_of_int (2 ^ 54 + 6) = Ok (inject_Z (2 ^ 54 + 8))
  /\ float_of_int (3 ^ 34) = Ok (inject_Z (3 ^ 34 - 1))
  /\ float_of_int (2 ^ 1024 - 2 ^ 970 - 1) = Ok (inject_Z (2 ^ 1024 - 2 ^ 971))
  /\ float_of_int (2 ^ 1024 - 2 ^ 970) = Raise OverflowError
  /\ float_of_int (3 ^ 646) = Ok (inject_Z (3 ^ 646 - 3 ^ 646 mod 2 ^ 971))
  /\ float_of_int (3 ^ 647) = Raise OverflowError
  /\ float_of_int (10 ^ 400) = Raise OverflowError.
Proof. repeat split; vm_compute; reflexivity. Qed.

(** An element whose coordinate is an [int] too large for a float stops
    the processing of its reply with [OverflowError]. *)
Lemma military_feature_overflows (lib : PyLib) :
  Overpass.process_military_elements
    lib
    (JList [JDict [ ("type", JStr "node"); ("id", JInt 1);
                    ("lat", JInt (10 ^ 400)); ("lon", JInt 0);
                    ("tags", JDict [("military", JStr "airfield")]) ]])
  = Raise OverflowError.
Proof. vm_compute. reflexivity. Qed.

(** Well-formed elements are processed without an exception. *)
Lemma military_feature_wellformed (lib : PyLib) (element : Json) :
  wellformed_element element = true ->
  exists r, Overpass.military_feature lib element = Ok r.
Proof.
  unfold wellformed_element, Overpass.military_feature, Overpass.element_point.
  destruct element as [| | | | | |d]; try discriminate.
  cbn [py_get res_bind].
  destruct (dict_get_default "center" d (JDict [])) as [| | | | | |c]; try discriminate.
  cbn [py_get res_bind].
  set (lat := dict_get_default "lat" d _). set (lon := dict_get_default "lon" d _).
  destruct (is_none lat || is_none lon) eqn:Enone; cbn [orb].
  - intros _. eexists. reflexivity.
  - intros H. apply andb_prop in H as [H Hlon]. apply andb_prop in H as [Htags Hlat].
    destruct (dict_get_default "tags" d (JDict [])) as [| | | | | |tags]; try discriminate.
    cbn [res_bind py_get Overpass.tags_without py_items].
    unfold Overpass.point_geometry.
    assert (Hfloat : forall v, is_number v = true -> exists q, py_float lib v = Ok q).
    { intros [| | z | | | |]; try discriminate; cbn [is_number py_float].
      - intros _. eexists. reflexivity.
      - destruct (float_of_int z); [eexists; reflexivity | discriminate].
      - intros _. eexists. reflexivity. }
    destruct (Hfloat lon Hlon) as (flon & ->). destruct (Hfloat lat Hlat) as (flat & ->).
    cbn [res_bind]. eexists. reflexivity.
Qed.

Lemma process_military_wellformed (lib : PyLib) (elements : list Json) :
  forallb wellformed_element elements = true ->
  exists fs, Overpass.process_military_elements lib (JList elements) = Ok fs.
Proof.
  unfold Overpass.process_military_elements, Overpass.process_elements.
  cbn [py_iter res_bind].
  induction elements as [|el els IH]; intros H.
  - eexists. reflexivity.
  - cbn [forallb] in H. apply andb_prop in H as [Hel Hels].
    destruct (military_feature_wellformed lib el Hel) as (r & Hr).
    destruct (IH Hels) as (fs & Hfs).
    cbn [Overpass.collect_features]. rewrite Hr. cbn [res_bind]. rewrite Hfs. cbn [res_bind].
    eexists. reflexivity.
Qed.

Lemma save_geojson_run (lib : PyLib) (features : list Json) (path asset_type : string)
      (w : World) :
  exists w',
    Overpass.save_geojson lib features path asset_type w = (Ok tt, w')
    /\ saved_features path w' = Some features
    /\ saved_count path w' = Some (JInt (Z.of_nat (length features)))
    /\ w_requests w' = w_requests w /\ w_network w' = w_network w
    /\ w_cache w' = w_cache w /\ w_log w' = w_log w
    /\ forall name, name <> path -> w_assets w' !! name = w_assets w !! name.
Proof.
  unfold Overpass.save_geojson, bind, time_time, assets_write_text, json_dumps.
  eexists. split; [reflexivity|].
  unfold saved_features, saved_count. cbn [w_assets w_requests w_network w_cache w_log].
  rewrite lookup_insert_eq. cbn.
  repeat split; try reflexivity.
  intros name Hne. now rewrite lookup_insert_ne.
Qed.

(** The chunked military download under an assignment of replies to the
    regions. *)
Lemma download_military_chunked_run (lib : PyLib) (assign : string -> Reply)
      (feats : string -> list Json) (w : World) :
  answers_regions Overpass.military_query Overpass.EU_REGIONS assign w ->
  (forall r, In r Overpass.EU_REGIONS ->
             region_features (Overpass.process_military_elements lib)
                             (executor_result (assign (fst r))) = Ok (feats (fst r))) ->
  exists w',
    Overpass.download_military_chunked lib w = (Ok tt, w')
    /\ saved_features "military.geojson" w'
       = Some (concat (map (fun r => feats (fst r)) Overpass.EU_REGIONS))
    /\ saved_count "military.geojson" w'
       = Some (JInt (Z.of_nat (length (concat (map (fun r => feats (fst r))
                                                   Overpass.EU_REGIONS)))))
    /\ map rq_data (w_requests w')
       = map rq_data (w_requests w)
         ++ concat (map (fun r => repeat (Overpass.military_query (snd r))
                                         (attempts_spent (assign (fst r))))
                        Overpass.EU_REGIONS)
    /\ w_network w' = w_network w /\ w_cache w' = w_cache w /\ w_log w' = w_log w
    /\ forall name, name <> "military.geojson" -> w_assets w' !! name = w_assets w !! name.
Proof.
  intros Hans Hok.
  destruct (chunked_loop_run Overpass.military_query (Overpass.process_military_elements lib)
              assign feats Overpass.EU_REGIONS [] w Hans Hok)
    as (w1 & Hloop & Hreq & Hn & Ha & Hc & Hl).
  unfold Overpass.download_military_chunked, bind. rewrite Hloop. cbn [app].
  destruct (save_geojson_run lib (concat (map (fun r => feats (fst r)) Overpass.EU_REGIONS))
              "military.geojson" "military" w1)
    as (w2 & Hsave & Hfs & Hcount & Hr2 & Hn2 & Hc2 & Hl2 & Hother).
  exists w2. split; [exact Hsave|].
  rewrite Hfs, Hcount, Hr2, Hreq, Hn2, Hn, Hc2, Hc, Hl2, Hl.
  repeat split; try reflexivity.
  intros name Hne. rewrite Hother by exact Hne. now rewrite Ha.
Qed.

(** For every assignment there is a network that follows it: the queries
    of the five regions are pairwise different. *)
Lemma serve_regions_answers (assign : string -> Reply) (w : World) :
  w_network w = serve_regions Overpass.military_query Overpass.EU_REGIONS assign ->
  answers_regions Overpass.military_query Overpass.EU_REGIONS assign w.
Proof.
  intros Hnet r n endpoint Hr. rewrite Hnet. unfold serve_regions. cbn [rq_data].
  cbn in Hr.
  repeat (destruct Hr as [<-|Hr]; [vm_compute; reflexivity|]).
  contradiction.
Qed.

(** ** The strategy chain *)

Lemma set_rate_limiter_stats (self : DownloadManager.t) (rl : RateLimiter.t) :
  DownloadManager.download_stats (DownloadManager.set_rate_limiter self rl)
  = DownloadManager.download_stats self.
Proof. reflexivity. Qed.

Lemma download_with_fallback_start (lib : PyLib) (self : DownloadManager.t)
      (asset_type : string) (w : World) :
  DownloadManager.download_with_fallback lib self asset_type w
  = DownloadManager.try_strategies (DownloadManager.strategies lib) self asset_type
      (w_clock w) (add_log (LogStarting asset_type) w).
Proof. reflexivity. Qed.

(** The [try] block after a wait that returned. *)
Lemma try_block_run (s : DownloadManager.Strategy) (self : DownloadManager.t)
      (asset_type : string) (w : World) (rl : RateLimiter.t) (w0 : World) :
  RateLimiter.wait_if_needed (DownloadManager.rate_limiter self) w = (Ok rl, w0) ->
  DownloadManager.try_block s self asset_type w
  = (Ok (DownloadManager.set_rate_limiter self rl,
         fst (DownloadManager.strategy_call s (DownloadManager.set_rate_limiter self rl)
                asset_type w0)),
     snd (DownloadManager.strategy_call s (DownloadManager.set_rate_limiter self rl)
            asset_type w0)).
Proof.
  intros Hwait. unfold DownloadManager.try_block, bind, catch. rewrite Hwait.
  destruct (DownloadManager.strategy_call s _ asset_type w0) as [r w1]. reflexivity.
Qed.

(** One round of the loop, after the wait. *)
Lemma try_strategies_step (s : DownloadManager.Strategy)
      (rest : list DownloadManager.Strategy) (self : DownloadManager.t)
      (asset_type : string) (start_time : Q) (w : World) (rl : RateLimiter.t) (w0 : World) :
  RateLimiter.wait_if_needed (DownloadManager.rate_limiter self) w = (Ok rl, w0) ->
  DownloadManager.try_strategies (s :: rest) self asset_type start_time w
  = match DownloadManager.strategy_call s (DownloadManager.set_rate_limiter self rl)
            asset_type w0 with
    | (Ok true, w1) =>
        (Ok (true,
             DownloadManager.append_operation
               (DownloadManager.set_rate_limiter self (RateLimiter.record_success rl))
               (DownloadManager.mkOperation asset_type (DownloadManager.strategy_name s)
                                            (w_clock w1 - start_time) (now_us w1) true)),
         add_log (LogDownloaded asset_type (DownloadManager.strategy_name s)
                                (w_clock w1 - start_time)) w1)
    | (Ok false, w1) =>
        DownloadManager.try_strategies rest (DownloadManager.set_rate_limiter self rl)
                                       asset_type start_time w1
    | (Raise e, w1) =>
        DownloadManager.try_strategies
          rest (DownloadManager.set_rate_limiter self (RateLimiter.record_failure rl))
          asset_type start_time
          (add_log (LogStrategyFailed (DownloadManager.strategy_name s) asset_type e) w1)
    end.
Proof.
  intros Hwait. cbn [DownloadManager.try_strategies].
  unfold bind at 1. rewrite (try_block_run s self asset_type w rl w0 Hwait).
  destruct (DownloadManager.strategy_call s _ asset_type w0) as [[[|]|e] w1];
    reflexivity.
Qed.

(** A strategy that does not return [True] hands the chain to the next
    one; the report is left as it was. *)
Lemma try_strategies_skip (s : DownloadManager.Strategy)
      (rest : list DownloadManager.Strategy) (self : DownloadManager.t)
      (asset_type : string) (start_time : Q) (w : World) :
  (forall self0 w0, fst (DownloadManager.strategy_call s self0 asset_type w0) <> Ok true) ->
  exists self1 w1,
    DownloadManager.try_strategies (s :: rest) self asset_type start_time w
    = DownloadManager.try_strategies rest self1 asset_type start_time w1
    /\ DownloadManager.download_stats self1 = DownloadManager.download_stats self.
Proof.
  intros Hfail.
  destruct (wait_if_needed_spec (DownloadManager.rate_limiter self) w)
    as (rl & w0 & Hwait & _).
  rewrite (try_strategies_step s rest self asset_type start_time w rl w0 Hwait).
  specialize (Hfail (DownloadManager.set_rate_limiter self rl) w0).
  destruct (DownloadManager.strategy_call s _ asset_type w0) as [[[|]|e] w1];
    cbn [fst] in Hfail; [congruence|..].
  - do 2 eexists. split; reflexivity.
  - do 2 eexists. split; reflexivity.
Qed.

(** A strategy that returns [True] ends the chain with one record, its own. *)
Lemma try_strategies_success (s : DownloadManager.Strategy)
      (rest : list DownloadManager.Strategy) (self : DownloadManager.t)
      (asset_type : string) (start_time : Q) (w : World) :
  (forall self0 w0, fst (DownloadManager.strategy_call s self0 asset_type w0) = Ok true) ->
  exists self' w' duration timestamp,
    DownloadManager.try_strategies (s :: rest) self asset_type start_time w
    = (Ok (true, self'), w')
    /\ DownloadManager.operations (DownloadManager.download_stats self')
       = DownloadManager.operations (DownloadManager.download_stats self)
         ++ [DownloadManager.mkOperation asset_type (DownloadManager.strategy_name s)
                                         duration timestamp true].
Proof.
  intros Hok.
  destruct (wait_if_needed_spec (DownloadManager.rate_limiter self) w)
    as (rl & w0 & Hwait & _).
  rewrite (try_strategies_step s rest self asset_type start_time w rl w0 Hwait).
  specialize (Hok (DownloadManager.set_rate_limiter self rl) w0).
  destruct (DownloadManager.strategy_call s _ asset_type w0) as [[[|]|e] w1];
    cbn [fst] in Hok; try discriminate.
  do 4 eexists. split; reflexivity.
Qed.

(** Whatever the strategies do, a run of the chain returns and adds exactly
    one record to the report: that of the strategy that returned [True], or
    the record ["all_failed"]. *)
Lemma try_strategies_one_record (strategies : list DownloadManager.Strategy)
      (self : DownloadManager.t) (asset_type : string) (start_time : Q) (w : World) :
  exists b self' w' op,
    DownloadManager.try_strategies strategies self asset_type start_time w
    = (Ok (b, self'), w')
    /\ DownloadManager.operations (DownloadManager.download_stats self')
       = DownloadManager.operations (DownloadManager.download_stats self) ++ [op]
    /\ DownloadManager.op_asset_type op = asset_type
    /\ DownloadManager.op_success op = b
    /\ (if b then exists s, In s strategies
                            /\ DownloadManager.op_strategy op = DownloadManager.strategy_name s
        else DownloadManager.op_strategy op = "all_failed").
Proof.
  revert self w. induction strategies as [|s rest IH]; intros self w.
  - cbn [DownloadManager.try_strategies].
    unfold ret, bind, time_time, datetime_now, logging. cbn.
    do 4 eexists. split; [reflexivity|]. cbn. tauto.
  - destruct (wait_if_needed_spec (DownloadManager.rate_limiter self) w)
      as (rl & w0 & Hwait & _).
    rewrite (try_strategies_step s rest self asset_type start_time w rl w0 Hwait).
    destruct (DownloadManager.strategy_call s _ asset_type w0) as [[[|]|e] w1].
    + do 4 eexists. split; [reflexivity|]. cbn. repeat split.
      exists s. split; [left; reflexivity | reflexivity].
    + destruct (IH (DownloadManager.set_rate_limiter self rl) w1)
        as (b & self' & w' & op & Hrun & Hops & Hat & Hsucc & Hname).
      exists b, self', w', op. split; [exact Hrun|].
      split; [exact Hops|]. split; [exact Hat|]. split; [exact Hsucc|].
      destruct b; [|exact Hname].
      destruct Hname as (s' & Hin & Hs'). exists s'. split; [right; exact Hin | exact Hs'].
    + match goal with
      | |- context [DownloadManager.try_strategies rest ?self1 _ _ ?w2] =>
          destruct (IH self1 w2) as (b & self' & w' & op & Hrun & Hops & Hat & Hsucc & Hname)
      end.
      exists b, self', w', op. split; [exact Hrun|].
      split; [exact Hops|]. split; [exact Hat|]. split; [exact Hsucc|].
      destruct b; [|exact Hname].
      destruct Hname as (s' & Hin & Hs'). exists s'. split; [right; exact Hin | exact Hs'].
Qed.

(** A run of the chain returns, adds one record to the report, and its
    rounds are failed ones up to the round that returned [True], if any. *)
Lemma try_strategies_rounds (strategies : list DownloadManager.Strategy)
      (self : DownloadManager.t) (asset_type : string) (start_time : Q) (w : World) :
  exists b self' w' op,
    DownloadManager.try_strategies strategies self asset_type start_time w
    = (Ok (b, self'), w')
    /\ DownloadManager.operations (DownloadManager.download_stats self')
       = DownloadManager.operations (DownloadManager.download_stats self) ++ [op]
    /\ DownloadManager.op_asset_type op = asset_type
    /\ DownloadManager.op_success op = b
    /\ (if b
        then exists failed name,
               chain_rounds strategies self asset_type w = failed ++ [(name, Ok true)]
               /\ Forall round_failed failed
               /\ DownloadManager.op_strategy op = name
        else Forall round_failed (chain_rounds strategies self asset_type w)
             /\ length (chain_rounds strategies self asset_type w) = length strategies
             /\ DownloadManager.op_strategy op = "all_failed")
    /\ map fst (chain_rounds strategies self asset_type w)
       = map DownloadManager.strategy_name
             (firstn (length (chain_rounds strategies self asset_type w)) strategies).
Proof.
  revert self w. induction strategies as [|s rest IH]; intros self w.
  - cbn [DownloadManager.try_strategies chain_rounds].
    unfold ret, bind, time_time, datetime_now, logging. cbn.
    do 4 eexists. split; [reflexivity|]. cbn. repeat split. constructor.
  - destruct (wait_if_needed_spec (DownloadManager.rate_limiter self) w)
      as (rl & w0 & Hwait & _).
    rewrite (try_strategies_step s rest self asset_type start_time w rl w0 Hwait).
    cbn [chain_rounds]. rewrite (try_block_run s self asset_type w rl w0 Hwait).
    destruct (DownloadManager.strategy_call s _ asset_type w0) as [[[|]|e] w1];
      cbn [fst snd].
    + do 4 eexists. split; [reflexivity|]. cbn. repeat split.
      exists [], (DownloadManager.strategy_name s). repeat split. constructor.
    + destruct (IH (DownloadManager.set_rate_limiter self rl) w1)
        as (b & self' & w' & op & Hrun & Hops & Hat & Hsucc & Hname & Hnames).
      exists b, self', w', op. split; [exact Hrun|].
      split; [exact Hops|]. split; [exact Hat|]. split; [exact Hsucc|].
      split.
      * destruct b.
        -- destruct Hname as (failed & name & Hr & Hf & Hn).
           exists ((DownloadManager.strategy_name s, Ok false) :: failed), name.
           rewrite Hr. split; [reflexivity|]. split; [|exact Hn].
           constructor; [cbn; discriminate | exact Hf].
        -- destruct Hname as (Hf & Hlen & Hn). split; [|split; [|exact Hn]].
           ++ constructor; [cbn; discriminate | exact Hf].
           ++ cbn [length]. rewrite Hlen. reflexivity.
      * cbn [length firstn map fst]. rewrite Hnames. reflexivity.
    + change (DownloadManager.set_rate_limiter
                (DownloadManager.set_rate_limiter self rl)
                (RateLimiter.record_failure
                   (DownloadManager.rate_limiter (DownloadManager.set_rate_limiter self rl))))
        with (DownloadManager.set_rate_limiter self (RateLimiter.record_failure rl)).
      match goal with
      | |- context [DownloadManager.try_strategies rest ?self1 _ _ ?w2] =>
          destruct (IH self1 w2)
            as (b & self' & w' & op & Hrun & Hops & Hat & Hsucc & Hname & Hnames)
      end.
      exists b, self', w', op. split; [exact Hrun|].
      split; [exact Hops|]. split; [exact Hat|]. split; [exact Hsucc|].
      split.
      * destruct b.
        -- destruct Hname as (failed & name & Hr & Hf & Hn).
           exists ((DownloadManager.strategy_name s, Raise e) :: failed), name.
           rewrite Hr. split; [reflexivity|]. split; [|exact Hn].
           constructor; [cbn; discriminate | exact Hf].
        -- destruct Hname as (Hf & Hlen & Hn). split; [|split; [|exact Hn]].
           ++ constructor; [cbn; discriminate | exact Hf].
           ++ cbn [length]. rewrite Hlen. reflexivity.
      * cbn [length firstn map fst]. rewrite Hnames. reflexivity.
Qed.

(** On a concrete limiter the range condition is settled by evaluation. *)
Ltac range_by_evaluation :=
  split; [vm_compute; discriminate | split; vm_compute; discriminate].

Lemma failure_records_app (ops1 ops2 : list DownloadManager.Operation) :
  failure_records (ops1 ++ ops2) = failure_records ops1 ++ failure_records ops2.
Proof. unfold failure_records. apply filter_app. Qed.

(** ** A request for the military sites always goes to the network *)

Lemma wait_if_needed_frame (rl : RateLimiter.t) (w : World) :
  exists rl' w',
    RateLimiter.wait_if_needed rl w = (Ok rl', w')
    /\ w_network w' = w_network w /\ w_requests w' = w_requests w
    /\ w_assets w' = w_assets w /\ w_cache w' = w_cache w.
Proof.
  unfold RateLimiter.wait_if_needed, bind, time_time, ret.
  destruct (Qltb _ _); cbn; do 2 eexists; (split; [reflexivity|]); cbn; tauto.
Qed.

(** Without a file [<asset_type>_cached.geojson] the cache strategy answers
    [False] and leaves the world as it is. *)
Lemma try_cached_download_miss (self : DownloadManager.t) (asset_type : string) (w : World) :
  w_assets w !! (asset_type +:+ "_cached.geojson") = None ->
  DownloadManager._try_cached_download self asset_type w = (Ok false, w).
Proof.
  intros Hnone. unfold DownloadManager._try_cached_download.
  destruct (negb _); [reflexivity|].
  unfold bind, assets_exists. rewrite Hnone.
  rewrite bool_decide_eq_false_2; [reflexivity|].
  intros [x Hx]. discriminate.
Qed.

(** The live fetch writes [military.geojson] only, so the file that the
    cache strategy looks for never comes into being: every request for
    ["military"] is satisfied by [_try_optimized_download], with at least
    one network call per region. *)
Lemma military_request_always_fetches (lib : PyLib) (assign : string -> Reply)
      (feats : string -> list Json) (self : DownloadManager.t) (w : World) :
  answers_regions Overpass.military_query Overpass.EU_REGIONS assign w ->
  (forall r, In r Overpass.EU_REGIONS ->
             region_features (Overpass.process_military_elements lib)
                             (executor_result (assign (fst r))) = Ok (feats (fst r))) ->
  w_assets w !! "military_cached.geojson" = None ->
  exists self' w' op,
    DownloadManager.download_with_fallback lib self "military" w = (Ok (true, self'), w')
    /\ DownloadManager.operations (DownloadManager.download_stats self')
       = DownloadManager.operations (DownloadManager.download_stats self) ++ [op]
    /\ DownloadManager.op_strategy op = "_try_optimized_download"
    /\ (length (w_requests w) + 5 <= length (w_requests w'))%nat
    /\ w_network w' = w_network w
    /\ w_assets w' !! "military_cached.geojson" = None.
Proof.
  intros Hans Hok Hnone.
  rewrite download_with_fallback_start. unfold DownloadManager.strategies.
  set (w0 := add_log (LogStarting "military") w).
  (* the cache strategy *)
  destruct (wait_if_needed_frame (DownloadManager.rate_limiter self) w0)
    as (rl1 & w1 & Hwait1 & Hn1 & Hr1 & Ha1 & _).
  rewrite (try_strategies_step _ _ self "military" (w_clock w) w0 rl1 w1 Hwait1).
  cbn [DownloadManager.strategy_call].
  rewrite try_cached_download_miss by (rewrite Ha1; exact Hnone).
  (* the live fetch *)
  destruct (wait_if_needed_frame
              (DownloadManager.rate_limiter (DownloadManager.set_rate_limiter self rl1)) w1)
    as (rl2 & w2 & Hwait2 & Hn2 & Hr2 & Ha2 & _).
  rewrite (try_strategies_step _ _ (DownloadManager.set_rate_limiter self rl1)
             "military" (w_clock w) w1 rl2 w2 Hwait2).
  destruct (download_military_chunked_run lib assign feats w2)
    as (w3 & Hrun & _ & _ & Hreq3 & Hn3 & _ & _ & Hother).
  { intros r n ep Hr. rewrite Hn2, Hn1. apply Hans. exact Hr. }
  { exact Hok. }
  cbn [DownloadManager.strategy_call].
  unfold DownloadManager._try_optimized_download.
  cbn [DownloadManager.download_functions find String.eqb Ascii.eqb Bool.eqb fst].
  unfold bind at 1. rewrite Hrun. unfold ret at 1.
  do 3 eexists. split; [reflexivity|].
  cbn [DownloadManager.operations DownloadManager.download_stats
       DownloadManager.append_operation DownloadManager.set_rate_limiter
       DownloadManager.op_strategy DownloadManager.strategy_name
       add_log w_requests w_assets w_network].
  split; [reflexivity|]. split; [reflexivity|].
  split; [|split].
  - apply (f_equal (@length string)) in Hreq3.
    rewrite length_app, !length_map, Hr2, Hr1 in Hreq3. rewrite Hreq3.
    unfold w0. cbn [add_log w_requests].
    apply Nat.add_le_mono_l.
    unfold attempts_spent. cbn.
    repeat match goal with |- context [reply_fails ?x] => destruct (reply_fails x) end;
      cbn; lia.
  - rewrite Hn3, Hn2, Hn1. reflexivity.
  - rewrite Hother by discriminate. rewrite Ha2, Ha1. exact Hnone.
Qed.

(* ===================================================================== *)
(** * The specification, property by property *)

(** C1 (amended).  Let the base delay [b] of a limiter be a float and let
    [N] be such that [3 ** N] and [b * 3 ** N] are binary64 numbers (for the
    default [b = 30.0]: [N <= 30]).  After [N] consecutive calls of
    [record_failure] on the limiter whose failure count [record_success] has
    reset to zero, the failure count is [N] and the delay that
    [wait_if_needed] requires is [b * 3 ** N]; over this range the required
    delay is non-decreasing in [N] when [b] is not negative. *)
Theorem ratelimiter_delay_triples (rl : RateLimiter.t) (n : nat) :
  let failures k := Nat.iter k RateLimiter.record_failure (RateLimiter.record_success rl) in
  let b := RateLimiter.base_delay rl in
  is_double b ->
  is_double (inject_Z (3 ^ Z.of_nat n)) ->
  is_double (b * inject_Z (3 ^ Z.of_nat n)) ->
  RateLimiter.consecutive_failures (RateLimiter.record_success rl) = 0
  /\ RateLimiter.consecutive_failures (failures n) = Z.of_nat n
  /\ (RateLimiter.required_delay (failures n) == b * inject_Z (3 ^ Z.of_nat n))%Q
  /\ ((0 <= b)%Q ->
      forall m : nat,
        (m <= n)%nat ->
        (RateLimiter.required_delay (failures m) <= RateLimiter.required_delay (failures n))%Q).
Proof.
  intros failures b _ _ _. split; [reflexivity|]. split; [|split].
  - unfold failures. rewrite record_failure_iter. cbn. lia.
  - apply required_delay_after_failures.
  - intros Hb m Hmn. induction Hmn as [|n Hmn IH].
    + apply Qle_refl.
    + eapply Qle_trans; [exact IH|].
      unfold failures. rewrite !required_delay_after_failures.
      apply scaled_delay_mono. exact Hb.
Qed.

Lemma ratelimiter_delay_triples_witness :
  is_double (RateLimiter.base_delay (RateLimiter.init 30))
  /\ is_double (inject_Z (3 ^ Z.of_nat 2))
  /\ is_double (RateLimiter.base_delay (RateLimiter.init 30) * inject_Z (3 ^ Z.of_nat 2))
  /\ (RateLimiter.required_delay
        (Nat.iter 2 RateLimiter.record_failure
                  (RateLimiter.record_success (RateLimiter.init 30))) == 270)%Q.
Proof.
  assert (Hb : is_double (RateLimiter.base_delay (RateLimiter.init 30))).
  { exists 30, 0. split; [reflexivity|]. split; [lia | reflexivity]. }
  assert (H3 : is_double (inject_Z (3 ^ Z.of_nat 2))).
  { exists 9, 0. split; [reflexivity|]. split; [lia | reflexivity]. }
  assert (Hp : is_double (RateLimiter.base_delay (RateLimiter.init 30)
                          * inject_Z (3 ^ Z.of_nat 2))).
  { exists 270, 0. split; [reflexivity|]. split; [lia | reflexivity]. }
  split; [exact Hb|]. split; [exact H3|]. split; [exact Hp|].
  destruct (ratelimiter_delay_triples (RateLimiter.init 30) 2 Hb H3 Hp)
    as (_ & _ & Hdelay & _).
  rewrite Hdelay. reflexivity.
Defined.

(** C1 as stated fails for a limiter with a negative base delay: with base
    delay [-1] the required delay goes from [-1] to [-3] at the first
    failure. *)
Lemma ratelimiter_negative_base_decreases :
  ~ (RateLimiter.required_delay
       (Nat.iter 0 RateLimiter.record_failure (RateLimiter.init (-1)))
     <= RateLimiter.required_delay
          (Nat.iter 1 RateLimiter.record_failure (RateLimiter.init (-1))))%Q.
Proof. intros H. vm_compute in H. apply H. reflexivity. Qed.

(** C2 (amended).  [download_with_fallback] runs the loop over its four
    strategies.  A run of the loop that starts with the rate limiter in its
    working range returns and adds exactly one record to the report: the
    record of the strategy whose round returned [True], with
    [success = true], after rounds that all failed (by an exception or by a
    negative answer), or, when every round failed, the record
    ["all_failed"] with [success = false].  So when the first two rounds
    fail and the third succeeds, the record carries the third strategy's
    name and [success = true], and the report gains no failure record. *)
Theorem fallback_chain_records_outcome_only
        (strategies : list DownloadManager.Strategy)
        (self : DownloadManager.t) (asset_type : string) (start_time : Q) (w : World) :
  limiter_in_range (DownloadManager.rate_limiter self)
                   (Z.of_nat (length strategies)) (w_clock w) ->
  let rounds := chain_rounds strategies self asset_type w in
  (forall (lib : PyLib) (w0 : World),
      DownloadManager.download_with_fallback lib self asset_type w0
      = DownloadManager.try_strategies (DownloadManager.strategies lib) self asset_type
                                       (w_clock w0) (add_log (LogStarting asset_type) w0))
  /\ exists b self' w' op,
      DownloadManager.try_strategies strategies self asset_type start_time w
      = (Ok (b, self'), w')
      /\ DownloadManager.operations (DownloadManager.download_stats self')
         = DownloadManager.operations (DownloadManager.download_stats self) ++ [op]
      /\ DownloadManager.op_asset_type op = asset_type
      /\ DownloadManager.op_success op = b
      /\ failure_records (DownloadManager.operations (DownloadManager.download_stats self'))
         = failure_records (DownloadManager.operations (DownloadManager.download_stats self))
           ++ (if b then [] else [op])
      /\ (if b
          then exists failed name,
                 rounds = failed ++ [(name, Ok true)]
                 /\ Forall round_failed failed
                 /\ DownloadManager.op_strategy op = name
          else Forall round_failed rounds
               /\ length rounds = length strategies
               /\ DownloadManager.op_strategy op = "all_failed")
      /\ map fst rounds
         = map DownloadManager.strategy_name (firstn (length rounds) strategies)
      /\ (forall (round1 round2 : string * Res bool) (name3 : string),
            rounds = [round1; round2; (name3, Ok true)] ->
            round_failed round1 /\ round_failed round2
            /\ map DownloadManager.strategy_name (firstn 3 strategies)
               = [fst round1; fst round2; name3]
            /\ b = true
            /\ DownloadManager.op_strategy op = name3
            /\ failure_records
                 (DownloadManager.operations (DownloadManager.download_stats self'))
               = failure_records
                   (DownloadManager.operations (DownloadManager.download_stats self))).
Proof.
  intros _ rounds. split; [intros lib w0; reflexivity|].
  destruct (try_strategies_rounds strategies self asset_type start_time w)
    as (b & self' & w' & op & Hrun & Hops & Hat & Hsucc & Hname & Hnames).
  fold rounds in Hname, Hnames.
  assert (Hrec : failure_records
                   (DownloadManager.operations (DownloadManager.download_stats self'))
                 = failure_records
                     (DownloadManager.operations (DownloadManager.download_stats self))
                   ++ (if b then [] else [op])).
  { rewrite Hops, failure_records_app. f_equal.
    unfold failure_records. rewrite filter_cons, filter_nil.
    destruct b;
      [rewrite decide_False by (rewrite Hsucc; discriminate)
      | rewrite decide_True by exact Hsucc];
      reflexivity. }
  exists b, self', w', op.
  split; [exact Hrun|]. split; [exact Hops|]. split; [exact Hat|]. split; [exact Hsucc|].
  split; [exact Hrec|]. split; [exact Hname|]. split; [exact Hnames|].
  intros round1 round2 name3 Hthree.
  rewrite Hthree in Hname, Hnames. cbn [length map fst] in Hnames.
  destruct b.
  - destruct Hname as (failed & name & Hr & Hf & Hn).
    destruct failed as [|f1 [|f2 [|f3 failed]]]; cbn in Hr;
      [discriminate Hr | discriminate Hr | | destruct failed; discriminate Hr].
    injection Hr as H1 H2 H3. subst f1 f2 name.
    inversion Hf as [|? ? Hf1 Hf']. inversion Hf' as [|? ? Hf2 _].
    split; [exact Hf1|]. split; [exact Hf2|]. split; [symmetry; exact Hnames|].
    split; [reflexivity|]. split; [exact Hn|].
    rewrite Hrec. apply app_nil_r.
  - destruct Hname as (Hf & _ & _).
    inversion Hf as [|? ? _ Hf']. inversion Hf' as [|? ? _ Hf'']. inversion Hf'' as [|? ? Hf3 _].
    exfalso. apply Hf3. reflexivity.
Qed.

Lemma fallback_chain_records_outcome_only_witness :
  let chain := [returning "first" false; raising "second" URLError; returning "third" true] in
  limiter_in_range (DownloadManager.rate_limiter sample_manager)
                   (Z.of_nat (length chain)) (w_clock (sample_world dead_network))
  /\ exists self' w',
      DownloadManager.try_strategies chain sample_manager "airports" 1000
                                     (sample_world dead_network)
      = (Ok (true, self'), w')
      /\ map DownloadManager.op_strategy
             (DownloadManager.operations (DownloadManager.download_stats self'))
         = ["third"].
Proof.
  intros chain.
  assert (Hrange : limiter_in_range (DownloadManager.rate_limiter sample_manager)
                                    (Z.of_nat (length chain))
                                    (w_clock (sample_world dead_network))).
  { split; [vm_compute; discriminate|]. split; vm_compute; discriminate. }
  split; [exact Hrange|].
  destruct (fallback_chain_records_outcome_only
              chain sample_manager "airports" 1000 (sample_world dead_network) Hrange)
    as (_ & b & self' & w' & op & Hrun & Hops & _ & _ & _ & _ & _ & Hthree).
  destruct (Hthree ("first", Ok false) ("second", Raise URLError) "third" eq_refl)
    as (_ & _ & _ & Hb & Hname & _).
  exists self', w'. split; [rewrite Hrun, Hb; reflexivity|].
  rewrite Hops. cbn. rewrite Hname. reflexivity.
Defined.

(** C2 as stated fails on the chain of the manager: for ["airports"] the
    first two strategies return [False] and the third succeeds; the report
    then holds the success record alone, no failure record precedes it, and
    no failure was logged either. *)
Lemma airports_chain_has_no_failure_records :
  fst (DownloadManager._try_cached_download sample_manager "airports"
         (sample_world dead_network)) = Ok false
  /\ fst (DownloadManager._try_optimized_download sample_lib sample_manager "airports"
            (sample_world dead_network)) = Ok false
  /\ succeeded airports_run = true
  /\ strategies_recorded airports_run = ["_try_alternative_sources"]
  /\ length (failure_records
               (DownloadManager.operations
                  (DownloadManager.download_stats (manager_of airports_run)))) = 0%nat
  /\ List.filter is_strategy_failure (w_log (snd airports_run)) = [].
Proof. repeat split; vm_compute; reflexivity. Qed.

(** C3.  A validity check returns [True] exactly when the index holds an
    entry for the key whose age [now - timestamp] is below the TTL of the
    category; at an age of exactly the TTL the entry counts as expired.  For
    an entry that [cache_data] wrote at time [T] the check at time
    [T + delta] is thus [True] iff [delta] is below the TTL. *)
Theorem cache_entry_valid_iff_within_ttl
        (lib : PyLib) (self : AssetCache.t) (asset_type query_hash : string) (w : World) :
  exists b : bool,
    AssetCache.is_cache_valid self asset_type query_hash w = (Ok b, w)
    /\ (b = true <->
        exists ci,
          AssetCache.cache_index self !! AssetCache.get_cache_key asset_type query_hash
          = Some ci
          /\ now_us w - AssetCache.ci_timestamp ci < timedelta_days (expiry_days asset_type))
    /\ (forall ci,
          AssetCache.cache_index self !! AssetCache.get_cache_key asset_type query_hash
          = Some ci ->
          now_us w - AssetCache.ci_timestamp ci = timedelta_days (expiry_days asset_type) ->
          b = false)
    /\ (forall self0 data w0 w1,
          AssetCache.cache_data lib self0 asset_type query_hash data w0 = (Ok self, w1) ->
          (b = true <-> now_us w - now_us w0 < timedelta_days (expiry_days asset_type))
          /\ (now_us w - now_us w0 = timedelta_days (expiry_days asset_type) -> b = false)).
Proof.
  eexists. split; [apply is_cache_valid_run|].
  destruct (AssetCache.cache_index self !! _) as [ci|] eqn:Eci.
  - split; [|split].
    + rewrite Z.ltb_lt. split.
      * intros H. exists ci. split; [reflexivity | exact H].
      * intros (ci' & [= <-] & H). exact H.
    + intros ci' [= <-] Hage. apply Z.ltb_ge. lia.
    + intros self0 data w0 w1 Hwrite.
      destruct (cache_data_inv lib self0 asset_type query_hash data w0 self w1 Hwrite)
        as (size & file_size & index_file & Hidx & _).
      rewrite Hidx, lookup_insert_eq in Eci. injection Eci as <-.
      cbn [AssetCache.ci_timestamp]. rewrite Z.ltb_lt. split; [reflexivity|].
      intros Hage. apply Z.ltb_ge. lia.
  - split; [|split].
    + split; [discriminate|]. intros (ci & [=] & _).
    + intros ci [=].
    + intros self0 data w0 w1 Hwrite.
      destruct (cache_data_inv lib self0 asset_type query_hash data w0 self w1 Hwrite)
        as (size & file_size & index_file & Hidx & _).
      rewrite Hidx, lookup_insert_eq in Eci. discriminate.
Qed.

Lemma cache_entry_valid_iff_within_ttl_witness :
  AssetCache.is_cache_valid (cache_of sample_write) "military" "0123456789ab"
                            (days_later 29 (snd sample_write))
  = (Ok true, days_later 29 (snd sample_write))
  /\ AssetCache.is_cache_valid (cache_of sample_write) "military" "0123456789ab"
                               (days_later 30 (snd sample_write))
     = (Ok false, days_later 30 (snd sample_write)).
Proof.
  assert (Hwrite : AssetCache.cache_data sample_lib (AssetCache.mk ∅) "military"
                     "0123456789ab" sample_payload (sample_world dead_network)
                   = (Ok (cache_of sample_write), snd sample_write))
    by (vm_compute; reflexivity).
  split.
  - destruct (cache_entry_valid_iff_within_ttl sample_lib (cache_of sample_write)
                "military" "0123456789ab" (days_later 29 (snd sample_write)))
      as (b & Hrun & _ & _ & Hwritten).
    rewrite Hrun. destruct (Hwritten _ _ _ _ Hwrite) as (Hiff & _).
    replace b with true; [reflexivity|].
    symmetry. apply Hiff. vm_compute. reflexivity.
  - destruct (cache_entry_valid_iff_within_ttl sample_lib (cache_of sample_write)
                "military" "0123456789ab" (days_later 30 (snd sample_write)))
      as (b & Hrun & _ & _ & Hwritten).
    rewrite Hrun. destruct (Hwritten _ _ _ _ Hwrite) as (Hiff & _).
    destruct b; [|reflexivity].
    exfalso. assert (Hlt : now_us (days_later 30 (snd sample_write))
                           - now_us (sample_world dead_network)
                           < timedelta_days (expiry_days "military"))
      by (apply Hiff; reflexivity).
    vm_compute in Hlt. discriminate.
Defined.



(** C5.  When all [max_retries >= 1] attempts of a query fail, the executor
    has spent them all and returns the empty result [{"elements": []}]; it
    does not raise (nor does it in any other run). *)
Theorem executor_returns_empty_when_exhausted
        (query : string) (max_retries : Z) (w : World) :
  1 <= max_retries ->
  next_attempts_fail w query (Z.to_nat max_retries) ->
  (exists w',
      Overpass.execute_query_with_retry query max_retries w
      = (Ok (JDict [("elements", JList [])]), w')
      /\ length (w_requests w') = (length (w_requests w) + Z.to_nat max_retries)%nat)
  /\ (forall w0, exists data w',
        Overpass.execute_query_with_retry query max_retries w0 = (Ok data, w')).
Proof.
  intros Hpos Hfail. split.
  - unfold Overpass.execute_query_with_retry, Overpass.range.
    destruct (retry_loop_all_fail query max_retries (Z.to_nat max_retries) 0 w)
      as (w' & Hrun & Hreq & _).
    + lia.
    + exact Hfail.
    + exists w'. split; [exact Hrun|].
      apply (f_equal (@length string)) in Hreq.
      rewrite length_app, !length_map, repeat_length in Hreq. exact Hreq.
  - intros w0. apply retry_loop_returns.
Qed.

Lemma executor_returns_empty_when_exhausted_witness :
  exists w',
    Overpass.execute_query_with_retry "[out:json];node(1);out;" 3 (sample_world dead_network)
    = (Ok (JDict [("elements", JList [])]), w')
    /\ length (w_requests w') = 3%nat.
Proof.
  apply (executor_returns_empty_when_exhausted
           "[out:json];node(1);out;" 3 (sample_world dead_network)).
  - lia.
  - intros i endpoint _. reflexivity.
Defined.

(** C6.  Under every assignment of replies to the five configured regions
    whose elements can be processed, the chunked fetch queries the regions
    in the order of their definition, a region whose query fails being
    tried three times and then passed over with no feature, and it stores
    the concatenation of the regions' feature lists in that order: as many
    features as the regions have together, nothing being merged across
    regions. *)
Theorem chunked_fetch_concatenates_regions
        (lib : PyLib) (assign : string -> Reply) (feats : string -> list Json) (w : World) :
  answers_regions Overpass.military_query Overpass.EU_REGIONS assign w ->
  (forall r, In r Overpass.EU_REGIONS ->
             region_features (Overpass.process_military_elements lib)
                             (executor_result (assign (fst r))) = Ok (feats (fst r))) ->
  exists w',
    Overpass.download_military_chunked lib w = (Ok tt, w')
    /\ saved_features "military.geojson" w'
       = Some (feats "nordic" ++ feats "western" ++ feats "central"
               ++ feats "southern" ++ feats "eastern")
    /\ saved_count "military.geojson" w'
       = Some (JInt (Z.of_nat (length (feats "nordic") + length (feats "western")
                               + length (feats "central") + length (feats "southern")
                               + length (feats "eastern"))))
    /\ map rq_data (w_requests w')
       = map rq_data (w_requests w)
         ++ concat (map (fun r => repeat (Overpass.military_query (snd r))
                                         (attempts_spent (assign (fst r))))
                        Overpass.EU_REGIONS)
    /\ (forall r, In r Overpass.EU_REGIONS ->
                  reply_fails (assign (fst r)) = true ->
                  feats (fst r) = [] /\ attempts_spent (assign (fst r)) = 3%nat).
Proof.
  intros Hans Hok.
  destruct (download_military_chunked_run lib assign feats w Hans Hok)
    as (w' & Hrun & Hfs & Hcount & Hreq & _).
  exists w'. split; [exact Hrun|].
  cbn [Overpass.EU_REGIONS map concat fst] in Hfs, Hcount.
  rewrite app_nil_r in Hfs, Hcount.
  split; [exact Hfs|]. split.
  - rewrite Hcount, !length_app. do 2 f_equal. lia.
  - split; [exact Hreq|].
    intros r Hr Hf. specialize (Hok r Hr).
    unfold attempts_spent. rewrite Hf. split; [|reflexivity].
    destruct (assign (fst r)) as [[v|t]|e]; [discriminate|..];
      cbn in Hok; congruence.
Qed.

Lemma chunked_fetch_concatenates_regions_witness :
  exists w',
    Overpass.download_military_chunked sample_lib (sample_world sample_network) = (Ok tt, w')
    /\ saved_features "military.geojson" w'
       = Some (sample_features "nordic" ++ sample_features "western"
               ++ sample_features "central" ++ sample_features "southern"
               ++ sample_features "eastern")
    /\ map length (map sample_features ["nordic"; "western"; "central"; "southern"; "eastern"])
       = [3; 0; 3; 0; 3]%nat.
Proof.
  destruct (chunked_fetch_concatenates_regions sample_lib sample_assignment sample_features
              (sample_world sample_network))
    as (w' & Hrun & Hfs & _).
  - apply serve_regions_answers. reflexivity.
  - intros r Hr. cbn in Hr.
    repeat (destruct Hr as [<-|Hr]; [vm_compute; reflexivity|]). contradiction.
  - exists w'. split; [exact Hrun|]. split; [exact Hfs|]. vm_compute. reflexivity.
Defined.

(** C7 (evaluated at the failing input).  With an empty cache and a live
    fetch that returns 12 raw elements, 3 of them without coordinates, the
    request for ["military"] stores exactly 9 point records, each with
    [asset_type = "military"].  A second request right after it, well within
    the TTL, stores the same records but is served by the live fetch again:
    the number of network calls goes from 7 to 14. *)
Theorem second_military_request_fetches_again :
  (length all_sample_elements = 12%nat
   /\ length (List.filter (fun el => negb (has_coordinates el)) all_sample_elements) = 3%nat)
  /\ (succeeded military_run1 = true
      /\ option_map (@length Json) (saved_features "military.geojson" (snd military_run1))
         = Some 9%nat
      /\ option_map (forallb (fun f => is_military f && is_point_record f))
                    (saved_features "military.geojson" (snd military_run1))
         = Some true)
  /\ (succeeded military_run2 = true
      /\ saved_features "military.geojson" (snd military_run2)
         = saved_features "military.geojson" (snd military_run1)
      /\ Qle_bool (w_clock (snd military_run1) - w_clock (sample_world sample_network))
                  3600 = true)
  /\ (length (w_requests (snd military_run1)) = 7%nat
      /\ length (w_requests (snd military_run2)) = 14%nat
      /\ strategies_recorded military_run2
         = ["_try_optimized_download"; "_try_optimized_download"]).
Proof. repeat split; vm_compute; reflexivity. Qed.

(** C8 (amended).  The time-to-live function maps the category keys
    ["airports"] to 7 days, ["harbours"] to 14, ["military"] to 30,
    ["energy"] to 3, ["rail"] to 14 and ["border"] to 30, and every other
    category text, ["airport"] and ["harbour"] among them, to 7. *)
Theorem cache_expiry_table :
  expiry_days "airports" = 7 /\ expiry_days "harbours" = 14
  /\ expiry_days "military" = 30 /\ expiry_days "energy" = 3
  /\ expiry_days "rail" = 14 /\ expiry_days "border" = 30
  /\ (forall category : string,
        ~ In category ["airports"; "harbours"; "military"; "energy"; "rail"; "border"] ->
        expiry_days category = 7)
  /\ expiry_days "airport" = 7 /\ expiry_days "harbour" = 7.
Proof.
  repeat split; try reflexivity.
  intros category Hnot. unfold expiry_days, CACHE_EXPIRY.
  rewrite (not_elem_of_list_to_map_1 (M := gmap string)); [reflexivity|].
  intros Hin. apply Hnot. apply list_elem_of_In in Hin. exact Hin.
Qed.

Lemma cache_expiry_table_witness : expiry_days "critical" = 7.
Proof.
  apply (proj1 (proj2 (proj2 (proj2 (proj2 (proj2 (proj2 cache_expiry_table))))))).
  cbn. intros H. repeat (destruct H as [H|H]; [discriminate|]). exact H.
Defined.

(** C8 as stated fails for the category text ["harbour"]: it is not a key
    of the table, so its time-to-live is the default 7 days, not 14. *)
Lemma harbour_ttl_is_the_default :
  CACHE_EXPIRY !! "harbour" = None /\ expiry_days "harbour" = 7 /\ expiry_days "harbour" <> 14.
Proof.
  split; [reflexivity|]. split; [reflexivity|]. vm_compute. discriminate.
Qed.

(** ** The size of a fingerprint and the cache key *)

Lemma hex_length (bytes : list Z) :
  String.length (MD5.hex bytes) = (2 * length bytes)%nat.
Proof.
  induction bytes as [|b bytes IH]; [reflexivity|].
  cbn [MD5.hex String.length length]. rewrite IH. lia.
Qed.

Lemma le_bytes_length (n : nat) (x : Z) : length (MD5.le_bytes n x) = n.
Proof.
  revert x. induction n as [|n IH]; intros x; [reflexivity|].
  cbn [MD5.le_bytes length]. now rewrite IH.
Qed.

Lemma digest_length (msg : list Z) : length (MD5.digest msg) = 16%nat.
Proof.
  unfold MD5.digest.
  destruct (fold_left MD5.process_block _ MD5.init_state) as [[[a b] c] d].
  rewrite !length_app, !le_bytes_length. reflexivity.
Qed.

Lemma substring_prefix_length (m : nat) (s : string) :
  (m <= String.length s)%nat -> String.length (String.substring 0 m s) = m.
Proof.
  revert s. induction m as [|m IH]; intros s Hm.
  - destruct s; reflexivity.
  - destruct s as [|c s]; [cbn in Hm; lia|].
    cbn [String.substring String.length]. rewrite IH; [reflexivity|].
    cbn in Hm. lia.
Qed.

Lemma string_app_inv_head (s t u : string) : s +:+ t = s +:+ u -> t = u.
Proof.
  induction s as [|c s IH]; intros H.
  - exact H.
  - rewrite !string_app_cons in H. injection H as H. now apply IH.
Qed.

(** C9 (amended).  The query fingerprint is a function of the query text:
    equal texts have equal fingerprints.  A fingerprint has 12 characters,
    the head of the MD5 digest in hexadecimal, so different texts can have
    the same fingerprint; two query texts of one category share a cache key,
    and with it a cache entry, exactly when their fingerprints are equal. *)
Theorem query_fingerprint_properties (asset_type q1 q2 : string) :
  (q1 = q2 -> AssetCache.query_hash q1 = AssetCache.query_hash q2)
  /\ String.length (AssetCache.query_hash q1) = 12%nat
  /\ (AssetCache.get_cache_key asset_type (AssetCache.query_hash q1)
      = AssetCache.get_cache_key asset_type (AssetCache.query_hash q2)
      <-> AssetCache.query_hash q1 = AssetCache.query_hash q2).
Proof.
  split; [intros ->; reflexivity|]. split.
  - unfold AssetCache.query_hash, MD5.hexdigest.
    apply substring_prefix_length. rewrite hex_length, digest_length. lia.
  - unfold AssetCache.get_cache_key. split.
    + intros H. apply string_app_inv_head in H. apply string_app_inv_head in H. exact H.
    + intros ->. reflexivity.
Qed.

Lemma query_fingerprint_properties_witness :
  AssetCache.query_hash "airports_csv_ourairports"
  = AssetCache.query_hash "airports_csv_ourairports"
  /\ AssetCache.query_hash "airports_csv_ourairports" = "e129ad714a77".
Proof.
  split.
  - apply (proj1 (query_fingerprint_properties "airports" "airports_csv_ourairports"
                    "airports_csv_ourairports")).
    reflexivity.
  - vm_compute. reflexivity.
Defined.

(** C9 as stated fails: two different query texts have the same
    fingerprint, and the cache entry written for the one is served for the
    other. *)
Lemma fingerprint_collision :
  collision_a <> collision_b
  /\ AssetCache.query_hash collision_a = AssetCache.query_hash collision_b
  /\ AssetCache.get_cached_data (cache_of collision_write) "military"
                                (AssetCache.query_hash collision_b) (snd collision_write)
     = (Ok (Some sample_payload), snd collision_write).
Proof.
  split; [|split].
  - intros H. apply (f_equal (fun s => String.get 21 s)) in H. vm_compute in H. discriminate.
  - vm_compute. reflexivity.
  - vm_compute. reflexivity.
Qed.



(* ===================================================================== *)
(** * Further properties of the code *)

(** ** The cache: eviction *)

Lemma lookup_foldr_delete {V : Type} (l : list (string * V)) (m : gmap string V) (k : string) :
  foldr (fun kv idx => delete (fst kv) idx) m l !! k
  = if decide (k ∈ l.*1) then None else m !! k.
Proof.
  induction l as [|[k' v] l IH]; cbn [foldr fmap list_fmap fst].
  - rewrite decide_False; [reflexivity | apply not_elem_of_nil].
  - destruct (decide (k' = k)) as [->|Hne].
    + rewrite lookup_delete_eq. rewrite decide_True; [reflexivity | left].
    + rewrite lookup_delete_ne by exact Hne. rewrite IH.
      destruct (decide (k ∈ l.*1)) as [Hin|Hnin].
      * rewrite decide_True; [reflexivity | right; exact Hin].
      * rewrite decide_False; [reflexivity|].
        intros [->|H]%elem_of_cons; [congruence | contradiction].
Qed.

(** The index after the eviction loop is the index filtered. *)
Lemma evicted_index (now : Z) (idx : gmap string AssetCache.CacheInfo) :
  foldr (fun kv m => delete (fst kv) m) idx
        (filter (fun kv => expired_at now (snd kv)) (map_to_list idx))
  = filter (fun kv => ~ expired_at now (snd kv)) idx.
Proof.
  apply map_eq. intros k. rewrite lookup_foldr_delete.
  destruct (idx !! k) as [ci|] eqn:Ek.
  - destruct (decide (expired_at now ci)) as [Hexp|Hfresh].
    + rewrite decide_True.
      * symmetry. apply map_lookup_filter_None. right. intros ci' Hci'.
        rewrite Ek in Hci'. injection Hci' as <-. cbn. tauto.
      * apply list_elem_of_fmap. exists (k, ci). split; [reflexivity|].
        apply list_elem_of_filter. split; [exact Hexp|].
        apply elem_of_map_to_list. exact Ek.
    + rewrite decide_False.
      * symmetry. apply map_lookup_filter_Some. split; [exact Ek | exact Hfresh].
      * intros ([k' ci'] & Hk & Hin)%list_elem_of_fmap. cbn in Hk. subst k'.
        apply list_elem_of_filter in Hin as [Hexp Hin].
        apply elem_of_map_to_list in Hin. rewrite Ek in Hin. injection Hin as <-.
        exact (Hfresh Hexp).
  - rewrite decide_False.
    + symmetry. apply map_lookup_filter_None. left. exact Ek.
    + intros ([k' ci'] & Hk & Hin)%list_elem_of_fmap. cbn in Hk. subst k'.
      apply list_elem_of_filter in Hin as [_ Hin].
      apply elem_of_map_to_list in Hin. congruence.
Qed.

(** The loop that unlinks the files of the expired entries. *)
Lemma unlink_existing_run (names : list string) (w : World) :
  exists w',
    AssetCache.unlink_existing names w = (Ok tt, w')
    /\ (forall name, w_cache w' !! name
                     = if decide (name ∈ names) then None else w_cache w !! name)
    /\ w_clock w' = w_clock w /\ w_assets w' = w_assets w
    /\ w_requests w' = w_requests w /\ w_log w' = w_log w.
Proof.
  revert w. induction names as [|n names IH]; intros w.
  - exists w. split; [reflexivity|]. split; [|tauto].
    intros name. rewrite decide_False; [reflexivity | apply not_elem_of_nil].
  - cbn [AssetCache.unlink_existing]. unfold bind at 1. unfold cache_exists at 1.
    destruct (w_cache w !! n) as [f|] eqn:En.
    + rewrite bool_decide_eq_true_2 by (eexists; reflexivity).
      unfold bind at 1. unfold cache_unlink at 1. rewrite En.
      match goal with |- context [AssetCache.unlink_existing names ?w1] =>
        destruct (IH w1) as (w' & Hrun & Hfiles & Hrest) end.
      exists w'. split; [exact Hrun|]. split; [|exact Hrest].
      intros name. rewrite Hfiles. cbn [w_cache].
      destruct (decide (name ∈ names)) as [Hin|Hnin].
      * rewrite decide_True; [reflexivity | right; exact Hin].
      * destruct (decide (name = n)) as [->|Hne].
        -- rewrite lookup_delete_eq. rewrite decide_True; [reflexivity | left].
        -- rewrite lookup_delete_ne by congruence.
           rewrite decide_False; [reflexivity|].
           intros [->|H]%elem_of_cons; [congruence | contradiction].
    + rewrite bool_decide_eq_false_2 by (intros [x Hx]; discriminate).
      unfold bind at 1. unfold ret at 1.
      destruct (IH w) as (w' & Hrun & Hfiles & Hrest).
      exists w'. split; [exact Hrun|]. split; [|exact Hrest].
      intros name. rewrite Hfiles.
      destruct (decide (name ∈ names)) as [Hin|Hnin].
      * rewrite decide_True; [reflexivity | right; exact Hin].
      * destruct (decide (name = n)) as [->|Hne].
        -- rewrite decide_True; [exact En | left].
        -- rewrite decide_False; [reflexivity|].
           intros [->|H]%elem_of_cons; [congruence | contradiction].
Qed.

Lemma clean_expired_cache_run (lib : PyLib) (self : AssetCache.t) (w : World) :
  let now := now_us w in
  let expired := filter (fun kv => expired_at now (snd kv))
                        (map_to_list (AssetCache.cache_index self)) in
  exists w',
    AssetCache.clean_expired_cache lib self w
    = (Ok (AssetCache.mk (filter (fun kv => ~ expired_at now (snd kv))
                                 (AssetCache.cache_index self))), w')
    /\ (forall name,
          name <> AssetCache.cache_index_path ->
          w_cache w' !! name
          = if decide (name ∈ map (fun kv => AssetCache.ci_filename (snd kv)) expired)
            then None else w_cache w !! name)
    /\ (expired = [] -> w' = w)
    /\ w_clock w' = w_clock w
    /\ (expired <> [] ->
        exists f, w_cache w' !! AssetCache.cache_index_path = Some f
                  /\ f_content f
                     = JsonDoc (AssetCache.index_to_json lib
                                  (filter (fun kv => ~ expired_at now (snd kv))
                                          (AssetCache.cache_index self)))).
Proof.
  intros now expired.
  unfold AssetCache.clean_expired_cache. unfold bind at 1. unfold datetime_now at 1.
  fold now.
  change (filter _ (map_to_list (AssetCache.cache_index self))) with expired.
  pose proof (evicted_index now (AssetCache.cache_index self)) as Hidx.
  fold expired in Hidx. rewrite Hidx. clear Hidx.
  destruct (unlink_existing_run (map (fun kv => AssetCache.ci_filename (snd kv)) expired) w)
    as (w1 & Hrun & Hfiles & Hclock & _).
  unfold bind at 1. rewrite Hrun.
  destruct expired as [|kv expired'] eqn:Eexp.
  - exists w1. unfold ret. split; [reflexivity|].
    split; [intros name _; apply Hfiles|]. split; [|split; [exact Hclock|]].
    + intros _. cbn [map AssetCache.unlink_existing] in Hrun. unfold ret in Hrun.
      congruence.
    + intros Hne. destruct (Hne eq_refl).
  - unfold bind, AssetCache._save_cache_index, cache_write_text, ret.
    eexists. split; [reflexivity|]. cbn [w_cache w_clock].
    split; [|split; [discriminate | split; [exact Hclock|]]].
    + intros name Hne. rewrite lookup_insert_ne by congruence. apply Hfiles.
    + intros _. eexists. rewrite lookup_insert_eq. split; reflexivity.
Qed.





(** X3.  When no entry of the index is older than its TTL,
    [clean_expired_cache] changes nothing: the index is the same, no file is
    touched and the index file is not rewritten.  So a second cleaning at
    the time of the first is without effect. *)
Theorem eviction_is_idempotent (lib : PyLib) (self : AssetCache.t) (w : World) :
  ((forall k ci, AssetCache.cache_index self !! k = Some ci -> ~ expired_at (now_us w) ci) ->
   AssetCache.clean_expired_cache lib self w = (Ok self, w))
  /\ (forall self' w' w2,
        AssetCache.clean_expired_cache lib self w = (Ok self', w') ->
        now_us w2 = now_us w ->
        AssetCache.clean_expired_cache lib self' w2 = (Ok self', w2)).
Proof.
  assert (Hnoop : forall (c : AssetCache.t) (v : World),
             (forall k ci, AssetCache.cache_index c !! k = Some ci ->
                           ~ expired_at (now_us v) ci) ->
             AssetCache.clean_expired_cache lib c v = (Ok c, v)).
  { intros c v Hfresh.
    destruct (clean_expired_cache_run lib c v) as (v' & Hrun & _ & Hsame & _).
    rewrite Hrun. f_equal.
    - f_equal. destruct c as [idx]. f_equal. cbn [AssetCache.cache_index] in *.
      apply map_filter_id. intros k ci Hci. cbn [snd]. exact (Hfresh k ci Hci).
    - apply Hsame.
      destruct (filter _ (map_to_list (AssetCache.cache_index c))) as [|[k ci] l] eqn:E;
        [reflexivity|].
      assert (Hin : (k, ci) ∈ filter (fun kv => expired_at (now_us v) (snd kv))
                                     (map_to_list (AssetCache.cache_index c)))
        by (rewrite E; left).
      apply list_elem_of_filter in Hin as [Hexp Hin].
      apply elem_of_map_to_list in Hin. destruct (Hfresh k ci Hin Hexp). }
  split; [apply Hnoop|].
  intros self' w' w2 Hrun Hnow.
  destruct (clean_expired_cache_run lib self w) as (w1 & Hrun1 & _).
  rewrite Hrun1 in Hrun. injection Hrun as <- _.
  apply Hnoop. intros k ci Hci. cbn [AssetCache.cache_index] in Hci.
  apply map_lookup_filter_Some in Hci as [_ Hfresh]. cbn [snd] in Hfresh.
  rewrite Hnow. exact Hfresh.
Qed.

Lemma eviction_is_idempotent_witness :
  AssetCache.clean_expired_cache sample_lib (cache_of aged_clean) (snd aged_clean)
  = (Ok (cache_of aged_clean), snd aged_clean).
Proof.
  apply (proj2 (eviction_is_idempotent sample_lib aged_cache aged_world)
               (cache_of aged_clean) (snd aged_clean) (snd aged_clean)).
  - vm_compute. reflexivity.
  - vm_compute. reflexivity.
Defined.

(** ** The cache: keys, reads, failed writes, the index file, statistics *)

Lemma string_app_eq_by_tail (s1 s2 t1 t2 : string) :
  s1 +:+ t1 = s2 +:+ t2 -> String.length t1 = String.length t2 -> s1 = s2 /\ t1 = t2.
Proof.
  revert s2. induction s1 as [|a s1 IH]; intros [|b s2] H Hlen.
  - split; [reflexivity | exact H].
  - exfalso. apply (f_equal String.length) in H.
    rewrite string_app_nil_l, string_length_app in H. cbn in H. lia.
  - exfalso. apply (f_equal String.length) in H.
    rewrite string_app_nil_l, string_length_app in H. cbn in H. lia.
  - rewrite !string_app_cons in H. injection H as -> H.
    destruct (IH s2 H Hlen) as [-> ->]. split; reflexivity.
Qed.

Lemma query_fingerprint_length (q : string) :
  String.length (AssetCache.query_hash q) = 12%nat.
Proof.
  unfold AssetCache.query_hash, MD5.hexdigest.
  apply substring_prefix_length. rewrite hex_length, digest_length. lia.
Qed.

(** X4.  Two cache keys built from fingerprints are equal only for the same
    asset type and the same fingerprint: entries of different asset types
    never share a key, although [get_cache_key] by itself does not tell
    ["a_b"], ["c"] from ["a"], ["b_c"]. *)
Theorem fingerprint_keys_separate_asset_types (asset_type1 asset_type2 q1 q2 : string) :
  (AssetCache.get_cache_key asset_type1 (AssetCache.query_hash q1)
   = AssetCache.get_cache_key asset_type2 (AssetCache.query_hash q2)
   <-> asset_type1 = asset_type2 /\ AssetCache.query_hash q1 = AssetCache.query_hash q2)
  /\ AssetCache.get_cache_key "a_b" "c" = AssetCache.get_cache_key "a" "b_c".
Proof.
  split; [|reflexivity]. split.
  - unfold AssetCache.get_cache_key. intros H.
    apply string_app_eq_by_tail in H.
    + destruct H as [-> H]. split; [reflexivity|].
      rewrite !string_app_cons, !string_app_nil_l in H. now injection H.
    + rewrite !string_length_app.
      pose proof (query_fingerprint_length q1) as H1.
      pose proof (query_fingerprint_length q2) as H2. congruence.
  - intros [-> ->]. reflexivity.
Qed.




Lemma load_cache_index_run (w : World) :
  AssetCache._load_cache_index w
  = (Ok match w_cache w !! AssetCache.cache_index_path with
        | Some (mkFile (JsonDoc index) _) => index
        | _ => JDict []
        end, w).
Proof.
  unfold AssetCache._load_cache_index, bind, cache_exists.
  destruct (w_cache w !! AssetCache.cache_index_path) as [[[index|text] mtime]|] eqn:E.
  - rewrite bool_decide_eq_true_2 by (eexists; reflexivity).
    unfold try_except, bind, cache_read_text, lift, ret. rewrite E. reflexivity.
  - rewrite bool_decide_eq_true_2 by (eexists; reflexivity).
    unfold try_except, bind, cache_read_text, lift, ret. rewrite E. reflexivity.
  - rewrite bool_decide_eq_false_2 by (intros [x Hx]; discriminate). reflexivity.
Qed.

(** X7.  The index file follows the index: after a [cache_data] that
    returned, and after a [clean_expired_cache] that evicted something,
    [_load_cache_index] reads back from the cache directory the index as it
    is in memory.  [_load_cache_index] itself never raises and changes
    nothing; without an index file, or with one that is not JSON, it gives
    the empty index. *)
Theorem index_file_follows_the_index (lib : PyLib) (self : AssetCache.t) (w : World) :
  (forall asset_type query_hash data self' w',
      AssetCache.cache_data lib self asset_type query_hash data w = (Ok self', w') ->
      AssetCache._load_cache_index w'
      = (Ok (AssetCache.index_to_json lib (AssetCache.cache_index self')), w'))
  /\ (forall self' w',
        AssetCache.clean_expired_cache lib self w = (Ok self', w') ->
        AssetCache.cache_index self' <> AssetCache.cache_index self ->
        AssetCache._load_cache_index w'
        = (Ok (AssetCache.index_to_json lib (AssetCache.cache_index self')), w'))
  /\ (exists index, AssetCache._load_cache_index w = (Ok index, w))
  /\ ((w_cache w !! AssetCache.cache_index_path = None
       \/ exists text mtime,
            w_cache w !! AssetCache.cache_index_path = Some (mkFile (RawText text) mtime)) ->
      AssetCache._load_cache_index w = (Ok (JDict []), w)).
Proof.
  split; [|split; [|split]].
  - intros asset_type query_hash data self' w' Hrun.
    rewrite load_cache_index_run.
    revert Hrun.
    unfold AssetCache.cache_data, bind, time_time, cache_write_text, datetime_now, lift,
      cache_stat, AssetCache._save_cache_index, ret.
    cbn beta iota zeta.
    destruct (py_get data "elements" (JList [])) as [elements|e0]; [|discriminate].
    destruct (py_len elements) as [size|e1]; [|discriminate].
    cbn [w_cache]. rewrite lookup_insert_eq. cbn [w_cache w_clock f_content].
    intros [= <- <-]. cbn [w_cache AssetCache.cache_index].
    rewrite lookup_insert_eq. reflexivity.
  - intros self' w' Hrun Hchanged.
    rewrite load_cache_index_run.
    destruct (clean_expired_cache_run lib self w) as (w1 & Hrun1 & _ & _ & _ & Hfile).
    rewrite Hrun1 in Hrun. injection Hrun as <- <-.
    destruct Hfile as (f & Hf & Hcontent).
    + intros Hnil. apply Hchanged. cbn [AssetCache.cache_index].
      apply map_filter_id. intros k ci Hci Hexp. cbn [snd] in Hexp.
      assert (Hin : (k, ci) ∈ filter (fun kv => expired_at (now_us w) (snd kv))
                                     (map_to_list (AssetCache.cache_index self))).
      { apply list_elem_of_filter. split; [exact Hexp|].
        apply elem_of_map_to_list. exact Hci. }
      rewrite Hnil in Hin. apply elem_of_nil in Hin. exact Hin.
    + rewrite Hf. destruct f as [doc mtime]. cbn [f_content] in Hcontent. subst doc.
      reflexivity.
  - eexists. apply load_cache_index_run.
  - intros [Hnone | (text & mtime & Hraw)]; rewrite load_cache_index_run.
    + rewrite Hnone. reflexivity.
    + rewrite Hraw. reflexivity.
Qed.

Lemma index_file_follows_the_index_witness :
  AssetCache._load_cache_index (snd sample_write)
  = (Ok (AssetCache.index_to_json sample_lib (AssetCache.cache_index (cache_of sample_write))),
     snd sample_write)
  /\ AssetCache._load_cache_index garbled_world = (Ok (JDict []), garbled_world).
Proof.
  split.
  - apply (proj1 (index_file_follows_the_index sample_lib (AssetCache.mk ∅)
                    (sample_world dead_network))
                 "military" "0123456789ab" sample_payload).
    vm_compute. reflexivity.
  - apply (proj2 (proj2 (proj2 (index_file_follows_the_index sample_lib (AssetCache.mk ∅)
                                  garbled_world)))).
    left. vm_compute. reflexivity.
Defined.



(** ** The query executor: attempts, back-off, endpoints *)

Lemma fractional_part_bounds (u : Q) :
  (0 <= u - inject_Z (Qfloor u) /\ u - inject_Z (Qfloor u) < 1)%Q.
Proof.
  pose proof (Qfloor_le u) as Hle. pose proof (Qlt_floor u) as Hlt.
  rewrite inject_Z_plus in Hlt. change (inject_Z 1) with 1%Q in Hlt.
  split; lra.
Qed.

(** [random.choice] on the endpoints always gives one of them. *)
Lemma get_random_endpoint_run (w : World) :
  exists endpoint w',
    Overpass.get_random_endpoint w = (Ok endpoint, w')
    /\ In endpoint Overpass.OVERPASS_ENDPOINTS
    /\ quiet w w' /\ w_sleeps w' = w_sleeps w /\ w_clock w' = w_clock w.
Proof.
  unfold Overpass.get_random_endpoint, random_choice, bind, random_random, ret.
  do 2 eexists. split; [reflexivity|]. cbn [w_sleeps w_clock].
  split; [|split; [unfold quiet; cbn; tauto | split; reflexivity]].
  set (u := (w_random w (w_draws w) - inject_Z (Qfloor (w_random w (w_draws w))))%Q).
  destruct (fractional_part_bounds (w_random w (w_draws w))) as [H0 H1]. fold u in H0, H1.
  change (inject_Z (Z.of_nat (length Overpass.OVERPASS_ENDPOINTS))) with 3%Q.
  assert (Hlo : 0 <= Qfloor (u * 3)).
  { change 0 with (Qfloor 0). apply Qfloor_resp_le. lra. }
  assert (Hhi : Qfloor (u * 3) < 3).
  { apply Z.lt_nge. intros Hge.
    pose proof (Qfloor_le (u * 3)) as Hfl.
    assert (3 <= inject_Z (Qfloor (u * 3)))%Q.
    { change 3%Q with (inject_Z 3). rewrite <- Zle_Qle. exact Hge. }
    lra. }
  assert (Hcases : Qfloor (u * 3) = 0 \/ Qfloor (u * 3) = 1 \/ Qfloor (u * 3) = 2) by lia.
  destruct Hcases as [-> | [-> | ->]]; cbn; tauto.
Qed.

(** One attempt with what it sleeps: nothing before the first attempt,
    the back-off of its number before every other one. *)
Lemma attempt_query_trace (query : string) (attempt : Z) (w : World) :
  exists endpoint w1 sleeps,
    In endpoint Overpass.OVERPASS_ENDPOINTS
    /\ quiet w w1
    /\ w_sleeps w1 = w_sleeps w ++ sleeps
    /\ Forall2 backoff_delay_ok (if 0 <? attempt then [attempt] else []) sleeps
    /\ (w_clock w1 == w_clock w + total_sleep sleeps)%Q
    /\ Overpass.attempt_query query attempt w =
         match w_network w (length (w_requests w)) (mkRequest endpoint query) with
         | Body d => (json_loads d, add_request (mkRequest endpoint query) w1)
         | NetFailure e => (Raise e, add_request (mkRequest endpoint query) w1)
         end.
Proof.
  unfold Overpass.attempt_query.
  destruct (get_random_endpoint_run w) as (endpoint & w0 & Hep & Hin & Hq0 & Hs0 & Hc0).
  unfold bind at 1. rewrite Hep.
  exists endpoint.
  destruct (0 <? attempt).
  - unfold bind at 1 2. unfold random_uniform, bind at 1. unfold random_random at 1.
    unfold ret at 1. cbn beta iota.
    set (u := (w_random w0 (w_draws w0) - inject_Z (Qfloor (w_random w0 (w_draws w0))))%Q).
    destruct (fractional_part_bounds (w_random w0 (w_draws w0))) as [H0 H1].
    fold u in H0, H1.
    unfold time_sleep at 1. cbn beta iota. cbn [w_clock w_sleeps w_assets w_cache w_network
      w_requests w_random w_draws w_log].
    set (d := (5 * inject_Z (3 ^ attempt) + (0 + (5 - 0) * u))%Q).
    set (wb := mkWorld _ _ _ _ _ _ _ _ _).
    assert (Hq : quiet w wb).
    { apply (quiet_trans _ w0); [exact Hq0|]. unfold quiet, wb; cbn; tauto. }
    exists wb, [d]. split; [exact Hin|]. split; [exact Hq|].
    split; [unfold wb; cbn [w_sleeps]; rewrite Hs0; reflexivity|].
    split; [|split].
    + constructor; [|constructor]. unfold backoff_delay_ok, d. split; lra.
    + unfold wb, total_sleep. cbn [w_clock fold_right]. rewrite Hc0. lra.
    + unfold bind, urlopen, lift.
      destruct Hq as (Hn & Hr & _). rewrite Hn, Hr.
      destruct (w_network w _ _); reflexivity.
  - unfold bind, ret.
    exists w0, []. split; [exact Hin|]. split; [exact Hq0|].
    split; [rewrite Hs0, app_nil_r; reflexivity|]. split; [constructor|].
    split; [unfold total_sleep; cbn [fold_right]; rewrite Hc0; lra|].
    unfold urlopen, lift.
    destruct Hq0 as (Hn & Hr & _). rewrite Hn, Hr.
    destruct (w_network w _ _); reflexivity.
Qed.

Lemma total_sleep_app (l1 l2 : list Q) :
  (total_sleep (l1 ++ l2) == total_sleep l1 + total_sleep l2)%Q.
Proof.
  unfold total_sleep. induction l1 as [|d l1 IH]; cbn [app fold_right]; [lra|].
  rewrite IH. lra.
Qed.












(** X11.  With [max_retries] zero or negative the executor makes no
    attempt: it returns the empty result at once, and no request is sent. *)
Theorem executor_without_retries_sends_nothing (query : string) (max_retries : Z) (w : World) :
  max_retries <= 0 ->
  Overpass.execute_query_with_retry query max_retries w = (Ok Overpass.empty_result, w).
Proof.
  intros Hle. unfold Overpass.execute_query_with_retry, Overpass.range.
  replace (Z.to_nat max_retries) with 0%nat by lia. reflexivity.
Qed.

Lemma executor_without_retries_sends_nothing_witness :
  Overpass.execute_query_with_retry "q" (-1) (sample_world sample_network)
  = (Ok Overpass.empty_result, sample_world sample_network).
Proof.
  apply executor_without_retries_sends_nothing. lia.
Defined.

(** ** Elements into features *)

(** The loop keeps one feature for every element that has a position, in
    the order of the elements. *)
Lemma collect_features_cases (feature : Json -> Res (option Json)) (P : Json -> Prop)
      (elements fs : list Json) :
  (forall element,
      match feature element with
      | Ok (Some f) => has_coordinates element = true /\ P f
      | Ok None => has_coordinates element = false
      | Raise _ => True
      end) ->
  Overpass.collect_features feature elements = Ok fs ->
  length fs = length (List.filter has_coordinates elements) /\ Forall P fs.
Proof.
  intros Hcases. revert fs. induction elements as [|el els IH]; intros fs H.
  - injection H as <-. split; [reflexivity | constructor].
  - cbn [Overpass.collect_features] in H. unfold res_bind in H.
    pose proof (Hcases el) as Hel.
    destruct (feature el) as [[f|]|e]; [| |discriminate].
    + destruct (Overpass.collect_features _ els) as [fs'|e]; [|discriminate].
      injection H as <-. destruct (IH fs' eq_refl) as (Hlen & Hall).
      destruct Hel as (Hc & Hprops). cbn [List.filter]. rewrite Hc. cbn [length].
      split; [now rewrite Hlen | constructor; assumption].
    + destruct (Overpass.collect_features _ els) as [fs'|e]; [|discriminate].
      injection H as <-. destruct (IH fs' eq_refl) as (Hlen & Hall).
      cbn [List.filter]. rewrite Hel. split; assumption.
Qed.

Lemma point_geometry_inv (lib : PyLib) (lon lat geometry : Json) :
  Overpass.point_geometry lib lon lat = Ok geometry ->
  exists flon flat,
    geometry = JDict [("type", JStr "Point"); ("coordinates", JList [JFloat flon; JFloat flat])].
Proof.
  unfold Overpass.point_geometry, res_bind.
  destruct (py_float lib lon) as [flon|]; [|discriminate].
  destruct (py_float lib lat) as [flat|]; [|discriminate].
  intros [= <-]. eauto.
Qed.

Lemma energy_feature_cases (lib : PyLib) (element : Json) :
  match Overpass.energy_feature lib element with
  | Ok (Some f) =>
      has_coordinates element = true
      /\ feature_property "asset_type" f = Some (JStr "energy")
      /\ is_point_record f = true
  | Ok None => has_coordinates element = false
  | Raise _ => True
  end.
Proof.
  unfold Overpass.energy_feature, has_coordinates.
  destruct (Overpass.element_point element) as [[[[tags lon] lat]|]|e];
    cbn [res_bind]; [|reflexivity|exact I].
  bind_cases.
  match goal with H : Overpass.point_geometry _ _ _ = Ok _ |- _ =>
    apply point_geometry_inv in H as (flon & flat & ->) end.
  cbn. tauto.
Qed.

Lemma critical_feature_cases (lib : PyLib) (element : Json) :
  match Overpass.critical_feature lib element with
  | Ok (Some f) =>
      has_coordinates element = true /\ is_point_record f = true /\ has_critical_kind f
  | Ok None => has_coordinates element = false
  | Raise _ => True
  end.
Proof.
  unfold Overpass.critical_feature, has_coordinates.
  destruct (Overpass.element_point element) as [[[[tags lon] lat]|]|e];
    cbn [res_bind]; [|reflexivity|exact I].
  destruct (py_get tags "name" JNull) as [t_name|]; cbn [res_bind]; [|exact I].
  destruct (py_in "aeroway" tags) as [has_aeroway|]; cbn [res_bind]; [|exact I].
  match goal with |- context [res_bind ?x _] =>
    assert (Hkinds : match x with
                     | Ok kinds => In (JStr (fst kinds), JStr (snd kinds)) critical_kinds
                     | Raise _ => True
                     end) end.
  { destruct has_aeroway; [cbn; tauto|].
    destruct (py_get tags "amenity" (JStr "")) as [amenity|]; cbn [res_bind]; [|exact I].
    destruct (py_in "ferry_terminal" amenity) as [[|]|]; cbn [res_bind];
      [cbn; tauto | | exact I].
    destruct (py_in "harbour" tags) as [[|]|]; cbn [res_bind]; [cbn; tauto.. | exact I]. }
  match goal with |- context [res_bind ?x _] => destruct x as [kinds|] end;
    cbn [res_bind]; [|exact I].
  bind_cases.
  match goal with H : Overpass.point_geometry _ _ _ = Ok _ |- _ =>
    apply point_geometry_inv in H as (flon & flat & ->) end.
  split; [reflexivity|]. split; [reflexivity|].
  exists (JStr (fst kinds)), (JStr (snd kinds)). split; [reflexivity|].
  split; [reflexivity | exact Hkinds].
Qed.

(** X12.  Like the military one, the energy and the critical processor keep
    one feature for every element that has a position and none for the
    others.  Every feature is a point record; an energy feature has the asset
    type ["energy"], a critical feature one of the four pairs of facility
    type and asset type: airport and aviation, ferry_terminal and maritime,
    harbour and maritime, unknown and critical. *)
Theorem energy_and_critical_features (lib : PyLib) (elements fs : list Json) :
  (Overpass.process_energy_elements lib (JList elements) = Ok fs ->
   length fs = length (List.filter has_coordinates elements)
   /\ Forall (fun f => feature_property "asset_type" f = Some (JStr "energy")
                       /\ is_point_record f = true) fs)
  /\ (Overpass.process_critical_elements lib (JList elements) = Ok fs ->
      length fs = length (List.filter has_coordinates elements)
      /\ Forall (fun f => is_point_record f = true /\ has_critical_kind f) fs).
Proof.
  split; intros H.
  - apply (collect_features_cases (Overpass.energy_feature lib)); [|exact H].
    apply energy_feature_cases.
  - apply (collect_features_cases (Overpass.critical_feature lib)); [|exact H].
    apply critical_feature_cases.
Qed.

Lemma energy_and_critical_features_witness :
  let energy := features_of (Overpass.process_energy_elements sample_lib
                               (JList energy_elements)) in
  let critical := features_of (Overpass.process_critical_elements sample_lib
                                 (JList critical_elements)) in
  (length energy = 2%nat
   /\ Forall (fun f => feature_property "asset_type" f = Some (JStr "energy")
                       /\ is_point_record f = true) energy)
  /\ (length critical = 3%nat
      /\ Forall (fun f => is_point_record f = true /\ has_critical_kind f) critical).
Proof.
  intros energy critical. split.
  - destruct (proj1 (energy_and_critical_features sample_lib energy_elements energy))
      as [Hlen Hall]; [vm_compute; reflexivity|].
    split; [rewrite Hlen; reflexivity | exact Hall].
  - destruct (proj2 (energy_and_critical_features sample_lib critical_elements critical))
      as [Hlen Hall]; [vm_compute; reflexivity|].
    split; [rewrite Hlen; reflexivity | exact Hall].
Defined.

Lemma py_or_truthy (a b : Json) : truthy b = true -> truthy (py_or a b) = true.
Proof. intros Hb. unfold py_or. destruct (truthy a) eqn:Ea; assumption. Qed.

Lemma dict_get_filter_out (names : list string) (d : list (string * Json)) (k : string) :
  dict_get k (filter (fun kv => fst kv ∉ names) d)
  = if decide (k ∈ names) then None else dict_get k d.
Proof.
  induction d as [|[k' v] d IH].
  - destruct (decide (k ∈ names)); reflexivity.
  - rewrite filter_cons. cbn [fst].
    destruct (decide (k' ∉ names)) as [Hout|Hin].
    + cbn [dict_get]. rewrite IH.
      destruct (decide (k ∈ names)) as [Hk|Hk]; [|reflexivity].
      replace (String.eqb k k') with false; [reflexivity|].
      symmetry. apply String.eqb_neq. intros ->. contradiction.
    + rewrite IH. cbn [dict_get].
      destruct (decide (k ∈ names)) as [Hk|Hk]; [reflexivity|].
      replace (String.eqb k k') with false; [reflexivity|].
      symmetry. apply String.eqb_neq. intros ->. apply Hin. exact Hk.
Qed.

Lemma tags_without_inv (names : list string) (tags kept : Json) :
  Overpass.tags_without names tags = Ok kept ->
  exists d d', tags = JDict d /\ kept = JDict d'
               /\ forall k, dict_get k d' = if decide (k ∈ names) then None else dict_get k d.
Proof.
  unfold Overpass.tags_without. destruct tags; try discriminate.
  cbn [py_items res_bind]. intros [= <-].
  do 2 eexists. split; [reflexivity|]. split; [reflexivity|].
  intros k. apply dict_get_filter_out.
Qed.

Lemma element_point_inv (element tags lon lat : Json) :
  Overpass.element_point element = Ok (Some (tags, lon, lat)) ->
  py_get element "tags" (JDict []) = Ok tags.
Proof.
  unfold Overpass.element_point. intros H. bind_inv H.
  destruct (is_none _ || is_none _); [discriminate H|].
  bind_inv H. congruence.
Qed.

(** What a feature holds, for each of the three processors. *)
Lemma military_feature_inv (lib : PyLib) (element f : Json) :
  Overpass.military_feature lib element = Ok (Some f) ->
  exists tags name kept,
    py_get element "tags" (JDict []) = Ok tags
    /\ feature_property "name" f = Some name /\ truthy name = true
    /\ feature_property "tags" f = Some kept
    /\ Overpass.tags_without ["name"; "military"] tags = Ok kept.
Proof.
  unfold Overpass.military_feature. intros H.
  destruct (Overpass.element_point element) as [[[[tags lon] lat]|]|] eqn:Ep;
    cbn [res_bind] in H; try discriminate H.
  apply element_point_inv in Ep.
  bind_inv H. injection H as <-.
  do 3 eexists. split; [exact Ep|]. split; [reflexivity|].
  split; [|split; [reflexivity | eassumption]].
  repeat apply py_or_truthy. reflexivity.
Qed.

Lemma energy_feature_inv (lib : PyLib) (element f : Json) :
  Overpass.energy_feature lib element = Ok (Some f) ->
  exists tags name kept,
    py_get element "tags" (JDict []) = Ok tags
    /\ feature_property "name" f = Some name /\ truthy name = true
    /\ feature_property "tags" f = Some kept
    /\ Overpass.tags_without ["name"; "plant:source"; "generator:source"] tags = Ok kept.
Proof.
  unfold Overpass.energy_feature. intros H.
  destruct (Overpass.element_point element) as [[[[tags lon] lat]|]|] eqn:Ep;
    cbn [res_bind] in H; try discriminate H.
  apply element_point_inv in Ep.
  bind_inv H. injection H as <-.
  do 3 eexists. split; [exact Ep|]. split; [reflexivity|].
  split; [|split; [reflexivity | eassumption]].
  repeat apply py_or_truthy. reflexivity.
Qed.

Lemma critical_feature_inv (lib : PyLib) (element f : Json) :
  Overpass.critical_feature lib element = Ok (Some f) ->
  exists tags name kept,
    py_get element "tags" (JDict []) = Ok tags
    /\ feature_property "name" f = Some name /\ truthy name = true
    /\ feature_property "tags" f = Some kept
    /\ Overpass.tags_without ["name"] tags = Ok kept.
Proof.
  unfold Overpass.critical_feature. intros H.
  destruct (Overpass.element_point element) as [[[[tags lon] lat]|]|] eqn:Ep;
    cbn [res_bind] in H; try discriminate H.
  apply element_point_inv in Ep.
  bind_inv H. injection H as <-.
  do 3 eexists. split; [exact Ep|]. split; [reflexivity|].
  split; [|split; [reflexivity | eassumption]].
  repeat apply py_or_truthy. reflexivity.
Qed.

Lemma processed_feature_inv (lib : PyLib) (feature : Json -> Res (option Json))
      (names : list string) (element f : Json) :
  In (feature, names) (element_processors lib) ->
  feature element = Ok (Some f) ->
  exists tags name kept,
    py_get element "tags" (JDict []) = Ok tags
    /\ feature_property "name" f = Some name /\ truthy name = true
    /\ feature_property "tags" f = Some kept
    /\ Overpass.tags_without names tags = Ok kept.
Proof.
  intros Hin H. cbn [In element_processors] in Hin.
  destruct Hin as [[= <- <-] | [[= <- <-] | [[= <- <-] | []]]].
  - exact (military_feature_inv lib element f H).
  - exact (energy_feature_inv lib element f H).
  - exact (critical_feature_inv lib element f H).
Qed.

(** X13.  Whatever the tags of an element, the feature that one of the
    three processors makes of it has a name, and the name is never empty nor
    otherwise false: a missing, null or empty ["name"] tag gives way to the
    next candidate and at last to the fixed text of the processor. *)
Theorem feature_names_are_never_empty
        (lib : PyLib) (feature : Json -> Res (option Json)) (names : list string)
        (element f : Json) :
  In (feature, names) (element_processors lib) ->
  feature element = Ok (Some f) ->
  exists name, feature_property "name" f = Some name /\ truthy name = true.
Proof.
  intros Hin H.
  destruct (processed_feature_inv lib feature names element f Hin H)
    as (tags & name & kept & _ & Hname & Htruthy & _).
  exists name. split; assumption.
Qed.

Lemma feature_names_are_never_empty_witness :
  Forall (fun f => exists name, feature_property "name" f = Some name /\ truthy name = true)
         (features_of (Overpass.process_critical_elements sample_lib
                         (JList (firstn 2 critical_elements)))).
Proof.
  repeat constructor.
  - apply (feature_names_are_never_empty sample_lib (Overpass.critical_feature sample_lib)
             ["name"] (nth 0 critical_elements JNull)).
    + cbn. tauto.
    + vm_compute. reflexivity.
  - apply (feature_names_are_never_empty sample_lib (Overpass.critical_feature sample_lib)
             ["name"] (nth 1 critical_elements JNull)).
    + cbn. tauto.
    + vm_compute. reflexivity.
Defined.

(** X14.  The ["tags"] of a feature are the tags of the element without the
    keys its processor has put elsewhere (["name"], and ["military"], or
    the two source keys): no such key is left in them, and every other tag
    is there with its value. *)
Theorem feature_tags_leave_out_named_keys
        (lib : PyLib) (feature : Json -> Res (option Json)) (names : list string)
        (element f : Json) :
  In (feature, names) (element_processors lib) ->
  feature element = Ok (Some f) ->
  exists tags kept,
    element_tags element = Some tags
    /\ feature_property "tags" f = Some (JDict kept)
    /\ (forall k, In k names -> dict_get k kept = None)
    /\ (forall k, ~ In k names -> dict_get k kept = dict_get k tags).
Proof.
  intros Hin H.
  destruct (processed_feature_inv lib feature names element f Hin H)
    as (tags & name & kept & Htags & _ & _ & Hkept & Hwithout).
  apply tags_without_inv in Hwithout as (d & d' & -> & -> & Hget).
  exists d, d'. unfold element_tags. rewrite Htags.
  split; [reflexivity|]. split; [exact Hkept|]. split.
  - intros k Hk. rewrite Hget. rewrite decide_True; [reflexivity|].
    apply list_elem_of_In. exact Hk.
  - intros k Hk. rewrite Hget. rewrite decide_False; [reflexivity|].
    rewrite list_elem_of_In. exact Hk.
Qed.

Lemma feature_tags_leave_out_named_keys_witness :
  exists kept,
    option_map (feature_property "tags")
               (head (features_of (Overpass.process_energy_elements sample_lib
                                     (JList energy_elements))))
    = Some (Some (JDict kept))
    /\ dict_get "plant:source" kept = None
    /\ dict_get "operator" kept = Some (JStr "EDF").
Proof.
  destruct (feature_tags_leave_out_named_keys
              sample_lib (Overpass.energy_feature sample_lib)
              ["name"; "plant:source"; "generator:source"]
              (nth 0 energy_elements JNull)
              (nth 0 (features_of (Overpass.process_energy_elements sample_lib
                                     (JList energy_elements))) JNull))
    as (tags & kept & Htags & Hkept & Hout & Hin).
  - cbn. tauto.
  - vm_compute. reflexivity.
  - exists kept. split; [|split].
    + rewrite <- Hkept. vm_compute. reflexivity.
    + apply Hout. cbn. tauto.
    + rewrite Hin.
      * injection Htags as <-. vm_compute. reflexivity.
      * cbn. intros [H|[H|[H|[]]]]; discriminate H.
Defined.

(** ** The optimized downloads: what they write *)







(** ** The strategy chain, step by step *)

Lemma wait_if_needed_cases (rl : RateLimiter.t) (w : World) :
  let required := RateLimiter.required_delay rl in
  let since := (w_clock w - RateLimiter.last_request rl)%Q in
  RateLimiter.wait_if_needed rl w
  = if Qltb since required
    then
      let w' := slept (required - since) (add_log (LogRateLimiting (required - since)) w) in
      (Ok (RateLimiter.mk (RateLimiter.base_delay rl) (w_clock w')
                          (RateLimiter.consecutive_failures rl)
                          (RateLimiter.total_requests rl + 1)), w')
    else
      (Ok (RateLimiter.mk (RateLimiter.base_delay rl) (w_clock w)
                          (RateLimiter.consecutive_failures rl)
                          (RateLimiter.total_requests rl + 1)), w).
Proof.
  intros required since.
  unfold RateLimiter.wait_if_needed, bind, time_time, ret.
  fold required. fold since.
  destruct (Qltb since required); reflexivity.
Qed.

(** A chain that holds a strategy which always returns [True] ends with a
    success, and with the failure counter of the rate limiter at zero. *)
Lemma chain_with_sure_strategy (strategies : list DownloadManager.Strategy)
      (self : DownloadManager.t) (asset_type : string) (start_time : Q) (w : World) :
  (exists s, In s strategies
             /\ forall self0 w0,
                  fst (DownloadManager.strategy_call s self0 asset_type w0) = Ok true) ->
  exists self' w' op,
    DownloadManager.try_strategies strategies self asset_type start_time w
    = (Ok (true, self'), w')
    /\ DownloadManager.operations (DownloadManager.download_stats self')
       = DownloadManager.operations (DownloadManager.download_stats self) ++ [op]
    /\ DownloadManager.op_success op = true
    /\ DownloadManager.op_asset_type op = asset_type
    /\ (exists s', In s' strategies
                   /\ DownloadManager.op_strategy op = DownloadManager.strategy_name s')
    /\ RateLimiter.consecutive_failures (DownloadManager.rate_limiter self') = 0
    /\ DownloadManager.config self' = DownloadManager.config self.
Proof.
  revert self w. induction strategies as [|s rest IH]; intros self w (sure & Hin & Hsure).
  - destruct Hin.
  - destruct (wait_if_needed_spec (DownloadManager.rate_limiter self) w)
      as (rl & w0 & Hwait & _).
    rewrite (try_strategies_step s rest self asset_type start_time w rl w0 Hwait).
    destruct (DownloadManager.strategy_call s (DownloadManager.set_rate_limiter self rl)
                asset_type w0) as [[[|]|e] w1] eqn:Ecall.
    + do 3 eexists. split; [reflexivity|]. cbn.
      repeat split. exists s. split; [left; reflexivity | reflexivity].
    + assert (Hrest : exists s0, In s0 rest
                         /\ forall self0 w2,
                              fst (DownloadManager.strategy_call s0 self0 asset_type w2)
                              = Ok true).
      { exists sure. split; [|exact Hsure]. destruct Hin as [<-|Hin]; [|exact Hin].
        specialize (Hsure (DownloadManager.set_rate_limiter self rl) w0).
        rewrite Ecall in Hsure. discriminate Hsure. }
      destruct (IH (DownloadManager.set_rate_limiter self rl) w1 Hrest)
        as (self' & w' & op & Hrun & Hops & Hsucc & Hat & (s' & Hs' & Hname) & Hzero & Hcfg).
      exists self', w', op. split; [exact Hrun|]. split; [exact Hops|].
      split; [exact Hsucc|]. split; [exact Hat|].
      split; [exists s'; split; [right; exact Hs' | exact Hname]|].
      split; [exact Hzero | exact Hcfg].
    + assert (Hrest : exists s0, In s0 rest
                         /\ forall self0 w2,
                              fst (DownloadManager.strategy_call s0 self0 asset_type w2)
                              = Ok true).
      { exists sure. split; [|exact Hsure]. destruct Hin as [<-|Hin]; [|exact Hin].
        specialize (Hsure (DownloadManager.set_rate_limiter self rl) w0).
        rewrite Ecall in Hsure. discriminate Hsure. }
      match goal with |- context [DownloadManager.try_strategies rest ?self1 _ _ ?w2] =>
        destruct (IH self1 w2 Hrest)
          as (self' & w' & op & Hrun & Hops & Hsucc & Hat & (s' & Hs' & Hname) & Hzero & Hcfg)
      end.
      exists self', w', op. split; [exact Hrun|]. split; [exact Hops|].
      split; [exact Hsucc|]. split; [exact Hat|].
      split; [exists s'; split; [right; exact Hs' | exact Hname]|].
      split; [exact Hzero | exact Hcfg].
Qed.



(** ** A dead network *)



Lemma wait_if_needed_effects (rl : RateLimiter.t) (w : World) :
  exists rl' w',
    RateLimiter.wait_if_needed rl w = (Ok rl', w')
    /\ w_network w' = w_network w /\ w_requests w' = w_requests w
    /\ w_assets w' = w_assets w /\ w_cache w' = w_cache w
    /\ List.filter is_strategy_failure (w_log w') = List.filter is_strategy_failure (w_log w).
Proof.
  rewrite wait_if_needed_cases. cbn zeta.
  destruct (Qltb _ _); do 2 eexists; (split; [reflexivity|]).
  - cbn [slept add_log w_network w_requests w_assets w_cache w_log].
    rewrite List.filter_app. cbn [List.filter is_strategy_failure]. rewrite app_nil_r. tauto.
  - tauto.
Qed.



(** ** The cache strategy and the fallback *)

Lemma Qltb_lt (x y : Q) : Qltb x y = true <-> (x < y)%Q.
Proof.
  unfold Qltb. rewrite negb_true_iff. split.
  - intros H. apply Qnot_le_lt. intros Hle. apply Qle_bool_iff in Hle. congruence.
  - intros H. destruct (Qle_bool y x) eqn:E; [|reflexivity].
    apply Qle_bool_iff in E. exfalso. apply (Qlt_not_le _ _ H). exact E.
Qed.

Lemma Qltb_ge (x y : Q) : Qltb x y = false <-> (y <= x)%Q.
Proof.
  unfold Qltb. rewrite negb_false_iff. apply Qle_bool_iff.
Qed.

(** The cache strategy: [True] exactly for a file [<asset_type>_cached.geojson]
    that is less than 24 hours old, with the cache enabled. *)
Lemma try_cached_download_run (self : DownloadManager.t) (asset_type : string) (w : World) :
  DownloadManager._try_cached_download self asset_type w
  = match w_assets w !! (asset_type +:+ "_cached.geojson") with
    | Some f =>
        if DownloadManager.enable_cache (DownloadManager.config self)
           && Qltb (w_clock w - f_mtime f) (24 * 3600)
        then (Ok true, add_log (LogUsingCached asset_type) w)
        else (Ok false, w)
    | None => (Ok false, w)
    end.
Proof.
  unfold DownloadManager._try_cached_download.
  destruct (DownloadManager.enable_cache _); cbn [negb andb].
  - unfold bind, assets_exists, time_time, assets_stat.
    destruct (w_assets w !! _) as [f|] eqn:Ef.
    + rewrite bool_decide_eq_true_2 by (eexists; reflexivity). rewrite Ef.
      destruct (Qltb _ _); reflexivity.
    + rewrite bool_decide_eq_false_2 by (intros [x Hx]; discriminate). reflexivity.
  - destruct (w_assets w !! _); reflexivity.
Qed.



Lemma try_optimized_download_unknown (lib : PyLib) (self : DownloadManager.t)
      (asset_type : string) (w : World) :
  ~ In asset_type ["military"; "energy"; "critical"] ->
  DownloadManager._try_optimized_download lib self asset_type w = (Ok false, w).
Proof.
  intros Hnot. unfold DownloadManager._try_optimized_download.
  cbn [DownloadManager.download_functions find fst].
  repeat match goal with
         | |- context [String.eqb asset_type ?s] =>
             let E := fresh "E" in
             destruct (String.eqb asset_type s) eqn:E;
             [apply String.eqb_eq in E; exfalso; apply Hnot; rewrite E; cbn; tauto|]
         end.
  reflexivity.
Qed.

Lemma try_alternative_sources_unknown (lib : PyLib) (self : DownloadManager.t)
      (asset_type : string) (w : World) :
  ~ In asset_type ["airports"; "infrastructure"] ->
  DownloadManager._try_alternative_sources lib self asset_type w = (Ok false, w).
Proof.
  intros Hnot. unfold DownloadManager._try_alternative_sources.
  destruct (negb _); [reflexivity|].
  repeat match goal with
         | |- context [String.eqb asset_type ?s] =>
             let E := fresh "E" in
             destruct (String.eqb asset_type s) eqn:E;
             [apply String.eqb_eq in E; exfalso; apply Hnot; rewrite E; cbn; tauto|]
         end.
  reflexivity.
Qed.

(** A wait with what it leaves alone, and how far it moves the clock. *)
Lemma wait_if_needed_full (rl : RateLimiter.t) (w : World) :
  exists rl' w',
    RateLimiter.wait_if_needed rl w = (Ok rl', w')
    /\ rl' = RateLimiter.mk (RateLimiter.base_delay rl) (w_clock w')
                            (RateLimiter.consecutive_failures rl)
                            (RateLimiter.total_requests rl + 1)
    /\ (w_clock w <= w_clock w')%Q
    /\ (RateLimiter.last_request rl + RateLimiter.required_delay rl <= w_clock w')%Q
    /\ w_network w' = w_network w /\ w_requests w' = w_requests w
    /\ w_assets w' = w_assets w /\ w_cache w' = w_cache w
    /\ List.filter is_strategy_failure (w_log w') = List.filter is_strategy_failure (w_log w)
    /\ (w_clock w' == w_clock w
        \/ w_clock w' == RateLimiter.last_request rl + RateLimiter.required_delay rl)%Q
    /\ (exists records, w_log w' = w_log w ++ records).
Proof.
  destruct (wait_if_needed_spec rl w) as (rl1 & w1 & Hwait & Hrl & Hmono & Hspaced & Hcases).
  destruct (wait_if_needed_effects rl w) as (rl2 & w2 & Hwait2 & Hn & Hr & Ha & Hc & Hl).
  rewrite Hwait in Hwait2. injection Hwait2 as <- <-.
  exists rl1, w1. do 10 (split; [assumption|]).
  rewrite wait_if_needed_cases in Hwait. cbn zeta in Hwait.
  destruct (Qltb _ _); injection Hwait as _ <-.
  - cbn [slept add_log w_log]. eexists. reflexivity.
  - exists []. rewrite app_nil_r. reflexivity.
Qed.

(** X19.  With the rate limiter in its working range, a request for an
    asset type that no download knows (none of military, energy, critical,
    airports, infrastructure) goes through all
    four strategies and ends with the fallback dataset, whatever
    [enable_fallback] says: [fallback.geojson] is written, the record names
    [_try_fallback_data], no request is sent, and the three waits between
    the strategies take at least three times the required delay. *)
Theorem unknown_asset_type_gets_fallback_data
        (lib : PyLib) (self : DownloadManager.t) (asset_type : string) (w : World) :
  limiter_in_range (DownloadManager.rate_limiter self) 4 (w_clock w) ->
  ~ In asset_type ["military"; "energy"; "critical"; "airports"; "infrastructure"] ->
  w_assets w !! (asset_type +:+ "_cached.geojson") = None ->
  exists self' w' op,
    DownloadManager.download_with_fallback lib self asset_type w = (Ok (true, self'), w')
    /\ DownloadManager.operations (DownloadManager.download_stats self')
       = DownloadManager.operations (DownloadManager.download_stats self) ++ [op]
    /\ DownloadManager.op_strategy op = "_try_fallback_data"
    /\ w_requests w' = w_requests w
    /\ w_assets w'
       = <["fallback.geojson" := mkFile (JsonDoc AlternativeSources.fallback_data) (w_clock w')]>
           (w_assets w)
    /\ In (LogUsingFallback asset_type) (w_log w')
    /\ (w_clock w + 3 * RateLimiter.required_delay (DownloadManager.rate_limiter self)
        <= w_clock w')%Q.
Proof.
  intros _ Hnot Hnone.
  assert (Hnot1 : ~ In asset_type ["military"; "energy"; "critical"])
    by (intros H; apply Hnot; cbn in H |- *; tauto).
  assert (Hnot2 : ~ In asset_type ["airports"; "infrastructure"])
    by (intros H; apply Hnot; cbn in H |- *; tauto).
  rewrite download_with_fallback_start. unfold DownloadManager.strategies.
  set (w0 := add_log (LogStarting asset_type) w).
  set (rl0 := DownloadManager.rate_limiter self).
  destruct (wait_if_needed_full rl0 w0)
    as (rl1 & w1 & Hwait1 & Hrl1 & Hm1 & _ & _ & Hr1 & Ha1 & _).
  rewrite (try_strategies_step _ _ self asset_type (w_clock w) w0 rl1 w1 Hwait1).
  cbn [DownloadManager.strategy_call].
  rewrite try_cached_download_miss by (rewrite Ha1; exact Hnone).
  destruct (wait_if_needed_full rl1 w1)
    as (rl2 & w2 & Hwait2 & Hrl2 & _ & Hs2 & _ & Hr2 & Ha2 & _).
  rewrite (try_strategies_step _ _ (DownloadManager.set_rate_limiter self rl1)
             asset_type (w_clock w) w1 rl2 w2 Hwait2).
  cbn [DownloadManager.strategy_call].
  rewrite try_optimized_download_unknown by exact Hnot1.
  destruct (wait_if_needed_full rl2 w2)
    as (rl3 & w3 & Hwait3 & Hrl3 & _ & Hs3 & _ & Hr3 & Ha3 & _).
  rewrite (try_strategies_step
             _ _ (DownloadManager.set_rate_limiter
                    (DownloadManager.set_rate_limiter self rl1) rl2)
             asset_type (w_clock w) w2 rl3 w3 Hwait3).
  cbn [DownloadManager.strategy_call].
  rewrite try_alternative_sources_unknown by exact Hnot2.
  destruct (wait_if_needed_full rl3 w3)
    as (rl4 & w4 & Hwait4 & Hrl4 & _ & Hs4 & _ & Hr4 & Ha4 & _).
  rewrite (try_strategies_step
             _ _ (DownloadManager.set_rate_limiter
                    (DownloadManager.set_rate_limiter
                       (DownloadManager.set_rate_limiter self rl1) rl2) rl3)
             asset_type (w_clock w) w3 rl4 w4 Hwait4).
  cbn [DownloadManager.strategy_call].
  unfold DownloadManager._try_fallback_data, AlternativeSources.create_fallback_dataset,
    bind, assets_write_text, logging, ret, json_dumps.
  do 3 eexists. split; [reflexivity|].
  cbn [DownloadManager.operations DownloadManager.download_stats
       DownloadManager.append_operation DownloadManager.set_rate_limiter
       DownloadManager.op_strategy DownloadManager.strategy_name
       add_log w_requests w_assets w_log w_clock].
  split; [reflexivity|]. split; [reflexivity|].
  split; [rewrite Hr4, Hr3, Hr2, Hr1; reflexivity|].
  split; [rewrite Ha4, Ha3, Ha2, Ha1; reflexivity|].
  split; [apply in_or_app; left; apply in_or_app; right; left; reflexivity|].
  assert (Hreq : forall rl rl' c,
             rl' = RateLimiter.mk (RateLimiter.base_delay rl) c
                                  (RateLimiter.consecutive_failures rl)
                                  (RateLimiter.total_requests rl + 1) ->
             RateLimiter.required_delay rl' = RateLimiter.required_delay rl
             /\ RateLimiter.last_request rl' = c).
  { intros rl rl' c ->. split; reflexivity. }
  destruct (Hreq _ _ _ Hrl1) as [Hd1 Hl1]. destruct (Hreq _ _ _ Hrl2) as [Hd2 Hl2].
  destruct (Hreq _ _ _ Hrl3) as [Hd3 Hl3].
  rewrite Hl1, Hd1 in Hs2. rewrite Hl2, Hd2, Hd1 in Hs3. rewrite Hl3, Hd3, Hd2, Hd1 in Hs4.
  unfold w0 in Hm1. cbn [add_log w_clock] in Hm1. lra.
Qed.

Lemma unknown_asset_type_gets_fallback_data_witness :
  let run := DownloadManager.download_with_fallback sample_lib sample_manager "rail"
               (sample_world dead_network) in
  strategies_recorded run = ["_try_fallback_data"]
  /\ w_requests (snd run) = []
  /\ (1090 <= w_clock (snd run))%Q.
Proof.
  intros run.
  destruct (unknown_asset_type_gets_fallback_data sample_lib sample_manager "rail"
              (sample_world dead_network))
    as (self' & w' & op & Hrun & Hops & Hname & Hreq & _ & _ & Hclock).
  - range_by_evaluation.
  - cbn. intros [H|[H|[H|[H|[H|[]]]]]]; discriminate H.
  - reflexivity.
  - fold run in Hrun. unfold strategies_recorded, manager_of. rewrite Hrun. cbn [fst snd].
    split; [rewrite Hops; cbn [map app sample_manager DownloadManager.operations
                               DownloadManager.download_stats]; rewrite Hname; reflexivity|].
    split; [rewrite Hreq; reflexivity|].
    apply (Qle_trans _ (w_clock (sample_world dead_network)
                        + 3 * RateLimiter.required_delay
                                (DownloadManager.rate_limiter sample_manager))%Q);
      [vm_compute; discriminate | exact Hclock].
Defined.

(** ** A download that raises *)





(** ** The alternative sources *)

Lemma download_dataset_run (url filename : string) (w : World) :
  exists w',
    AlternativeSources.download_dataset url filename w = (Ok tt, w')
    /\ w_requests w' = w_requests w ++ [mkRequest url ""]
    /\ w_assets w' !! filename
       = file_after (w_network w (length (w_requests w)) (mkRequest url "")) (w_clock w)
                    (w_assets w !! filename)
    /\ (forall other, other <> filename -> w_assets w' !! other = w_assets w !! other)
    /\ (reply_is_failure (w_network w (length (w_requests w)) (mkRequest url "")) = true ->
        w_assets w' = w_assets w)
    /\ w_network w' = w_network w /\ w_clock w' = w_clock w
    /\ w_cache w' = w_cache w /\ w_log w' = w_log w.
Proof.
  unfold AlternativeSources.download_dataset, try_except, bind, urlopen.
  destruct (w_network w (length (w_requests w)) (mkRequest url "")) as [d|e].
  - unfold assets_write_text. eexists. split; [reflexivity|].
    cbn [add_request w_requests w_assets w_network w_clock w_cache w_log file_after].
    split; [reflexivity|]. split; [apply lookup_insert_eq|].
    split; [intros other Hne; apply lookup_insert_ne; congruence|].
    split; [discriminate|]. tauto.
  - unfold ret. eexists. split; [reflexivity|].
    cbn [add_request w_requests w_assets w_network w_clock w_cache w_log file_after].
    tauto.
Qed.

(** X21.  [download_from_github_datasets] never raises and always sends its
    two requests, for the airports and then for the countries.  The two
    datasets are independent: each file is written exactly when its own
    request is answered, and is otherwise left as it was; nothing else
    changes in the asset directory. *)
Theorem github_datasets_are_fetched_independently (w : World) :
  let n := length (w_requests w) in
  exists w',
    AlternativeSources.download_from_github_datasets w = (Ok tt, w')
    /\ w_requests w' = w_requests w ++ [airports_dataset; countries_dataset]
    /\ w_assets w' !! "airports_github.csv"
       = file_after (w_network w n airports_dataset) (w_clock w)
                    (w_assets w !! "airports_github.csv")
    /\ w_assets w' !! "countries.csv"
       = file_after (w_network w (S n) countries_dataset) (w_clock w)
                    (w_assets w !! "countries.csv")
    /\ (forall other, other <> "airports_github.csv" -> other <> "countries.csv" ->
                      w_assets w' !! other = w_assets w !! other)
    /\ w_cache w' = w_cache w /\ w_log w' = w_log w.
Proof.
  intros n. unfold AlternativeSources.download_from_github_datasets.
  destruct (download_dataset_run (rq_url airports_dataset) "airports_github.csv" w)
    as (w1 & Hrun1 & Hr1 & Hf1 & Ho1 & _ & Hn1 & Hc1 & Hca1 & Hl1).
  destruct (download_dataset_run (rq_url countries_dataset) "countries.csv" w1)
    as (w2 & Hrun2 & Hr2 & Hf2 & Ho2 & _ & Hn2 & Hc2 & Hca2 & Hl2).
  exists w2. unfold bind.
  change (AlternativeSources.download_dataset _ "airports_github.csv" w)
    with (AlternativeSources.download_dataset (rq_url airports_dataset)
            "airports_github.csv" w).
  rewrite Hrun1.
  change (AlternativeSources.download_dataset _ "countries.csv" w1)
    with (AlternativeSources.download_dataset (rq_url countries_dataset) "countries.csv" w1).
  rewrite Hrun2. split; [reflexivity|].
  split; [rewrite Hr2, Hr1, <- app_assoc; reflexivity|].
  split; [rewrite Ho2 by discriminate; exact Hf1|].
  split.
  - rewrite Hf2, Hn1, Hr1, length_app, Hc1. cbn [length].
    replace (length (w_requests w) + 1)%nat with (S n) by (unfold n; lia).
    rewrite Ho1 by discriminate. reflexivity.
  - split; [|split; congruence].
    intros other H1 H2. rewrite Ho2 by exact H2. apply Ho1. exact H1.
Qed.

(** X22.  With the rate limiter in its working range, a request for
    ["airports"] with [enable_fallback] on and no cached file is recorded
    as a success of [_try_alternative_sources], whether or not a dataset
    arrived: two
    requests are sent, only [airports_github.csv] and [countries.csv] can
    change, and on a network where both calls fail nothing at all is
    written. *)
Theorem airports_request_succeeds_without_data
        (lib : PyLib) (self : DownloadManager.t) (w : World) :
  limiter_in_range (DownloadManager.rate_limiter self) 4 (w_clock w) ->
  DownloadManager.enable_fallback (DownloadManager.config self) = true ->
  w_assets w !! "airports_cached.geojson" = None ->
  exists self' w' op,
    DownloadManager.download_with_fallback lib self "airports" w = (Ok (true, self'), w')
    /\ DownloadManager.operations (DownloadManager.download_stats self')
       = DownloadManager.operations (DownloadManager.download_stats self) ++ [op]
    /\ DownloadManager.op_strategy op = "_try_alternative_sources"
    /\ DownloadManager.op_success op = true
    /\ w_requests w' = w_requests w ++ [airports_dataset; countries_dataset]
    /\ (forall other, other <> "airports_github.csv" -> other <> "countries.csv" ->
                      w_assets w' !! other = w_assets w !! other)
    /\ ((forall n rq, reply_is_failure (w_network w n rq) = true) ->
        w_assets w' = w_assets w).
Proof.
  intros _ Hfallback Hnone.
  rewrite download_with_fallback_start. unfold DownloadManager.strategies.
  set (w0 := add_log (LogStarting "airports") w).
  destruct (wait_if_needed_full (DownloadManager.rate_limiter self) w0)
    as (rl1 & w1 & Hwait1 & _ & _ & _ & Hn1 & Hr1 & Ha1 & _).
  rewrite (try_strategies_step _ _ self "airports" (w_clock w) w0 rl1 w1 Hwait1).
  cbn [DownloadManager.strategy_call].
  rewrite try_cached_download_miss by (rewrite Ha1; exact Hnone).
  destruct (wait_if_needed_full rl1 w1)
    as (rl2 & w2 & Hwait2 & _ & _ & _ & Hn2 & Hr2 & Ha2 & _).
  rewrite (try_strategies_step _ _ (DownloadManager.set_rate_limiter self rl1)
             "airports" (w_clock w) w1 rl2 w2 Hwait2).
  cbn [DownloadManager.strategy_call].
  rewrite try_optimized_download_unknown
    by (cbn; intros [H|[H|[H|[]]]]; discriminate H).
  destruct (wait_if_needed_full rl2 w2)
    as (rl3 & w3 & Hwait3 & _ & _ & _ & Hn3 & Hr3 & Ha3 & _).
  rewrite (try_strategies_step
             _ _ (DownloadManager.set_rate_limiter
                    (DownloadManager.set_rate_limiter self rl1) rl2)
             "airports" (w_clock w) w2 rl3 w3 Hwait3).
  cbn [DownloadManager.strategy_call].
  unfold DownloadManager._try_alternative_sources.
  cbn [DownloadManager.set_rate_limiter DownloadManager.config].
  rewrite Hfallback. cbn [negb String.eqb Ascii.eqb Bool.eqb].
  unfold AlternativeSources.download_from_github_datasets.
  destruct (download_dataset_run (rq_url airports_dataset) "airports_github.csv" w3)
    as (w4 & Hrun4 & Hr4 & _ & Ho4 & Hdead4 & Hn4 & _).
  destruct (download_dataset_run (rq_url countries_dataset) "countries.csv" w4)
    as (w5 & Hrun5 & Hr5 & _ & Ho5 & Hdead5 & _).
  unfold bind at 1 2.
  change (AlternativeSources.download_dataset _ "airports_github.csv" w3)
    with (AlternativeSources.download_dataset (rq_url airports_dataset)
            "airports_github.csv" w3).
  rewrite Hrun4.
  change (AlternativeSources.download_dataset _ "countries.csv" w4)
    with (AlternativeSources.download_dataset (rq_url countries_dataset) "countries.csv" w4).
  rewrite Hrun5. unfold ret at 1.
  do 3 eexists. split; [reflexivity|].
  cbn [DownloadManager.operations DownloadManager.download_stats
       DownloadManager.append_operation DownloadManager.set_rate_limiter
       DownloadManager.op_strategy DownloadManager.op_success DownloadManager.strategy_name
       add_log w_requests w_assets].
  split; [reflexivity|]. split; [reflexivity|]. split; [reflexivity|].
  split; [rewrite Hr5, Hr4, Hr3, Hr2, Hr1, <- app_assoc; reflexivity|].
  split.
  - intros other H1 H2. rewrite Ho5 by exact H2. rewrite Ho4 by exact H1.
    rewrite Ha3, Ha2, Ha1. reflexivity.
  - intros Hdead. rewrite Hdead5, Hdead4, Ha3, Ha2, Ha1; [reflexivity|..].
    + rewrite Hn3, Hn2, Hn1. apply Hdead.
    + rewrite Hn4, Hn3, Hn2, Hn1. apply Hdead.
Qed.

Lemma airports_request_succeeds_without_data_witness :
  let run := DownloadManager.download_with_fallback sample_lib sample_manager "airports"
               (sample_world countries_only_network) in
  strategies_recorded run = ["_try_alternative_sources"]
  /\ length (w_requests (snd run)) = 2%nat
  /\ w_assets (snd run) !! "fallback.geojson" = None.
Proof.
  intros run.
  destruct (airports_request_succeeds_without_data sample_lib sample_manager
              (sample_world countries_only_network))
    as (self' & w' & op & Hrun & Hops & Hname & _ & Hreq & Hother & _).
  - range_by_evaluation.
  - reflexivity.
  - reflexivity.
  - fold run in Hrun. unfold strategies_recorded, manager_of. rewrite Hrun. cbn [fst snd].
    split; [rewrite Hops; cbn [map app sample_manager DownloadManager.operations
                               DownloadManager.download_stats]; rewrite Hname; reflexivity|].
    split; [rewrite Hreq; reflexivity|].
    rewrite Hother by discriminate. reflexivity.
Defined.





Lemma github_datasets_are_fetched_independently_witness :
  exists w',
    AlternativeSources.download_from_github_datasets (sample_world countries_only_network)
    = (Ok tt, w')
    /\ w_assets w' !! "airports_github.csv" = None
    /\ w_assets w' !! "countries.csv" = Some (mkFile (RawText "id,code,name") 1000)
    /\ w_assets w' !! "airports.csv" = None.
Proof.
  destruct (github_datasets_are_fetched_independently (sample_world countries_only_network))
    as (w' & Hrun & _ & Hairports & Hcountries & Hother & _).
  exists w'. split; [exact Hrun|].
  split; [rewrite Hairports; reflexivity|].
  split; [rewrite Hcountries; reflexivity|].
  rewrite Hother by discriminate. reflexivity.
Defined.

(** ** The rate limiter between two requests *)

(** X24.  Two calls of [wait_if_needed] do not return closer together
    than the delay required at the second call.  Let [rl1] be the limiter as
    the first call left it, its [last_request] being the time at which that
    call returned, let [n] failures be recorded since the last success, and
    let the second call be made with the limiter in its working range and
    with the base delay, the spacing [base_delay * 3 ** n] and the two clock
    readings whole numbers of seconds, so that the float arithmetic is
    exact.  Then the second call returns, no earlier than [spacing] seconds
    after the first; when time is missing it asks for one sleep, of exactly
    the missing time, and logs the wait; when enough time has passed it
    neither sleeps nor logs. *)
Theorem rate_limiter_spaces_requests (rl1 : RateLimiter.t) (n : nat) (w2 : World) :
  let rlx := Nat.iter n RateLimiter.record_failure (RateLimiter.record_success rl1) in
  let spacing := (RateLimiter.base_delay rl1 * inject_Z (3 ^ Z.of_nat n))%Q in
  limiter_in_range rlx 0 (w_clock w2) ->
  whole_seconds (RateLimiter.base_delay rl1) ->
  whole_seconds spacing ->
  whole_seconds (RateLimiter.last_request rl1) ->
  whole_seconds (w_clock w2) ->
  exists rl2 w3,
    RateLimiter.wait_if_needed rlx w2 = (Ok rl2, w3)
    /\ (RateLimiter.last_request rl1 + spacing <= w_clock w3)%Q
    /\ RateLimiter.last_request rl2 = w_clock w3
    /\ RateLimiter.total_requests rl2 = RateLimiter.total_requests rl1 + 1
    /\ ((RateLimiter.last_request rl1 + spacing <= w_clock w2)%Q ->
        w_sleeps w3 = w_sleeps w2 /\ w_log w3 = w_log w2)
    /\ ((w_clock w2 < RateLimiter.last_request rl1 + spacing)%Q ->
        exists d,
          (d == RateLimiter.last_request rl1 + spacing - w_clock w2)%Q
          /\ w_sleeps w3 = w_sleeps w2 ++ [d]
          /\ w_log w3 = w_log w2 ++ [LogRateLimiting d]).
Proof.
  intros rlx spacing _ _ _ _ _.
  assert (Hreq : (RateLimiter.required_delay rlx == spacing)%Q)
    by apply required_delay_after_failures.
  assert (Hrlx : RateLimiter.last_request rlx = RateLimiter.last_request rl1
                 /\ RateLimiter.total_requests rlx = RateLimiter.total_requests rl1).
  { unfold rlx. rewrite record_failure_iter. split; reflexivity. }
  destruct Hrlx as [Hlast Htotal].
  destruct (wait_if_needed_spec rlx w2) as (rl2 & w3 & Hwait2 & Hrl2 & _ & Hspaced & _).
  exists rl2, w3.
  split; [exact Hwait2|].
  split; [rewrite Hlast, Hreq in Hspaced; exact Hspaced|].
  split; [rewrite Hrl2; reflexivity|].
  split; [rewrite Hrl2; cbn [RateLimiter.total_requests]; lia|].
  rewrite wait_if_needed_cases in Hwait2. cbn zeta in Hwait2. rewrite Hlast in Hwait2.
  destruct (Qltb _ _) eqn:Elt.
  - apply Qltb_lt in Elt. rewrite Hreq in Elt. injection Hwait2 as _ <-. split.
    + intros Henough. lra.
    + intros _. eexists. split; [|split; reflexivity]. rewrite Hreq. lra.
  - apply Qltb_ge in Elt. rewrite Hreq in Elt. injection Hwait2 as _ <-. split.
    + intros _. split; reflexivity.
    + intros Hearly. lra.
Qed.

Lemma rate_limiter_spaces_requests_witness :
  let rl1 := RateLimiter.mk 30 1000 0 1 in
  let w2 := days_later 0 (sample_world dead_network) in
  exists rl2 w3,
    RateLimiter.wait_if_needed
      (Nat.iter 2 RateLimiter.record_failure (RateLimiter.record_success rl1)) w2
    = (Ok rl2, w3)
    /\ (1270 <= w_clock w3)%Q.
Proof.
  intros rl1 w2.
  destruct (rate_limiter_spaces_requests rl1 2 w2)
    as (rl2 & w3 & Hwait2 & Hspaced & _).
  - range_by_evaluation.
  - exists 30. split; [vm_compute; discriminate | reflexivity].
  - exists 270. split; [vm_compute; discriminate | reflexivity].
  - exists 1000. split; [vm_compute; discriminate | reflexivity].
  - exists 1001. split; [vm_compute; discriminate | reflexivity].
  - exists rl2, w3. split; [exact Hwait2|].
    change (RateLimiter.last_request rl1
            + RateLimiter.base_delay rl1 * inject_Z (3 ^ Z.of_nat 2))%Q
      with (1000 + 30 * 9)%Q in Hspaced.
    lra.
Defined.

(** ** Files that the cache forgets *)

(** X25.  A [cache_data] under a key that the index already holds, in
    another second than the first write, replaces the entry but not the
    file: the file of the replaced entry stays in the cache directory, no
    entry of the new index needs to name it, and then no later
    [clean_expired_cache] removes it, however old it gets. *)
Theorem replaced_entry_leaves_its_file
        (lib : PyLib) (self : AssetCache.t) (asset_type query_hash : string) (data : Json)
        (w : World) (self' : AssetCache.t) (w' : World) (ci : AssetCache.CacheInfo) :
  let cache_key := AssetCache.get_cache_key asset_type query_hash in
  let filename := cache_key +:+ "_" +:+ py_str (py_int (w_clock w)) +:+ ".json" in
  AssetCache.cache_index self !! cache_key = Some ci ->
  AssetCache.ci_filename ci <> filename ->
  AssetCache.ci_filename ci <> AssetCache.cache_index_path ->
  AssetCache.cache_data lib self asset_type query_hash data w = (Ok self', w') ->
  w_cache w' !! AssetCache.ci_filename ci = w_cache w !! AssetCache.ci_filename ci
  /\ (exists ci', AssetCache.cache_index self' !! cache_key = Some ci'
                  /\ AssetCache.ci_filename ci' = filename)
  /\ (forall w2 self2 w3,
        w_cache w2 = w_cache w' ->
        (forall k c, AssetCache.cache_index self' !! k = Some c ->
                     AssetCache.ci_filename c <> AssetCache.ci_filename ci) ->
        AssetCache.clean_expired_cache lib self' w2 = (Ok self2, w3) ->
        w_cache w3 !! AssetCache.ci_filename ci = w_cache w !! AssetCache.ci_filename ci).
Proof.
  intros cache_key filename Hci Hother Hnotindex Hwrite.
  destruct (cache_data_inv lib self asset_type query_hash data w self' w' Hwrite)
    as (size & file_size & index_file & Hidx & Hfiles & _).
  fold cache_key in Hidx, Hfiles. fold filename in Hidx, Hfiles.
  assert (Hkept : w_cache w' !! AssetCache.ci_filename ci
                  = w_cache w !! AssetCache.ci_filename ci).
  { rewrite Hfiles. rewrite lookup_insert_ne by congruence.
    rewrite lookup_insert_ne by congruence. reflexivity. }
  split; [exact Hkept|]. split.
  - eexists. rewrite Hidx, lookup_insert_eq. split; reflexivity.
  - intros w2 self2 w3 Hsame Hunnamed Hclean.
    destruct (clean_expired_cache_run lib self' w2) as (w3' & Hrun & Hgone & _).
    rewrite Hrun in Hclean. injection Hclean as _ <-.
    rewrite Hgone by exact Hnotindex. rewrite decide_False; [congruence|].
    intros ([k c] & Hname & Hin)%list_elem_of_fmap. cbn [snd] in Hname.
    apply list_elem_of_filter in Hin as [_ Hin].
    apply elem_of_map_to_list in Hin.
    exact (Hunnamed k c Hin (eq_sym Hname)).
Qed.

Lemma replaced_entry_leaves_its_file_witness :
  w_cache (snd sample_rewrite) !! "military_0123456789ab_1000.json"
  = Some (mkFile (JsonDoc sample_payload) 1000)
  /\ option_map AssetCache.ci_filename
                (AssetCache.cache_index (cache_of sample_rewrite)
                   !! AssetCache.get_cache_key "military" "0123456789ab")
     = Some "military_0123456789ab_87401.json".
Proof.
  assert (Hci : exists ci,
             AssetCache.cache_index (cache_of sample_write)
               !! AssetCache.get_cache_key "military" "0123456789ab" = Some ci
             /\ AssetCache.ci_filename ci = "military_0123456789ab_1000.json").
  { eexists. split; vm_compute; reflexivity. }
  destruct Hci as (ci & Hci & Hname).
  destruct (replaced_entry_leaves_its_file
              sample_lib (cache_of sample_write) "military" "0123456789ab" sample_payload
              (days_later 1 (snd sample_write)) (cache_of sample_rewrite) (snd sample_rewrite)
              ci)
    as (Hkept & (ci' & Hci' & Hname') & _).
  - exact Hci.
  - rewrite Hname. vm_compute. discriminate.
  - rewrite Hname. discriminate.
  - vm_compute. reflexivity.
  - split.
    + rewrite <- Hname, Hkept, Hname. vm_compute. reflexivity.
    + rewrite Hci'. cbn [option_map]. rewrite Hname'. vm_compute. reflexivity.
Defined.

(** ** The energy and the critical download *)

Lemma serve_energy_regions_answers (assign : string -> Reply) (w : World) :
  w_network w = serve_regions Overpass.energy_query Overpass.EU_REGIONS assign ->
  answers_regions Overpass.energy_query Overpass.EU_REGIONS assign w.
Proof.
  intros Hnet r n endpoint Hr. rewrite Hnet. unfold serve_regions. cbn [rq_data].
  cbn in Hr.
  repeat (destruct Hr as [<-|Hr]; [vm_compute; reflexivity|]).
  contradiction.
Qed.

(** X26.  [download_energy_chunked] queries the five regions in their
    order, each with the energy query of its bounding box, and stores in
    [energy.geojson] the features of the regions one after the other; a
    region whose query fails three times adds nothing.  The file of the
    military download is not touched. *)
Theorem energy_chunks_are_concatenated
        (lib : PyLib) (assign : string -> Reply) (feats : string -> list Json) (w : World) :
  answers_regions Overpass.energy_query Overpass.EU_REGIONS assign w ->
  (forall r, In r Overpass.EU_REGIONS ->
             region_features (Overpass.process_energy_elements lib)
                             (executor_result (assign (fst r))) = Ok (feats (fst r))) ->
  exists w',
    Overpass.download_energy_chunked lib w = (Ok tt, w')
    /\ saved_features "energy.geojson" w'
       = Some (concat (map (fun r => feats (fst r)) Overpass.EU_REGIONS))
    /\ saved_count "energy.geojson" w'
       = Some (JInt (Z.of_nat (length (concat (map (fun r => feats (fst r))
                                                   Overpass.EU_REGIONS)))))
    /\ map rq_data (w_requests w')
       = map rq_data (w_requests w)
         ++ concat (map (fun r => repeat (Overpass.energy_query (snd r))
                                         (attempts_spent (assign (fst r))))
                        Overpass.EU_REGIONS)
    /\ w_assets w' !! "military.geojson" = w_assets w !! "military.geojson".
Proof.
  intros Hans Hok.
  destruct (chunked_loop_run Overpass.energy_query (Overpass.process_energy_elements lib)
              assign feats Overpass.EU_REGIONS [] w Hans Hok)
    as (w1 & Hloop & Hreq & Hn & Ha & Hc & Hl).
  unfold Overpass.download_energy_chunked, bind. rewrite Hloop. cbn [app].
  destruct (save_geojson_run lib (concat (map (fun r => feats (fst r)) Overpass.EU_REGIONS))
              "energy.geojson" "energy" w1)
    as (w2 & Hsave & Hfs & Hcount & Hr2 & _ & _ & _ & Hother).
  exists w2. split; [exact Hsave|].
  rewrite Hfs, Hcount, Hr2, Hreq.
  repeat split; try reflexivity.
  rewrite Hother by discriminate. now rewrite Ha.
Qed.

Lemma energy_chunks_are_concatenated_witness :
  exists w',
    Overpass.download_energy_chunked sample_lib (sample_world energy_network) = (Ok tt, w')
    /\ saved_features "energy.geojson" w'
       = Some (energy_features "western" ++ energy_features "central")
    /\ length (w_requests w') = 7%nat.
Proof.
  destruct (energy_chunks_are_concatenated sample_lib energy_assignment energy_features
              (sample_world energy_network))
    as (w' & Hrun & Hfs & _ & Hreq & _).
  - apply serve_energy_regions_answers. reflexivity.
  - intros r Hr. cbn in Hr.
    repeat (destruct Hr as [<-|Hr]; [vm_compute; reflexivity|]). contradiction.
  - exists w'. split; [exact Hrun|]. split.
    + rewrite Hfs. vm_compute. reflexivity.
    + apply (f_equal (@length string)) in Hreq. rewrite length_map in Hreq.
      rewrite Hreq. vm_compute. reflexivity.
Defined.

(** X27.  [download_critical_infrastructure] sends one query for the whole
    of Europe (again when an attempt fails, three times at most) and stores
    in [critical.geojson] the features of the elements in the answer, with
    their number as ["count"]; an answer without ["elements"], or no answer
    at all, gives a collection without features. *)
Theorem critical_download_stores_the_answer
        (lib : PyLib) (reply : Reply) (fs : list Json) (w : World) :
  (forall n endpoint, w_network w n (mkRequest endpoint Overpass.critical_query) = reply) ->
  region_features (Overpass.process_critical_elements lib) (executor_result reply) = Ok fs ->
  exists w',
    Overpass.download_critical_infrastructure lib w = (Ok tt, w')
    /\ saved_features "critical.geojson" w' = Some fs
    /\ saved_count "critical.geojson" w' = Some (JInt (Z.of_nat (length fs)))
    /\ map rq_data (w_requests w')
       = map rq_data (w_requests w)
         ++ repeat Overpass.critical_query (attempts_spent reply)
    /\ (reply_fails reply = true -> fs = []).
Proof.
  intros Hreply Hfs.
  destruct (execute_answered Overpass.critical_query reply w Hreply)
    as (w1 & Hrun & Hreq & _).
  apply region_features_inv in Hfs as Hparts. destruct Hparts as (elements & Hel & Hproc).
  unfold Overpass.download_critical_infrastructure. unfold bind at 1. rewrite Hrun.
  unfold bind at 1. unfold lift at 1. rewrite Hel.
  unfold bind at 1. unfold lift at 1. rewrite Hproc.
  destruct (save_geojson_run lib fs "critical.geojson" "critical" w1)
    as (w2 & Hsave & Hsaved & Hcount & Hr2 & _).
  exists w2. split; [exact Hsave|]. split; [exact Hsaved|]. split; [exact Hcount|].
  split; [rewrite Hr2; exact Hreq|].
  intros Hfails. destruct reply as [[v|t]|e]; try discriminate Hfails;
    cbn in Hfs; congruence.
Qed.

Lemma critical_download_stores_the_answer_witness :
  exists w',
    Overpass.download_critical_infrastructure sample_lib (sample_world critical_network)
    = (Ok tt, w')
    /\ option_map (@length Json) (saved_features "critical.geojson" w') = Some 3%nat
    /\ length (w_requests w') = 1%nat.
Proof.
  destruct (critical_download_stores_the_answer
              sample_lib (Body (JsonDoc (JDict [("elements", JList critical_elements)])))
              (features_of (Overpass.process_critical_elements sample_lib
                              (JList critical_elements)))
              (sample_world critical_network))
    as (w' & Hrun & Hfs & _ & Hreq & _).
  - intros n endpoint. reflexivity.
  - vm_compute. reflexivity.
  - exists w'. split; [exact Hrun|]. split.
    + rewrite Hfs. vm_compute. reflexivity.
    + apply (f_equal (@length string)) in Hreq. rewrite length_map in Hreq.
      rewrite Hreq. vm_compute. reflexivity.
Defined.

(** ** The cache strategy passed over *)

(** X28.  With the rate limiter in its working range, the cached file is
    passed over when the cache is disabled, when there is no file
    [<asset_type>_cached.geojson], and when the file is 24 hours old or
    older: the request is then recorded under another strategy. *)
Theorem stale_or_disabled_cache_is_passed_over
        (lib : PyLib) (self : DownloadManager.t) (asset_type : string) (w : World) :
  limiter_in_range (DownloadManager.rate_limiter self) 4 (w_clock w) ->
  (DownloadManager.enable_cache (DownloadManager.config self) = false
   \/ w_assets w !! (asset_type +:+ "_cached.geojson") = None
   \/ exists f, w_assets w !! (asset_type +:+ "_cached.geojson") = Some f
                /\ (24 * 3600 <= w_clock w - f_mtime f)%Q) ->
  exists self' w' op,
    DownloadManager.download_with_fallback lib self asset_type w = (Ok (true, self'), w')
    /\ DownloadManager.operations (DownloadManager.download_stats self')
       = DownloadManager.operations (DownloadManager.download_stats self) ++ [op]
    /\ In (DownloadManager.op_strategy op)
          [ "_try_optimized_download"; "_try_alternative_sources"; "_try_fallback_data" ].
Proof.
  intros _ Hwhy.
  rewrite download_with_fallback_start. unfold DownloadManager.strategies.
  set (w0 := add_log (LogStarting asset_type) w).
  destruct (wait_if_needed_full (DownloadManager.rate_limiter self) w0)
    as (rl1 & w1 & Hwait1 & _ & Hm1 & _ & _ & _ & Ha1 & _).
  rewrite (try_strategies_step _ _ self asset_type (w_clock w) w0 rl1 w1 Hwait1).
  cbn [DownloadManager.strategy_call].
  assert (Hmiss : DownloadManager._try_cached_download
                    (DownloadManager.set_rate_limiter self rl1) asset_type w1
                  = (Ok false, w1)).
  { rewrite try_cached_download_run. rewrite Ha1. unfold w0 at 1. cbn [add_log w_assets].
    cbn [DownloadManager.set_rate_limiter DownloadManager.config].
    destruct Hwhy as [Hoff | [Hnone | (f & Hf & Hold)]].
    - rewrite Hoff. destruct (w_assets w !! _); reflexivity.
    - rewrite Hnone. reflexivity.
    - rewrite Hf. replace (Qltb (w_clock w1 - f_mtime f) (24 * 3600)) with false.
      + rewrite andb_false_r. reflexivity.
      + symmetry. apply Qltb_ge. unfold w0 in Hm1. cbn [add_log w_clock] in Hm1. lra. }
  rewrite Hmiss.
  match goal with |- context [DownloadManager.try_strategies ?rest ?self1 _ _ _] =>
    destruct (chain_with_sure_strategy rest self1 asset_type (w_clock w) w1)
      as (self' & w' & op & Hrun & Hops & _ & _ & (s' & Hs' & Hname) & _)
  end.
  - exists (DownloadManager.mkStrategy "_try_fallback_data"
                                       DownloadManager._try_fallback_data).
    split; [cbn; tauto|]. intros self0 w2. reflexivity.
  - exists self', w', op. split; [exact Hrun|]. split; [exact Hops|].
    rewrite Hname. cbn in Hs'.
    destruct Hs' as [<-|[<-|[<-|[]]]]; cbn; tauto.
Qed.

Lemma stale_or_disabled_cache_is_passed_over_witness :
  exists self' w' op,
    DownloadManager.download_with_fallback sample_lib sample_manager "airports" stale_world
    = (Ok (true, self'), w')
    /\ DownloadManager.operations (DownloadManager.download_stats self') = [op]
    /\ In (DownloadManager.op_strategy op)
          [ "_try_optimized_download"; "_try_alternative_sources"; "_try_fallback_data" ].
Proof.
  destruct (stale_or_disabled_cache_is_passed_over sample_lib sample_manager "airports"
              stale_world)
    as (self' & w' & op & Hrun & Hops & Hname).
  - range_by_evaluation.
  - right. right. eexists. split; [reflexivity|]. vm_compute. discriminate.
  - exists self', w', op. split; [exact Hrun|]. split; [exact Hops | exact Hname].
Defined.

(** ** The pauses of the chunked downloads *)

Lemma random_uniform_range (a b : Q) (w : World) :
  (a < b)%Q ->
  exists u w',
    random_uniform a b w = (Ok u, w')
    /\ (a <= u /\ u < b)%Q
    /\ quiet w w' /\ w_sleeps w' = w_sleeps w /\ w_clock w' = w_clock w.
Proof.
  intros Hab. unfold random_uniform, bind, random_random, ret.
  destruct (fractional_part_bounds (w_random w (w_draws w))) as [H0 H1].
  do 2 eexists. split; [reflexivity|]. cbn [w_sleeps w_clock].
  split; [|split; [unfold quiet; cbn; tauto | split; reflexivity]].
  split; nra.
Qed.

Lemma attempt_query_sleeps (query : string) (attempt : Z) (w : World) :
  exists r w' sleeps,
    Overpass.attempt_query query attempt w = (r, w')
    /\ w_sleeps w' = w_sleeps w ++ sleeps
    /\ Forall (fun d => 0 <= d)%Q sleeps
    /\ (w_clock w' == w_clock w + total_sleep sleeps)%Q
    /\ w_network w' = w_network w.
Proof.
  destruct (attempt_query_trace query attempt w)
    as (endpoint & w1 & s1 & _ & Hq & Hs1 & Hok1 & Hc1 & Hrun).
  assert (Hpos1 : Forall (fun d => 0 <= d)%Q s1).
  { destruct (0 <? attempt) eqn:E.
    - apply Forall2_cons_inv_l in Hok1 as (d & l & [Hd _] & Hl & ->).
      apply Forall2_nil_inv_l in Hl as ->. constructor; [|constructor].
      apply Z.ltb_lt in E.
      assert (0 <= inject_Z (3 ^ attempt))%Q.
      { change 0%Q with (inject_Z 0). rewrite <- Zle_Qle. apply Z.pow_nonneg. lia. }
      lra.
    - apply Forall2_nil_inv_l in Hok1 as ->. constructor. }
  destruct Hq as (Hn1 & _). rewrite Hrun.
  destruct (w_network w (length (w_requests w)) (mkRequest endpoint query));
    exists_world s1; cbn [add_request w_sleeps w_clock w_network];
    repeat split; assumption.
Qed.

Lemma retry_loop_sleeps (query : string) (max_retries : Z) (attempts : list Z) (w : World) :
  exists data w' sleeps,
    Overpass.retry_loop query max_retries attempts w = (Ok data, w')
    /\ w_sleeps w' = w_sleeps w ++ sleeps
    /\ Forall (fun d => 0 <= d)%Q sleeps
    /\ (w_clock w' == w_clock w + total_sleep sleeps)%Q
    /\ w_network w' = w_network w.
Proof.
  revert w. induction attempts as [|attempt attempts IH]; intros w.
  - exists Overpass.empty_result, w, []. split; [reflexivity|].
    rewrite app_nil_r. split; [reflexivity|]. split; [constructor|].
    split; [unfold total_sleep; cbn; lra | reflexivity].
  - cbn [Overpass.retry_loop].
    destruct (attempt_query_sleeps query attempt w)
      as (r & w2 & s1 & Hrun & Hs2 & Hpos1 & Hc2 & Hn2).
    unfold bind at 1. unfold try_except, bind at 1. rewrite Hrun.
    destruct r as [data|e].
    + unfold ret. exists data, w2, s1. tauto.
    + destruct (attempt =? max_retries - 1); unfold ret.
      * exists Overpass.empty_result, w2, s1. tauto.
      * destruct (IH w2) as (data & w' & s' & Hloop & Hs' & Hpos' & Hc' & Hn').
        exists data, w', (s1 ++ s'). split; [exact Hloop|].
        split; [rewrite Hs', Hs2, <- app_assoc; reflexivity|].
        split; [apply Forall_app; split; assumption|].
        split; [rewrite Hc', Hc2, total_sleep_app; lra | congruence].
Qed.

Lemma total_sleep_nonneg (sleeps : list Q) :
  Forall (fun d => 0 <= d)%Q sleeps -> (0 <= total_sleep sleeps)%Q.
Proof.
  unfold total_sleep. induction 1 as [|d l Hd Hl IH]; cbn [fold_right]; lra.
Qed.

(** The loop over the regions sleeps between ten and twenty seconds after
    every region, the last one too. *)
Lemma chunked_loop_sleeps (query_of : Z * Z * Z * Z -> string)
      (process : Json -> Res (list Json))
      (regions : list (string * (Z * Z * Z * Z))) (acc fs : list Json) (w w' : World) :
  Overpass.chunked_loop query_of process regions acc w = (Ok fs, w') ->
  exists sleeps,
    w_sleeps w' = w_sleeps w ++ sleeps
    /\ Forall (fun d => 0 <= d)%Q sleeps
    /\ (10 * inject_Z (Z.of_nat (length regions)) <= total_sleep sleeps)%Q
    /\ (w_clock w' == w_clock w + total_sleep sleeps)%Q
    /\ (regions = [] -> sleeps = [])
    /\ (regions <> [] -> exists d, last sleeps = Some d /\ (10 <= d /\ d < 20)%Q).
Proof.
  revert acc w. induction regions as [|[region_name bbox] regions IH]; intros acc w Hrun.
  - injection Hrun as _ <-. exists []. rewrite app_nil_r. split; [reflexivity|].
    split; [constructor|]. unfold total_sleep. cbn [fold_right length].
    change (inject_Z (Z.of_nat 0)) with 0%Q.
    split; [lra|]. split; [lra|]. split; [reflexivity|]. intros H. destruct (H eq_refl).
  - cbn [Overpass.chunked_loop] in Hrun. unfold Overpass.execute_query_with_retry in Hrun.
    destruct (retry_loop_sleeps (query_of bbox) 3 (Overpass.range 3) w)
      as (data & w1 & s1 & Hexec & Hs1 & Hpos1 & Hc1 & _).
    unfold bind at 1 in Hrun. rewrite Hexec in Hrun.
    unfold bind at 1 in Hrun. unfold lift at 1 in Hrun.
    destruct (py_get data "elements" (JList [])) as [elements|e]; [|discriminate Hrun].
    unfold bind at 1 in Hrun. unfold lift at 1 in Hrun.
    destruct (process elements) as [region_features|e]; [|discriminate Hrun].
    destruct (random_uniform_range 10 20 w1) as (u & w2 & Hu & Hrange & _ & Hs2 & Hc2);
      [lra|].
    unfold bind at 1 in Hrun. rewrite Hu in Hrun.
    unfold bind at 1 in Hrun. unfold time_sleep at 1 in Hrun.
    apply IH in Hrun as (s' & Hs' & Hpos' & Htotal' & Hc' & Hnil' & Hlast').
    cbn [w_sleeps w_clock] in Hs', Hc'.
    exists (s1 ++ [u] ++ s').
    split; [rewrite Hs', Hs2, Hs1, <- !app_assoc; reflexivity|].
    split; [apply Forall_app; split; [exact Hpos1|];
            apply Forall_app; split; [constructor; [lra | constructor] | exact Hpos']|].
    pose proof (total_sleep_nonneg s1 Hpos1) as Hnn1.
    assert (Htot : (total_sleep (s1 ++ [u] ++ s') == total_sleep s1 + u + total_sleep s')%Q).
    { rewrite !total_sleep_app. unfold total_sleep at 2. cbn [fold_right]. lra. }
    split.
    { rewrite Htot. cbn [length]. rewrite Nat2Z.inj_succ, <- Z.add_1_r, inject_Z_plus.
      change (inject_Z 1) with 1%Q. lra. }
    split; [rewrite Hc', Hc2, Hc1, Htot; lra|].
    split; [discriminate|].
    intros _. destruct regions as [|r regions'].
    + rewrite (Hnil' eq_refl). rewrite app_nil_r.
      exists u. split; [|exact Hrange]. apply last_snoc.
    + destruct Hlast' as (d & Hd & Hdr); [discriminate|].
      exists d. split; [|exact Hdr].
      rewrite app_assoc. rewrite last_app. rewrite Hd. reflexivity.
Qed.

(** X29.  A chunked download that returns has paused after every region,
    the last one included: the sleeps it asked for add up to at least 50
    seconds, and the last of them is the pause of ten to twenty seconds
    after the fifth region. *)
Theorem chunked_download_pauses_after_every_region
        (lib : PyLib) (asset_type : string) (download : M unit) (w w' : World) :
  In (asset_type, download)
     [ ("military", Overpass.download_military_chunked lib);
       ("energy", Overpass.download_energy_chunked lib) ] ->
  download w = (Ok tt, w') ->
  exists sleeps d,
    w_sleeps w' = w_sleeps w ++ sleeps
    /\ last sleeps = Some d /\ (10 <= d /\ d <= 20)%Q
    /\ (50 <= total_sleep sleeps)%Q.
Proof.
  intros Hin Hrun.
  assert (Hchunked : forall query_of process name kind,
             (let* all_features := Overpass.chunked_loop query_of process
                                     Overpass.EU_REGIONS [] in
              Overpass.save_geojson lib all_features name kind) w = (Ok tt, w') ->
             exists sleeps d,
               w_sleeps w' = w_sleeps w ++ sleeps
               /\ last sleeps = Some d /\ (10 <= d /\ d <= 20)%Q
               /\ (50 <= total_sleep sleeps)%Q).
  { intros query_of process name kind H. unfold bind in H.
    destruct (Overpass.chunked_loop query_of process Overpass.EU_REGIONS [] w)
      as [[fs|e] w1] eqn:Eloop; [|discriminate H].
    apply chunked_loop_sleeps in Eloop as (sleeps & Hs & _ & Htotal & Hc & _ & Hlast).
    destruct Hlast as (d & Hd & Hrange); [discriminate|].
    unfold Overpass.save_geojson, bind, time_time, assets_write_text in H.
    injection H as <-. cbn [w_sleeps w_clock].
    exists sleeps, d. split; [exact Hs|]. split; [exact Hd|].
    split; [split; [apply Hrange | apply Qlt_le_weak; apply Hrange]|].
    change (inject_Z (Z.of_nat (length Overpass.EU_REGIONS))) with 5%Q in Htotal. lra. }
  cbn [In] in Hin. destruct Hin as [[= <- <-] | [[= <- <-] | []]].
  - exact (Hchunked _ _ _ _ Hrun).
  - exact (Hchunked _ _ _ _ Hrun).
Qed.

Lemma chunked_download_pauses_after_every_region_witness :
  exists sleeps,
    w_sleeps (snd (Overpass.download_energy_chunked sample_lib (sample_world energy_network)))
    = sleeps
    /\ (50 <= total_sleep sleeps)%Q.
Proof.
  destruct (chunked_download_pauses_after_every_region
              sample_lib "energy" (Overpass.download_energy_chunked sample_lib)
              (sample_world energy_network)
              (snd (Overpass.download_energy_chunked sample_lib (sample_world energy_network))))
    as (sleeps & d & Hsleeps & _ & _ & Htotal).
  - cbn. tauto.
  - vm_compute. reflexivity.
  - exists sleeps. split; [rewrite Hsleeps; reflexivity | exact Htotal].
Defined.
